(** * wealthgrabber: the transformation and presentation pipeline

    A shallow embedding of [accounts.py], [activities.py], [assets.py],
    [formatters.py], [models.py] and the reporting commands of [cli.py],
    followed by the properties of the pipeline.  Python values are embedded
    as follows.

    - [float] is IEEE 754 binary64, taken from [SpecFloat] with precision 53
      and maximal exponent 1024; every operation rounds to nearest even, as
      CPython's does.
    - [str] is [string]; one [ascii] stands for one code point, so the
      embedding covers the strings whose code points are below 256.  Order,
      length, slicing and lower-casing are per code point.
    - a [dict] read with [.get(key, default)] is a record of [option] fields,
      [None] standing for an absent key; a [dict] used as a table is a [gmap].
    - a numeric field of a raw record holds the [float] that Python's
      [float(...)] reads from it (the upstream API sends decimal strings).
    - the security cache and the calls made to the brokerage client are
      threaded through a state monad. *)

From Stdlib Require Import ZArith String Ascii List Bool Lia Permutation Sorted.
From Stdlib Require Import DecimalString QArith.
From Stdlib Require Import Floats.SpecFloat.
From stdpp Require Import base option gmap strings list.

Import ListNotations.
Local Open Scope string_scope.
Local Open Scope list_scope.

(** ** Python builtins *)

Module Py.

(** *** float *)

Definition float : Type := spec_float.

Definition prec : Z := 53.
Definition emax : Z := 1024.

Definition of_Z (z : Z) : float := binary_normalize prec emax z 0 false.

Definition fzero : float := S754_zero false.
Definition fadd : float -> float -> float := SFadd prec emax.
Definition fsub : float -> float -> float := SFsub prec emax.
Definition fmul : float -> float -> float := SFmul prec emax.
Definition fdiv : float -> float -> float := SFdiv prec emax.

(** [x == y], [x != y], [x < y], [x > y], [x >= y] on floats; every
    comparison with a NaN is false, except [!=]. *)
Definition feqb (x y : float) : bool := SFeqb x y.
Definition fneb (x y : float) : bool := negb (SFeqb x y).
Definition fltb (x y : float) : bool := SFltb x y.
Definition fgtb (x y : float) : bool := SFltb y x.
Definition fgeb (x y : float) : bool := SFleb y x.

(** The decimal literal [n / 10^k], for [n] and [10^k] below [2^53]: both
    are exact and the quotient is rounded once, which is how the literal
    itself is read. *)
Definition dec (n : Z) (k : nat) : float := fdiv (of_Z n) (of_Z (10 ^ Z.of_nat k)).

(** [sum(xs)]: the accumulator starts at the integer [0] and the items are
    added from left to right, each addition rounded.  (From CPython 3.12 on,
    [sum] carries a compensation term over a run of floats; for one or two
    items the result is the same, and so it is for the three-item sum of the
    sample [Sample.one_and_two].) *)
Definition sum (xs : list float) : float := fold_left fadd xs fzero.

(** *** str *)

(** Truth value of a string: non-empty. *)
Definition truthy (s : string) : bool :=
  match s with EmptyString => false | String _ _ => true end.

(** [s[:n]] *)
Fixpoint slice_to (n : nat) (s : string) : string :=
  match n, s with
  | S n', String c s' => String c (slice_to n' s')
  | _, _ => EmptyString
  end.

(** [str.lower] on one code point below 256: the upper-case letters are
    [A-Z], [U+00C0-U+00D6] and [U+00D8-U+00DE], each 32 below its lower
    case. *)
Definition lower_char (c : ascii) : ascii :=
  let n := nat_of_ascii c in
  if ((65 <=? n) && (n <=? 90) || (192 <=? n) && (n <=? 214)
      || (216 <=? n) && (n <=? 222))%nat
  then ascii_of_nat (n + 32) else c.

Fixpoint lower (s : string) : string :=
  match s with
  | EmptyString => EmptyString
  | String c s' => String (lower_char c) (lower s')
  end.

(** [sub in s]: [sub] occurs in [s] as a contiguous substring. *)
Fixpoint contains (sub s : string) : bool :=
  String.prefix sub s
  || match s with
     | EmptyString => false
     | String _ s' => contains sub s'
     end.

(** [any(f(x) for x in xs)] *)
Definition any {A} (f : A -> bool) (xs : list A) : bool := existsb f xs.

(** [x or default] on an optional string: [None] and the empty string are
    both false. *)
Definition or_str (x : option string) (d : string) : string :=
  match x with
  | Some s => if truthy s then s else d
  | None => d
  end.

(** [c * n] for a one-character string, [s.ljust(n)] and [s.rjust(n)],
    which are the format specifications [<n] and [>n], and
    [sep.join(parts)]. *)
Fixpoint repeat_char (c : ascii) (n : nat) : string :=
  match n with
  | O => EmptyString
  | S n' => String c (repeat_char c n')
  end.

Definition ljust (n : nat) (s : string) : string :=
  s +:+ repeat_char " " (n - String.length s).

Definition rjust (n : nat) (s : string) : string :=
  repeat_char " " (n - String.length s) +:+ s.

Definition join (sep : string) (parts : list string) : string :=
  String.concat sep parts.

Definition nl : string := String (ascii_of_nat 10) EmptyString.
Definition cr : string := String (ascii_of_nat 13) EmptyString.
Definition dquote : string := String (ascii_of_nat 34) EmptyString.

(** *** Sorting and grouping *)

(** [sorted(xs, key=key)] for a string key.  The sort is stable, and a
    stable sort has one result; it is computed here by insertion, each
    item going before the items after it that have the same key. *)
Fixpoint insert_by {A} (key : A -> string) (x : A) (xs : list A) : list A :=
  match xs with
  | [] => [x]
  | y :: xs' =>
      if String.leb (key x) (key y) then x :: y :: xs'
      else y :: insert_by key x xs'
  end.

Fixpoint sorted {A} (key : A -> string) (xs : list A) : list A :=
  match xs with
  | [] => []
  | x :: xs' => insert_by key x (sorted key xs')
  end.

(** [itertools.groupby(xs, key=key)]: the maximal runs of consecutive items
    with equal keys, each with its key. *)
Fixpoint groupby {A K} `{EqDecision K} (key : A -> K) (xs : list A)
  : list (K * list A) :=
  match xs with
  | [] => []
  | x :: xs' =>
      match groupby key xs' with
      | (k, g) :: rest =>
          if decide (key x = k) then (k, x :: g) :: rest
          else (key x, [x]) :: (k, g) :: rest
      | [] => [(key x, [x])]
      end
  end.

(** *** Fixed-point formatting of a float: the format type [f] *)

(** The integer nearest to [num / den], ties going to the even one. *)
Definition round_half_even (num den : Z) : Z :=
  let q := (num / den)%Z in
  let r := (num mod den)%Z in
  match (2 * r ?= den)%Z with
  | Lt => q
  | Gt => (q + 1)%Z
  | Eq => if Z.even q then q else (q + 1)%Z
  end.

(** [m * 2^e * 10^digits], rounded to an integer. *)
Definition scaled (digits : nat) (m : positive) (e : Z) : Z :=
  let n := (Z.pos m * 10 ^ Z.of_nat digits)%Z in
  if (0 <=? e)%Z then (n * 2 ^ e)%Z else round_half_even n (2 ^ (- e)).

Definition digits_of (n : Z) : string :=
  DecimalString.NilZero.string_of_uint (N.to_uint (Z.to_N n)).

(** The thousands separator of the [,] option. *)
Fixpoint group3 (s : string) : string :=
  match s with
  | EmptyString => EmptyString
  | String c s' =>
      let k := String.length s' in
      String c (if (0 <? k)%nat && (k mod 3 =? 0)%nat
                then "," +:+ group3 s' else group3 s')
  end.

Definition fixed (grouping : bool) (digits : nat) (n : Z) : string :=
  let p := (10 ^ Z.of_nat digits)%Z in
  let int_part := digits_of (n / p) in
  let frac := digits_of (n mod p) in
  (if grouping then group3 int_part else int_part)
  +:+ match digits with
      | O => ""
      | _ => "." +:+ repeat_char "0" (digits - String.length frac) +:+ frac
      end.

(** [format(x, ",.2f")] is [format_f true 2 x]; [format(x, ".1f")] is
    [format_f false 1 x]. *)
Definition format_f (grouping : bool) (digits : nat) (x : float) : string :=
  match x with
  | S754_nan => "nan"
  | S754_infinity s => (if s then "-" else "") +:+ "inf"
  | S754_zero s => (if s then "-" else "") +:+ fixed grouping digits 0
  | S754_finite s m e =>
      (if s then "-" else "") +:+ fixed grouping digits (scaled digits m e)
  end.

End Py.

Export Py.

(** ** models.py *)

Module AccountData.
Record t : Type := mk
  { description : string;
    number : string;
    value : float;
    currency : string }.
End AccountData.

Module ActivityData.
Record t : Type := mk
  { date : string;
    activity_type : string;
    description : string;
    amount : float;
    currency : string;
    sign : string;
    account_label : option string }.
End ActivityData.

Module PositionData.
Record t : Type := mk
  { symbol : string;
    name : string;
    quantity : float;
    market_value : float;
    book_value : float;
    currency : string;
    pnl : float;
    pnl_pct : float;
    account_label : option string }.

(** [pos_data.account_label = label] *)
Definition set_account_label (label : option string) (p : t) : t :=
  mk (symbol p) (name p) (quantity p) (market_value p) (book_value p)
     (currency p) (pnl p) (pnl_pct p) label.
End PositionData.

(** ** Raw records of the brokerage client *)

Module Raw.

(** [{amount, currency}] *)
Record money : Type := Money
  { amount : option float;
    currency : option string }.

Definition no_money : money := Money None None.

(** An account: [financials.currentCombined.netLiquidationValue]. *)
Record combined : Type := Combined { netLiquidationValue : option money }.
Record financials : Type := Financials { currentCombined : option combined }.

Record account : Type := Account
  { acc_id : option string;
    acc_description : option string;
    acc_number : option string;
    acc_financials : option financials }.

(** A position: [{quantity, accounts: [{id}], security: {id}, totalValue,
    bookValue}]. *)
Record account_ref : Type := AccountRef { ref_id : option string }.
Record security : Type := Security { sec_id : option string }.

Record position : Type := Position
  { pos_quantity : option float;
    pos_accounts : option (list account_ref);
    pos_security : option security;
    pos_totalValue : option money;
    pos_bookValue : option money }.

(** The security reference of an activity: an object with an [id], or a
    bare identifier. *)
Inductive security_field : Type :=
| SecObject (s : security)
| SecBare (id : string).

Record activity : Type := Activity
  { act_type : option string;
    act_description : option string;
    act_occurredAt : option string;
    act_amount : option float;
    act_amountSign : option string;
    act_currency : option string;
    act_security : option security_field }.

(** What [get_security_market_data] answers: [{stock: {symbol, name}}].  An
    absent [stock] and an empty one are both [None], as both are false. *)
Record stock : Type := Stock
  { stock_symbol : option string;
    stock_name : option string }.

Record market_data : Type := MarketData { md_stock : option stock }.

(** A call either raises or returns; [Returns None] is an empty answer. *)
Inductive response : Type :=
| Raises
| Returns (md : option market_data).

End Raw.

(** The [WealthsimpleAPI] client.  The answer of [get_security_market_data]
    may depend on the calls made before it, given oldest first. *)
Record WealthsimpleAPI : Type := Client
  { get_accounts : list Raw.account;
    get_identity_positions : string -> list Raw.position;
    get_activities : option string -> list Raw.activity;
    get_security_market_data : list string -> string -> Raw.response }.

(** ** accounts.py *)

Module Accounts.

Definition _extract_account_value (account : Raw.account) : float * string :=
  let financials := default (Raw.Financials None) (Raw.acc_financials account) in
  let net_liq :=
    default Raw.no_money
      (Raw.netLiquidationValue
         (default (Raw.Combined None) (Raw.currentCombined financials))) in
  let value := default fzero (Raw.amount net_liq) in
  let currency := default "CAD" (Raw.currency net_liq) in
  (value, currency).

Definition non_liquid_keywords : list string :=
  ["rrsp"; "lira"; "private equity"; "private credit"].

Definition _is_non_liquid_account (description : string) : bool :=
  any (fun keyword => contains keyword (lower description)) non_liquid_keywords.

Definition _should_include_account
    (is_non_liquid liquid_only not_liquid : bool) : bool :=
  if liquid_only && is_non_liquid then false
  else if not_liquid && negb is_non_liquid then false
  else true.

(** One turn of the loop of [get_accounts_data]: the entry appended for
    [account], or [None] where the loop continues without appending. *)
Definition account_entry (show_zero_balances liquid_only not_liquid : bool)
    (account : Raw.account) : option AccountData.t :=
  let description := default "Unknown Account" (Raw.acc_description account) in
  let number := default "N/A" (Raw.acc_number account) in
  let is_non_liquid := _is_non_liquid_account description in
  if negb (_should_include_account is_non_liquid liquid_only not_liquid) then None
  else
    let '(value, currency) := _extract_account_value account in
    if feqb value fzero && negb show_zero_balances then None
    else Some (AccountData.mk description number value currency).

Definition get_accounts_data (ws : WealthsimpleAPI)
    (show_zero_balances liquid_only not_liquid : bool) : list AccountData.t :=
  let accounts := get_accounts ws in
  match accounts with
  | [] => []
  | _ => omap (account_entry show_zero_balances liquid_only not_liquid) accounts
  end.

End Accounts.

(** ** Library functions used through their results

    The regular-expression engine, the ISO date parser and the shortest
    round-trip printing of a float are Python library code; the embedding
    takes their results as given. *)
Record Library : Type := Lib
  { (** [re.search(pattern, s)]: [group(1)] of the first match, [None] when
        nothing matches *)
    re_search : string -> string -> option string;
    (** [re.sub(pattern, repl, s)] *)
    re_sub : string -> string -> string -> string;
    (** [datetime.fromisoformat(s).strftime("%Y-%m-%d")], [None] when the
        parser raises *)
    fromisoformat_ymd : string -> option string;
    (** [repr(x)] of a float, as [csv.writer] prints it and, for a finite
        one, [json.dumps] *)
    float_repr : float -> string }.

(** ** The per-invocation state: security cache and client calls *)

Module St.

Record state (V : Type) : Type := State
  { cache : gmap string V;
    calls : list string }.
Arguments State {V} _ _.
Arguments cache {V} _.
Arguments calls {V} _.

(** A computation that reads and updates the cache and may call the client. *)
Definition M (V A : Type) : Type := state V -> A * state V.

Definition ret {V A} (a : A) : M V A := fun st => (a, st).

Definition bind {V A B} (m : M V A) (k : A -> M V B) : M V B :=
  fun st => let '(a, st') := m st in k a st'.

(** [security_id in cache] followed by [cache[security_id]] *)
Definition cache_get {V} (security_id : string) : M V (option V) :=
  fun st => (cache st !! security_id, st).

(** [cache[security_id] = v] *)
Definition cache_set {V} (security_id : string) (v : V) : M V unit :=
  fun st => (tt, State (<[security_id := v]> (cache st)) (calls st)).

(** [ws.get_security_market_data(security_id, use_cache=False)]; the call
    is recorded. *)
Definition fetch_market_data {V} (ws : WealthsimpleAPI) (security_id : string)
  : M V Raw.response :=
  fun st =>
    (get_security_market_data ws (calls st) security_id,
     State (cache st) (calls st ++ [security_id])).

(** A comprehension or [for] loop whose body runs in the monad. *)
Fixpoint mapM {V A B} (f : A -> M V B) (xs : list A) : M V (list B) :=
  match xs with
  | [] => ret []
  | x :: xs' =>
      bind (f x) (fun y => bind (mapM f xs') (fun ys => ret (y :: ys)))
  end.

(** A fresh cache, no call made yet. *)
Definition init {V} : state V := State ∅ [].

End St.

Import St.

Notation "x <- m ;; k" := (St.bind m (fun x => k))
  (at level 100, m at next level, right associativity).

(** ** activities.py *)

Module Activities.

Definition DIVIDEND_TYPES : list string :=
  ["DIY_DIVIDEND"; "DIVIDEND"; "DISTRIBUTION"].

(** [str.upper], per code point; the three code points below 256 whose
    upper case is not a single code point below 256 ([U+00B5], [U+00DF],
    [U+00FF]) are left as they are. *)
Definition upper_char (c : ascii) : ascii :=
  let n := nat_of_ascii c in
  if ((97 <=? n) && (n <=? 122) || (224 <=? n) && (n <=? 246)
      || (248 <=? n) && (n <=? 254))%nat
  then ascii_of_nat (n - 32) else c.

Fixpoint upper (s : string) : string :=
  match s with
  | EmptyString => EmptyString
  | String c s' => String (upper_char c) (upper s')
  end.

Definition is_dividend_activity (activity : Raw.activity) : bool :=
  let act_type := upper (default "" (Raw.act_type activity)) in
  let description := upper (default "" (Raw.act_description activity)) in
  any (fun div => contains div act_type || contains div description)
      DIVIDEND_TYPES.

Definition get_account_id_by_number (ws : WealthsimpleAPI)
    (account_number : string) : option string :=
  match List.find
          (fun account =>
             bool_decide (Raw.acc_number account = Some account_number))
          (get_accounts ws) with
  | Some account => Raw.acc_id account
  | None => None
  end.

Definition _get_security_name (ws : WealthsimpleAPI) (security_id : string)
  : M string string :=
  hit <- cache_get security_id ;;
  match hit with
  | Some cached => ret cached
  | None =>
      name <-
        (if truthy security_id then
           market_data <- fetch_market_data ws security_id ;;
           ret match market_data with
               | Raw.Returns (Some (Raw.MarketData (Some stock))) =>
                   let symbol := default "" (Raw.stock_symbol stock) in
                   let stock_name := default "" (Raw.stock_name stock) in
                   if truthy symbol then symbol
                   else if truthy stock_name then stock_name
                   else security_id
               | _ => security_id
               end
         else ret security_id) ;;
      _ <- cache_set security_id name ;;
      ret name
  end.

Section WithLibrary.

Context (lib : Library).

(** [security.get("id") if isinstance(security, dict) else security],
    when [security] is true. *)
Definition direct_security_id (activity : Raw.activity) : option string :=
  match Raw.act_security activity with
  | Some (Raw.SecObject s) => Raw.sec_id s
  | Some (Raw.SecBare id) => Some id
  | None => None
  end.

Definition _enhance_description (ws : WealthsimpleAPI)
    (activity : Raw.activity) : M string string :=
  let description := default "N/A" (Raw.act_description activity) in
  let security_id := direct_security_id activity in
  let security_id :=
    if truthy (or_str security_id "") then security_id
    else re_search lib "\[?(sec-[a-z]-[a-f0-9]+)" description in
  if truthy (or_str security_id "") then
    let security_id := or_str security_id "" in
    security_name <- _get_security_name ws security_id ;;
    let description :=
      re_sub lib "\[?(sec-[a-z]-[a-f0-9]+)\]?" security_name description in
    ret
      (if contains "DIY_BUY" (default "" (Raw.act_type activity))
          && negb (contains security_name description)
       then
         match re_search lib "buy (\d+\.?\d*)" description with
         | Some qty =>
             "Dividend reinvestment: buy " +:+ qty +:+ " " +:+ security_name
         | None => description
         end
       else description)
  else ret description.

(** [iso_date.replace("Z", "+00:00")] *)
Fixpoint replace_Z (s : string) : string :=
  match s with
  | EmptyString => EmptyString
  | String c s' =>
      if Ascii.eqb c "Z"%char then "+00:00" +:+ replace_Z s'
      else String c (replace_Z s')
  end.

Definition _format_date (iso_date : string) : string :=
  match fromisoformat_ymd lib (replace_Z iso_date) with
  | Some ymd => ymd
  | None =>
      if (10 <=? String.length iso_date)%nat then slice_to 10 iso_date
      else "N/A"
  end.

Definition _transform_activity (ws : WealthsimpleAPI)
    (activity : Raw.activity) (account_label : option string)
  : M string ActivityData.t :=
  let date_str := _format_date (default "" (Raw.act_occurredAt activity)) in
  let act_type := slice_to 14 (default "N/A" (Raw.act_type activity)) in
  enhanced <- _enhance_description ws activity ;;
  let description := slice_to 34 enhanced in
  let amount := default fzero (Raw.act_amount activity) in
  let currency := default "CAD" (Raw.act_currency activity) in
  let sign :=
    if bool_decide (Raw.act_amountSign activity = Some "positive")
    then "+" else "-" in
  ret (ActivityData.mk date_str act_type description amount currency sign
         account_label).

(** [xs[:limit]]; a negative [limit] counts from the end. *)
Definition slice_list {A} (limit : Z) (xs : list A) : list A :=
  if (0 <=? limit)%Z then firstn (Z.to_nat limit) xs
  else firstn (length xs - Z.to_nat (- limit)) xs.

Definition _process_account_activities (ws : WealthsimpleAPI)
    (account_id : option string) (account_label : option string)
    (dividends_only : bool) (limit : Z) : M string (list ActivityData.t) :=
  let activities := get_activities ws account_id in
  let activities :=
    if dividends_only then List.filter is_dividend_activity activities
    else activities in
  let activities := slice_list limit activities in
  mapM (fun act => _transform_activity ws act account_label) activities.

Definition account_label_of (account : Raw.account) : string :=
  default "Unknown" (Raw.acc_description account) +:+ " ("
  +:+ default "N/A" (Raw.acc_number account) +:+ ")".

Definition get_activities_data (ws : WealthsimpleAPI)
    (account_id : option string) (dividends_only : bool) (limit : Z)
  : list ActivityData.t :=
  fst
    ((if truthy (or_str account_id "") then
        _process_account_activities ws account_id None dividends_only limit
      else
        match get_accounts ws with
        | [] => ret []
        | accounts =>
            groups <-
              mapM (fun account =>
                      _process_account_activities ws (Raw.acc_id account)
                        (Some (account_label_of account))
                        dividends_only limit)
                   accounts ;;
            ret (concat groups)
        end) init).

End WithLibrary.

End Activities.

(** ** assets.py, the transform layer *)

Module Assets.

Definition _position_has_account (position : Raw.position)
    (account_id : string) : bool :=
  let accounts := default [] (Raw.pos_accounts position) in
  any (fun acc => bool_decide (Raw.ref_id acc = Some account_id)) accounts.

Definition _get_position_account_ids (position : Raw.position) : list string :=
  let accounts := default [] (Raw.pos_accounts position) in
  omap (fun acc =>
          match Raw.ref_id acc with
          | Some id => if truthy id then Some id else None
          | None => None
          end)
       accounts.

Definition _get_security_info (ws : WealthsimpleAPI) (security_id : string)
  : M (string * string) (string * string) :=
  hit <- cache_get security_id ;;
  match hit with
  | Some cached => ret cached
  | None =>
      info <-
        (if truthy security_id then
           market_data <- fetch_market_data ws security_id ;;
           ret match market_data with
               | Raw.Returns (Some (Raw.MarketData (Some stock))) =>
                   let symbol := default "N/A" (Raw.stock_symbol stock) in
                   let name := default symbol (Raw.stock_name stock) in
                   (symbol, name)
               | Raw.Returns _ => ("N/A", "Unknown")
               | Raw.Raises => (security_id, security_id)
               end
         else ret ("N/A", "Unknown")) ;;
      _ <- cache_set security_id info ;;
      ret info
  end.

Definition _get_position_data (ws : WealthsimpleAPI) (position : Raw.position)
    (currency : string) : M (string * string) PositionData.t :=
  let security := default (Raw.Security None) (Raw.pos_security position) in
  let security_id := default "" (Raw.sec_id security) in
  info <- _get_security_info ws security_id ;;
  let symbol := fst info in
  let name := slice_to 30 (snd info) in
  let quantity := default fzero (Raw.pos_quantity position) in
  let total_val := default Raw.no_money (Raw.pos_totalValue position) in
  let market_value := default fzero (Raw.amount total_val) in
  let val_currency := default currency (Raw.currency total_val) in
  let book_val := default Raw.no_money (Raw.pos_bookValue position) in
  let book_value := default fzero (Raw.amount book_val) in
  let pnl := fsub market_value book_value in
  let pnl_pct :=
    if fneb book_value fzero then fmul (fdiv pnl book_value) (of_Z 100)
    else fzero in
  ret (PositionData.mk symbol name quantity market_value book_value
         val_currency pnl pnl_pct None).

Definition _build_account_label (account : Raw.account) : string :=
  let description := default "Unknown" (Raw.acc_description account) in
  let number := default "N/A" (Raw.acc_number account) in
  description +:+ " (" +:+ number +:+ ")".

(** [positions_by_account.setdefault(acc_id, []).append(pos)] *)
Definition setdefault_append (acc_id : string) (pos : Raw.position)
    (d : gmap string (list Raw.position)) : gmap string (list Raw.position) :=
  <[acc_id := default [] (d !! acc_id) ++ [pos]]> d.

(** The first loop of [_get_positions_by_account_grouped]. *)
Definition build_positions_by_account (positions : list Raw.position)
  : gmap string (list Raw.position) :=
  fold_left
    (fun d pos =>
       fold_left (fun d acc_id => setdefault_append acc_id pos d)
                 (_get_position_account_ids pos) d)
    positions ∅.

Definition _get_positions_by_account_grouped (ws : WealthsimpleAPI)
    (positions : list Raw.position) (accounts : list Raw.account)
    (currency : string) : M (string * string) (list PositionData.t) :=
  let positions_by_account := build_positions_by_account positions in
  per_account <-
    mapM (fun account =>
            let acc_id := Raw.acc_id account in
            let acc_positions :=
              default [] (acc_id ≫= fun id => positions_by_account !! id) in
            match acc_positions with
            | [] => ret []
            | _ =>
                let acc_label := _build_account_label account in
                mapM (fun pos =>
                        pos_data <- _get_position_data ws pos currency ;;
                        ret (PositionData.set_account_label (Some acc_label)
                               pos_data))
                     acc_positions
            end)
         accounts ;;
  ret (concat per_account).

Definition _filter_positions_by_account (positions : list Raw.position)
    (account_id : string) : list Raw.position :=
  List.filter (fun p => _position_has_account p account_id) positions.

Definition _get_accounts_for_assets (ws : WealthsimpleAPI)
    (account_id : option string) : list Raw.account :=
  let accounts := get_accounts ws in
  if truthy (or_str account_id "") then
    List.filter (fun a => bool_decide (Raw.acc_id a = account_id)) accounts
  else accounts.

(** [get_assets_data], with the state it ends in. *)
Definition get_assets_data_run (ws : WealthsimpleAPI)
    (account_id : option string) (by_account : bool) (currency : string)
    (pnl_filter : option string)
  : list PositionData.t * state (string * string) :=
  let positions := get_identity_positions ws currency in
  match positions with
  | [] => ([], init)
  | _ =>
      let positions :=
        if truthy (or_str account_id "")
        then _filter_positions_by_account positions (or_str account_id "")
        else positions in
      match positions with
      | [] => ([], init)
      | _ =>
          let security_cache := init in
          let position_data :=
            if negb by_account then
              Some (mapM (fun pos => _get_position_data ws pos currency)
                      positions)
            else
              match _get_accounts_for_assets ws account_id with
              | [] => None
              | accounts =>
                  Some (_get_positions_by_account_grouped ws positions
                          accounts currency)
              end in
          match position_data with
          | None => ([], security_cache)
          | Some fetch =>
              let '(position_data, st) := fetch security_cache in
              let position_data :=
                if bool_decide (pnl_filter = Some "profit") then
                  List.filter
                    (fun pos => fgtb (PositionData.pnl pos) fzero)
                    position_data
                else if bool_decide (pnl_filter = Some "loss") then
                  List.filter
                    (fun pos => fltb (PositionData.pnl pos) fzero)
                    position_data
                else position_data in
              (position_data, st)
          end
      end
  end.

Definition get_assets_data (ws : WealthsimpleAPI)
    (account_id : option string) (by_account : bool) (currency : string)
    (pnl_filter : option string) : list PositionData.t :=
  fst (get_assets_data_run ws account_id by_account currency pnl_filter).

Definition _calculate_position_totals (positions : list PositionData.t)
  : float * float * float :=
  let total_value := sum (map PositionData.market_value positions) in
  let total_book := sum (map PositionData.book_value positions) in
  let total_pnl := fsub total_value total_book in
  let total_pnl_pct :=
    if fneb total_book fzero then fmul (fdiv total_pnl total_book) (of_Z 100)
    else fzero in
  (total_value, total_pnl, total_pnl_pct).

End Assets.

(** ** formatters.py *)

Module Formatters.

Definition _calculate_position_totals (positions : list PositionData.t)
  : float * float * float * float :=
  let total_value := sum (map PositionData.market_value positions) in
  let total_book := sum (map PositionData.book_value positions) in
  let total_pnl := fsub total_value total_book in
  let total_pnl_pct :=
    if fneb total_book fzero then fmul (fdiv total_pnl total_book) (of_Z 100)
    else fzero in
  (total_value, total_book, total_pnl, total_pnl_pct).

Record FormatterProtocol : Type := Formatter
  { format_accounts : list AccountData.t -> string;
    format_activities : list ActivityData.t -> string;
    format_positions :
      list PositionData.t -> bool -> option string -> string }.

(** The currency shown with a total: [xs[0].currency if xs else "CAD"]. *)
Definition first_currency (positions : list PositionData.t) : string :=
  match positions with
  | p :: _ => PositionData.currency p
  | [] => "CAD"
  end.

(** *** TableFormatter *)

Module TableFormatter.

Definition rule (n : nat) : string := repeat_char "=" n.
Definition dashes (n : nat) : string := repeat_char "-" n.

(** [f"{'+' if x >= 0 else ''}{x:,.2f}"] and
    [f"{'+' if x >= 0 else ''}{x:.1f}%"] *)
Definition signed_amount (x : float) : string :=
  (if fgeb x fzero then "+" else "") +:+ format_f true 2 x.

Definition signed_percent (x : float) : string :=
  (if fgeb x fzero then "+" else "") +:+ format_f false 1 x +:+ "%".

Definition _format_position_row (pos : PositionData.t) : string :=
  let pnl_str := signed_amount (PositionData.pnl pos) in
  let pnl_pct_str := signed_percent (PositionData.pnl_pct pos) in
  ljust 10 (PositionData.symbol pos) +:+ " "
  +:+ ljust 30 (PositionData.name pos) +:+ " "
  +:+ rjust 10 (format_f false 2 (PositionData.quantity pos)) +:+ " "
  +:+ rjust 12 (format_f true 2 (PositionData.market_value pos)) +:+ " "
  +:+ PositionData.currency pos +:+ " "
  +:+ rjust 13 pnl_str +:+ " " +:+ rjust 8 pnl_pct_str.

Definition _format_totals_row (total_value total_pnl total_pnl_pct : float)
    (label currency : string) : string :=
  let pnl_str := signed_amount total_pnl in
  let pnl_pct_str := signed_percent total_pnl_pct in
  ljust 51 label +:+ " " +:+ rjust 13 (format_f true 2 total_value) +:+ " "
  +:+ currency +:+ " " +:+ rjust 13 pnl_str +:+ " " +:+ rjust 8 pnl_pct_str.

Definition account_row (acc : AccountData.t) : string :=
  ljust 40 (AccountData.description acc) +:+ " "
  +:+ ljust 20 (AccountData.number acc) +:+ " "
  +:+ rjust 15 (format_f true 2 (AccountData.value acc)) +:+ " "
  +:+ AccountData.currency acc.

(** The last three lines of the accounts table. *)
Definition accounts_total_lines (accounts : list AccountData.t)
  : list string :=
  let total_value := fold_left fadd (map AccountData.value accounts) fzero in
  [ rule 80;
    ljust 61 "Total" +:+ " " +:+ rjust 15 (format_f true 2 total_value)
    +:+ " CAD";
    rule 80 ].

Definition format_accounts (accounts : list AccountData.t) : string :=
  match accounts with
  | [] => "No accounts found."
  | _ =>
      let lines :=
        [ nl +:+ rule 80;
          ljust 40 "Account" +:+ " " +:+ ljust 20 "Number" +:+ " "
          +:+ rjust 18 "Value";
          dashes 80 ]
        ++ map account_row accounts
        ++ accounts_total_lines accounts in
      join nl lines
  end.

Definition activity_header : string :=
  ljust 12 "Date" +:+ " " +:+ ljust 14 "Type" +:+ " "
  +:+ ljust 34 "Description" +:+ " " +:+ rjust 18 "Amount".

Definition activity_row (act : ActivityData.t) : string :=
  ljust 12 (ActivityData.date act) +:+ " "
  +:+ ljust 14 (ActivityData.activity_type act) +:+ " "
  +:+ ljust 34 (ActivityData.description act) +:+ " "
  +:+ ActivityData.sign act
  +:+ rjust 14 (format_f true 2 (ActivityData.amount act)) +:+ " "
  +:+ ActivityData.currency act.

(** One turn of the loop of [format_activities]; the state is the lines
    so far and [current_account]. *)
Definition activity_step (st : list string * option string)
    (act : ActivityData.t) : list string * option string :=
  let '(lines, current_account) := st in
  let label := ActivityData.account_label act in
  let '(lines, current_account) :=
    if truthy (or_str label "") && negb (bool_decide (label = current_account))
    then
      (lines
       ++ (match current_account with Some _ => [rule 80] | None => [] end)
       ++ [ nl +:+ rule 80;
            "Account: " +:+ or_str label "";
            rule 80;
            activity_header;
            dashes 80 ],
       label)
    else
      match current_account with
      | None =>
          (lines ++ [nl +:+ rule 80; activity_header; dashes 80], Some "")
      | Some _ => (lines, current_account)
      end in
  (lines ++ [activity_row act], current_account).

Definition format_activities (activities : list ActivityData.t) : string :=
  match activities with
  | [] => "No activities found."
  | _ =>
      let '(lines, _) := fold_left activity_step activities ([], None) in
      join nl (lines ++ [rule 80])
  end.

Definition position_header : string :=
  ljust 10 "Symbol" +:+ " " +:+ ljust 30 "Name" +:+ " " +:+ rjust 10 "Qty"
  +:+ " " +:+ rjust 16 "Market Value" +:+ " " +:+ rjust 14 "P&L" +:+ " "
  +:+ rjust 8 "P&L %".

(** The lines added when [show_totals] holds. *)
Definition position_total_lines (positions : list PositionData.t)
    (group_label : option string) : list string :=
  let '(total_value, total_book, total_pnl, total_pnl_pct) :=
    _calculate_position_totals positions in
  let label :=
    if truthy (or_str group_label "") then "Account Total" else "Total" in
  let currency := first_currency positions in
  [ rule 94;
    _format_totals_row total_value total_pnl total_pnl_pct label currency;
    rule 94 ].

Definition format_positions (positions : list PositionData.t)
    (show_totals : bool) (group_label : option string) : string :=
  match positions with
  | [] => "No positions found."
  | _ =>
      let lines :=
        (if truthy (or_str group_label "")
         then [ nl +:+ rule 94;
                "Account: " +:+ or_str group_label "";
                rule 94 ]
         else [ nl +:+ rule 94 ])
        ++ [ position_header; dashes 94 ]
        ++ map _format_position_row positions
        ++ (if show_totals then position_total_lines positions group_label
            else []) in
      join nl lines
  end.

Definition formatter : FormatterProtocol :=
  Formatter format_accounts format_activities format_positions.

End TableFormatter.

(** *** json.dumps(value, indent=2) *)

#[local] Unset Elimination Schemes.
Inductive json : Type :=
| JNull
| JFloat (x : float)
| JStr (s : string)
| JList (items : list json)
| JDict (items : list (string * json)).

#[local] Set Elimination Schemes.

Definition hex_digit (n : nat) : ascii :=
  ascii_of_nat (if (n <? 10)%nat then 48 + n else 87 + n).

(** One code point inside a JSON string; everything outside the printable
    ASCII range is escaped. *)
Definition json_escape_char (c : ascii) : string :=
  let n := nat_of_ascii c in
  if (n =? 34)%nat then "\" +:+ dquote
  else if (n =? 92)%nat then "\\"
  else if (n =? 10)%nat then "\n"
  else if (n =? 13)%nat then "\r"
  else if (n =? 9)%nat then "\t"
  else if (n =? 8)%nat then "\b"
  else if (n =? 12)%nat then "\f"
  else if (32 <=? n)%nat && (n <=? 126)%nat then String c EmptyString
  else "\u00" +:+ String (hex_digit (n / 16)) (String (hex_digit (n mod 16)) EmptyString).

Fixpoint json_escape (s : string) : string :=
  match s with
  | EmptyString => EmptyString
  | String c s' => json_escape_char c +:+ json_escape s'
  end.

Definition json_string (s : string) : string :=
  dquote +:+ json_escape s +:+ dquote.

Definition indent (level : nat) : string := repeat_char " " (2 * level).

Section Dumps.

Context (lib : Library).

Definition json_float (x : float) : string :=
  match x with
  | S754_nan => "NaN"
  | S754_infinity false => "Infinity"
  | S754_infinity true => "-Infinity"
  | _ => float_repr lib x
  end.

Fixpoint dumps_at (level : nat) (v : json) : string :=
  match v with
  | JNull => "null"
  | JFloat x => json_float x
  | JStr s => json_string s
  | JList [] => "[]"
  | JList items =>
      "[" +:+ nl +:+ indent (S level)
      +:+ join ("," +:+ nl +:+ indent (S level))
            (map (dumps_at (S level)) items)
      +:+ nl +:+ indent level +:+ "]"
  | JDict [] => "{}"
  | JDict items =>
      "{" +:+ nl +:+ indent (S level)
      +:+ join ("," +:+ nl +:+ indent (S level))
            (map (fun kv =>
                    json_string (fst kv) +:+ ": " +:+ dumps_at (S level) (snd kv))
                 items)
      +:+ nl +:+ indent level +:+ "}"
  end.

Definition dumps (v : json) : string := dumps_at 0 v.

(** *** csv.writer: one row, fields quoted only where needed *)

Inductive cell : Type :=
| CStr (s : string)
| CFloat (x : float).

Definition needs_quotes (s : string) : bool :=
  contains "," s || contains dquote s || contains cr s || contains nl s.

Fixpoint double_quotes (s : string) : string :=
  match s with
  | EmptyString => EmptyString
  | String c s' =>
      if Ascii.eqb c (ascii_of_nat 34) then dquote +:+ dquote +:+ double_quotes s'
      else String c (double_quotes s')
  end.

Definition csv_field (c : cell) : string :=
  match c with
  | CStr s =>
      if needs_quotes s then dquote +:+ double_quotes s +:+ dquote else s
  | CFloat x => float_repr lib x
  end.

Definition writerow (row : list cell) : string :=
  join "," (map csv_field row) +:+ cr +:+ nl.

End Dumps.

(** *** JsonFormatter *)

Module JsonFormatter.

Definition opt_str (x : option string) : json :=
  match x with Some s => JStr s | None => JNull end.

(** [asdict(x)] for the three models *)
Definition asdict_account (acc : AccountData.t) : json :=
  JDict [ ("description", JStr (AccountData.description acc));
          ("number", JStr (AccountData.number acc));
          ("value", JFloat (AccountData.value acc));
          ("currency", JStr (AccountData.currency acc)) ].

Definition asdict_activity (act : ActivityData.t) : json :=
  JDict [ ("date", JStr (ActivityData.date act));
          ("activity_type", JStr (ActivityData.activity_type act));
          ("description", JStr (ActivityData.description act));
          ("amount", JFloat (ActivityData.amount act));
          ("currency", JStr (ActivityData.currency act));
          ("sign", JStr (ActivityData.sign act));
          ("account_label", opt_str (ActivityData.account_label act)) ].

Definition asdict_position (pos : PositionData.t) : json :=
  JDict [ ("symbol", JStr (PositionData.symbol pos));
          ("name", JStr (PositionData.name pos));
          ("quantity", JFloat (PositionData.quantity pos));
          ("market_value", JFloat (PositionData.market_value pos));
          ("book_value", JFloat (PositionData.book_value pos));
          ("currency", JStr (PositionData.currency pos));
          ("pnl", JFloat (PositionData.pnl pos));
          ("pnl_pct", JFloat (PositionData.pnl_pct pos));
          ("account_label", opt_str (PositionData.account_label pos)) ].

(** The [totals] object of [format_positions]. *)
Definition totals_value (positions : list PositionData.t) : json :=
  let total_value := sum (map PositionData.market_value positions) in
  let total_book := sum (map PositionData.book_value positions) in
  let total_pnl := fsub total_value total_book in
  let total_pnl_pct :=
    if fneb total_book fzero
    then fmul (fdiv total_pnl total_book) (of_Z 100) else fzero in
  JDict [ ("market_value", JFloat total_value);
          ("book_value", JFloat total_book);
          ("pnl", JFloat total_pnl);
          ("pnl_pct", JFloat total_pnl_pct);
          ("currency", JStr (first_currency positions)) ].

(** The value that [format_positions] serialises. *)
Definition positions_value (positions : list PositionData.t)
    (show_totals : bool) (group_label : option string) : json :=
  let data := JList (map asdict_position positions) in
  match positions with
  | _ :: _ =>
      if show_totals then
        JDict ([ ("positions", data); ("totals", totals_value positions) ]
               ++ (if truthy (or_str group_label "")
                   then [ ("group", JStr (or_str group_label "")) ]
                   else []))
      else data
  | [] => data
  end.

Section WithLibrary.

Context (lib : Library).

Definition format_accounts (accounts : list AccountData.t) : string :=
  dumps lib (JList (map asdict_account accounts)).

Definition format_activities (activities : list ActivityData.t) : string :=
  dumps lib (JList (map asdict_activity activities)).

Definition format_positions (positions : list PositionData.t)
    (show_totals : bool) (group_label : option string) : string :=
  dumps lib (positions_value positions show_totals group_label).

Definition formatter : FormatterProtocol :=
  Formatter format_accounts format_activities format_positions.

End WithLibrary.

End JsonFormatter.

(** *** CsvFormatter *)

Module CsvFormatter.

Definition accounts_header : list cell :=
  [CStr "description"; CStr "number"; CStr "value"; CStr "currency"].

Definition account_cells (acc : AccountData.t) : list cell :=
  [ CStr (AccountData.description acc); CStr (AccountData.number acc);
    CFloat (AccountData.value acc); CStr (AccountData.currency acc) ].

Definition activities_header : list cell :=
  [ CStr "date"; CStr "activity_type"; CStr "description"; CStr "amount";
    CStr "currency"; CStr "sign"; CStr "account_label" ].

Definition activity_cells (act : ActivityData.t) : list cell :=
  [ CStr (ActivityData.date act); CStr (ActivityData.activity_type act);
    CStr (ActivityData.description act); CFloat (ActivityData.amount act);
    CStr (ActivityData.currency act); CStr (ActivityData.sign act);
    CStr (or_str (ActivityData.account_label act) "") ].

Definition positions_header : list cell :=
  [ CStr "symbol"; CStr "name"; CStr "quantity"; CStr "market_value";
    CStr "book_value"; CStr "currency"; CStr "pnl"; CStr "pnl_pct";
    CStr "account_label" ].

Definition position_cells (pos : PositionData.t) : list cell :=
  [ CStr (PositionData.symbol pos); CStr (PositionData.name pos);
    CFloat (PositionData.quantity pos);
    CFloat (PositionData.market_value pos);
    CFloat (PositionData.book_value pos);
    CStr (PositionData.currency pos);
    CFloat (PositionData.pnl pos); CFloat (PositionData.pnl_pct pos);
    CStr (or_str (PositionData.account_label pos) "") ].

(** The [TOTAL] row of [format_positions]. *)
Definition total_cells (positions : list PositionData.t)
    (group_label : option string) : list cell :=
  let '(total_value, total_book, total_pnl, total_pnl_pct) :=
    _calculate_position_totals positions in
  let currency := first_currency positions in
  [ CStr "TOTAL"; CStr "";
    CFloat (sum (map PositionData.quantity positions));
    CFloat total_value; CFloat total_book; CStr currency;
    CFloat total_pnl; CFloat total_pnl_pct;
    CStr (or_str group_label "") ].

(** The rows that [format_positions] writes. *)
Definition position_rows (positions : list PositionData.t)
    (show_totals : bool) (group_label : option string) : list (list cell) :=
  positions_header :: map position_cells positions
  ++ (match positions with
      | _ :: _ =>
          if show_totals then [total_cells positions group_label] else []
      | [] => []
      end).

Section WithLibrary.

Context (lib : Library).

Definition getvalue (rows : list (list cell)) : string :=
  join "" (map (writerow lib) rows).

Definition format_accounts (accounts : list AccountData.t) : string :=
  match accounts with
  | [] => ""
  | _ => getvalue (accounts_header :: map account_cells accounts)
  end.

Definition format_activities (activities : list ActivityData.t) : string :=
  match activities with
  | [] => ""
  | _ => getvalue (activities_header :: map activity_cells activities)
  end.

Definition format_positions (positions : list PositionData.t)
    (show_totals : bool) (group_label : option string) : string :=
  match positions with
  | [] => ""
  | _ => getvalue (position_rows positions show_totals group_label)
  end.

Definition formatter : FormatterProtocol :=
  Formatter format_accounts format_activities format_positions.

End WithLibrary.

End CsvFormatter.

Definition get_formatter (lib : Library) (format_type : string)
  : FormatterProtocol :=
  let key := lower format_type in
  if String.eqb key "table" then TableFormatter.formatter
  else if String.eqb key "json" then JsonFormatter.formatter lib
  else if String.eqb key "csv" then CsvFormatter.formatter lib
  else TableFormatter.formatter.

End Formatters.

(** ** The presentation drivers

    What a driver prints is the list of the strings passed to [print], in
    order. *)

Module Driver.

Import Formatters.

Section WithLibrary.

Context (lib : Library).

(** *** accounts.py *)

Definition print_accounts (ws : WealthsimpleAPI)
    (show_zero_balances liquid_only not_liquid : bool)
    (output_format : string) (verbose : bool) : list string :=
  (if verbose then [nl +:+ "Fetching accounts..."] else [])
  ++ match Accounts.get_accounts_data ws show_zero_balances liquid_only
             not_liquid with
     | [] => ["No accounts found."]
     | accounts_data =>
         [format_accounts (get_formatter lib output_format) accounts_data]
     end.

(** *** assets.py *)

Definition _format_pnl_display (pnl pnl_pct : float) : string * string :=
  (TableFormatter.signed_amount pnl, TableFormatter.signed_percent pnl_pct).

(** The groups that [_print_positions_by_account] renders, in order. *)
Definition position_groups (positions_data : list PositionData.t)
  : list (option string * list PositionData.t) :=
  let positions_sorted :=
    sorted (fun p => or_str (PositionData.account_label p) "")
           positions_data in
  groupby PositionData.account_label positions_sorted.

(** The lines of the grand total. *)
Definition grand_total_lines (positions_data : list PositionData.t)
  : list string :=
  let '(total_value, total_pnl, total_pnl_pct) :=
    Assets._calculate_position_totals positions_data in
  let '(pnl_str, pnl_pct_str) := _format_pnl_display total_pnl total_pnl_pct in
  let currency_str := first_currency positions_data in
  [ nl +:+ TableFormatter.rule 94;
    ljust 51 "Grand Total" +:+ " " +:+ rjust 13 (format_f true 2 total_value)
    +:+ " " +:+ currency_str +:+ " " +:+ rjust 13 pnl_str +:+ " "
    +:+ rjust 8 pnl_pct_str;
    TableFormatter.rule 94 ].

Definition _print_positions_by_account (formatter : FormatterProtocol)
    (positions_data : list PositionData.t) : list string :=
  map (fun '(account_label, group) =>
         format_positions formatter group true account_label)
      (position_groups positions_data)
  ++ grand_total_lines positions_data.

Definition print_assets (ws : WealthsimpleAPI) (account_id : option string)
    (by_account : bool) (currency output_format : string) (verbose : bool)
    (pnl_filter : option string) : list string :=
  (if verbose then [nl +:+ "Fetching positions..."] else [])
  ++ match Assets.get_assets_data ws account_id by_account currency
             pnl_filter with
     | [] => ["No positions found."]
     | positions_data =>
         let formatter := get_formatter lib output_format in
         if by_account && String.eqb output_format "table" then
           _print_positions_by_account formatter positions_data
         else [format_positions formatter positions_data true None]
     end.

(** *** activities.py *)

(** The groups that [print_activities] renders in a multi-account table. *)
Definition activity_groups (activities_data : list ActivityData.t)
  : list (option string * list ActivityData.t) :=
  let activities_data_sorted :=
    sorted (fun a => or_str (ActivityData.account_label a) "")
           activities_data in
  groupby ActivityData.account_label activities_data_sorted.

Definition print_activity_group (dividends_only : bool)
    (g : option string * list ActivityData.t) : list string :=
  let '(account_label, group) := g in
  let suffix := if dividends_only then " - Dividends Only" else "" in
  [ nl +:+ TableFormatter.rule 80 ]
  ++ (if truthy (or_str account_label "")
      then [ "Account: " +:+ or_str account_label "" +:+ suffix ] else [])
  ++ [ TableFormatter.rule 80;
       TableFormatter.activity_header;
       TableFormatter.dashes 80 ]
  ++ map TableFormatter.activity_row group.

Definition print_activities (ws : WealthsimpleAPI)
    (account_id : option string) (dividends_only : bool) (limit : Z)
    (output_format : string) (verbose : bool) : list string :=
  (if verbose then [nl +:+ "Fetching activities..."] else [])
  ++ match Activities.get_activities_data lib ws account_id dividends_only
             limit with
     | [] => ["No activities found."]
     | activities_data =>
         let formatter := get_formatter lib output_format in
         if String.eqb output_format "table" then
           if negb (truthy (or_str account_id "")) then
             concat (map (print_activity_group dividends_only)
                       (activity_groups activities_data))
             ++ [ TableFormatter.rule 80 ]
           else [format_activities formatter activities_data]
         else [format_activities formatter activities_data]
     end.

End WithLibrary.

End Driver.

(** ** cli.py, the commands

    A command is given what [get_authenticated_client] returned ([None] when
    the login failed) and its parsed options; it yields what it prints and
    its exit code, 0 when it returns and the code of [typer.Exit] otherwise.
    The fetches of the client are taken to return, so the branch that reports
    a failed fetch is outside the embedding. *)

Module Cli.

Inductive OutputFormat : Type := table | json | csv.

(** [output_format.value] *)
Definition value (output_format : OutputFormat) : string :=
  match output_format with
  | table => "table"
  | json => "json"
  | csv => "csv"
  end.

Record outcome : Type := Outcome
  { printed : list string;
    exit_code : Z }.

Section WithLibrary.

Context (lib : Library).

Definition list_accounts_cmd (ws : option WealthsimpleAPI) (verbose : bool)
    (show_zero_balances liquid_only not_liquid : bool)
    (output_format : OutputFormat) : outcome :=
  match ws with
  | None => Outcome ["Could not authenticate."] 1
  | Some ws =>
      Outcome
        (Driver.print_accounts lib ws show_zero_balances liquid_only not_liquid
           (value output_format) verbose)
        0
  end.

(** The lookup of the [--account] option, shared by the two commands below:
    the account identifier to report on, or the line printed before
    [typer.Exit(code=1)]. *)
Definition lookup_account (ws : WealthsimpleAPI) (account : option string)
  : option string + string :=
  if truthy (or_str account "") then
    let account_id :=
      Activities.get_account_id_by_number ws (or_str account "") in
    if negb (truthy (or_str account_id "")) then
      inr ("Account '" +:+ or_str account "" +:+ "' not found.")
    else inl account_id
  else inl None.

Definition activities (ws : option WealthsimpleAPI) (verbose : bool)
    (account : option string) (dividends_only : bool) (limit : Z)
    (output_format : OutputFormat) : outcome :=
  match ws with
  | None => Outcome ["Could not authenticate."] 1
  | Some ws =>
      match lookup_account ws account with
      | inr line => Outcome [line] 1
      | inl account_id =>
          Outcome
            (Driver.print_activities lib ws account_id dividends_only limit
               (value output_format) verbose)
            0
      end
  end.

Definition assets (ws : option WealthsimpleAPI) (verbose : bool)
    (account : option string) (by_account profits losses : bool)
    (output_format : OutputFormat) : outcome :=
  match ws with
  | None => Outcome ["Could not authenticate."] 1
  | Some ws =>
      if profits && losses then
        Outcome ["Error: --profits and --losses cannot be used together."] 1
      else
        match lookup_account ws account with
        | inr line => Outcome [line] 1
        | inl account_id =>
            let pnl_filter :=
              if profits then Some "profit"
              else if losses then Some "loss"
              else None in
            Outcome
              (Driver.print_assets lib ws account_id by_account "CAD"
                 (value output_format) verbose pnl_filter)
              0
        end
  end.

End WithLibrary.

End Cli.

(** ** Vocabulary of the properties *)

Module Spec.

(** [sub] occurs in [s]: [s] is some text, then [sub], then some text. *)
Definition occurs_in (sub s : string) : Prop :=
  exists before after : string, s = before +:+ sub +:+ after.

(** The description that [get_accounts_data] classifies. *)
Definition description_of (account : Raw.account) : string :=
  default "Unknown Account" (Raw.acc_description account).

(** The account survives the zero-balance filter. *)
Definition passes_zero_balance (show_zero_balances : bool)
    (account : Raw.account) : bool :=
  negb (feqb (fst (Accounts._extract_account_value account)) fzero)
  || show_zero_balances.

(** The account is in the report. *)
Definition included (show_zero_balances liquid_only not_liquid : bool)
    (account : Raw.account) : bool :=
  match Accounts.account_entry show_zero_balances liquid_only not_liquid
          account with
  | Some _ => true
  | None => false
  end.

(** The percentage rule of a profit or loss over a book value. *)
Definition zero_guarded_pct (pnl book : float) : float :=
  if fneb book fzero then fmul (fdiv pnl book) (of_Z 100) else fzero.

(** What the activities resolver makes of an answer of the client. *)
Definition name_of_response (r : Raw.response) (security_id : string) : string :=
  match r with
  | Raw.Returns (Some (Raw.MarketData (Some stock))) =>
      let symbol := default "" (Raw.stock_symbol stock) in
      let stock_name := default "" (Raw.stock_name stock) in
      if truthy symbol then symbol
      else if truthy stock_name then stock_name
      else security_id
  | _ => security_id
  end.

(** What the assets resolver makes of an answer of the client. *)
Definition info_of_response (r : Raw.response) (security_id : string)
  : string * string :=
  match r with
  | Raw.Returns (Some (Raw.MarketData (Some stock))) =>
      let symbol := default "N/A" (Raw.stock_symbol stock) in
      (symbol, default symbol (Raw.stock_name stock))
  | Raw.Returns _ => ("N/A", "Unknown")
  | Raw.Raises => (security_id, security_id)
  end.

(** The shape the two resolvers share: answer from the cache; otherwise ask
    the client when the identifier is not empty, take the fallback when it
    is, and record the result in the cache either way. *)
Definition resolve_with {V} (ws : WealthsimpleAPI)
    (of_response : Raw.response -> string -> V) (fallback : string -> V)
    (security_id : string) : M V V :=
  fun st =>
    match cache st !! security_id with
    | Some cached => (cached, st)
    | None =>
        if truthy security_id then
          let v :=
            of_response (get_security_market_data ws (calls st) security_id)
              security_id in
          (v, State (<[security_id := v]> (cache st))
                (calls st ++ [security_id]))
        else
          (fallback security_id,
           State (<[security_id := fallback security_id]> (cache st)) (calls st))
    end.

(** Every call recorded in the state is for an identifier that the cache
    holds, and no identifier was asked for twice. *)
Definition calls_cached {V} (st : state V) : Prop :=
  NoDup (calls st) /\ forall id, In id (calls st) -> is_Some (cache st !! id).

(** The order in which the grouped reports show two labels: by their sort
    keys, strictly. *)
Definition label_before (k1 k2 : option string) : Prop :=
  String.le (or_str k1 "") (or_str k2 "") /\ or_str k1 "" <> or_str k2 "".

(** [groups] is [data] grouped by label: the labels ascend strictly, each
    group holds all the items of its label, in the order of [data], and is
    not empty, and every label of [data] has its group. *)
Definition grouped_by_label {A} (label : A -> option string) (data : list A)
    (groups : list (option string * list A)) : Prop :=
  StronglySorted (fun g1 g2 => label_before (fst g1) (fst g2)) groups
  /\ (forall k g,
        In (k, g) groups ->
        g <> [] /\ g = List.filter (fun a => bool_decide (label a = k)) data)
  /\ (forall a, In a data -> In (label a) (map fst groups)).

(** The labels of a sequence in the order of their first appearance, and the
    stable partition along them. *)
Fixpoint first_appearances (ks : list (option string)) : list (option string) :=
  match ks with
  | [] => []
  | k :: ks' =>
      k :: List.filter (fun k' => negb (bool_decide (k' = k)))
             (first_appearances ks')
  end.

Definition stable_partition {A} (label : A -> option string) (data : list A)
  : list (option string * list A) :=
  map (fun k => (k, List.filter (fun a => bool_decide (label a = k)) data))
      (first_appearances (map label data)).

(** The subtotals that the grouped report shows, one per group. *)
Definition subtotals (positions_data : list PositionData.t)
  : list (float * float * float * float) :=
  map (fun g => Formatters._calculate_position_totals (snd g))
      (Driver.position_groups positions_data).

Definition sum_of_subtotal_values (positions_data : list PositionData.t) : float :=
  sum (map (fun t => let '(total_value, _, _, _) := t in total_value)
           (subtotals positions_data)).

Definition sum_of_subtotal_pnls (positions_data : list PositionData.t) : float :=
  sum (map (fun t => let '(_, _, total_pnl, _) := t in total_pnl)
           (subtotals positions_data)).

(** The number a finite float stands for, and the sum of such numbers
    without rounding. *)
Definition exact (x : float) : Q :=
  match x with
  | S754_finite s m e => (inject_Z (cond_Zopp s (Z.pos m)) * 2 ^ e)%Q
  | _ => 0%Q
  end.

Definition exact_sum (xs : list float) : Q :=
  fold_right Qplus 0%Q (map exact xs).

(** The supplied account owns the position: its identifier is one of the
    position's account identifiers. *)
Definition owns (account : Raw.account) (position : Raw.position) : bool :=
  match Raw.acc_id account with
  | Some id => bool_decide (id ∈ Assets._get_position_account_ids position)
  | None => false
  end.

(** The supplied accounts that own a position, in the order supplied. *)
Definition owners (accounts : list Raw.account) (position : Raw.position)
  : list Raw.account :=
  List.filter (fun account => owns account position) accounts.

(** The pairs of an account and a position it owns, by account. *)
Definition owning_pairs (positions : list Raw.position)
    (accounts : list Raw.account) : list (Raw.account * Raw.position) :=
  flat_map (fun account =>
              map (pair account) (List.filter (owns account) positions))
           accounts.

Definition raw_market_value (position : Raw.position) : float :=
  default fzero (Raw.amount (default Raw.no_money (Raw.pos_totalValue position))).

Definition raw_book_value (position : Raw.position) : float :=
  default fzero (Raw.amount (default Raw.no_money (Raw.pos_bookValue position))).

(** Raw positions can be compared. *)
#[global] Instance float_eq_dec : EqDecision float.
Proof. unfold float. solve_decision. Defined.

#[global] Instance money_eq_dec : EqDecision Raw.money.
Proof. solve_decision. Defined.

#[global] Instance account_ref_eq_dec : EqDecision Raw.account_ref.
Proof. solve_decision. Defined.

#[global] Instance security_eq_dec : EqDecision Raw.security.
Proof. solve_decision. Defined.

#[global] Instance position_eq_dec : EqDecision Raw.position.
Proof. solve_decision. Defined.

(** What the grand total of the grouped report reads of an entry. *)
Definition summary (pos : PositionData.t) : option string * float * float :=
  (PositionData.account_label pos, PositionData.market_value pos,
   PositionData.book_value pos).

(** The entry expected for an account and a position it owns. *)
Definition summary_of (pair : Raw.account * Raw.position)
  : option string * float * float :=
  (Some (Assets._build_account_label (fst pair)),
   raw_market_value (snd pair), raw_book_value (snd pair)).

(** The net liquidation value of a raw account, read off the record: its
    amount, 0 when absent, and its currency, CAD when absent. *)
Definition net_liquidation (account : Raw.account) : Raw.money :=
  match Raw.acc_financials account with
  | Some (Raw.Financials (Some (Raw.Combined (Some money)))) => money
  | _ => Raw.no_money
  end.

Definition balance_of (account : Raw.account) : float :=
  default fzero (Raw.amount (net_liquidation account)).

(** The entry that the accounts report shows for a raw account. *)
Definition account_view (account : Raw.account) : AccountData.t :=
  AccountData.mk (default "Unknown Account" (Raw.acc_description account))
    (default "N/A" (Raw.acc_number account)) (balance_of account)
    (default "CAD" (Raw.currency (net_liquidation account))).

(** The zero-balance setting lets the account through: zero balances are
    shown, or its balance is not zero. *)
Definition balance_shown (show_zero_balances : bool) (account : Raw.account)
  : bool :=
  show_zero_balances || negb (feqb (balance_of account) fzero).

(** The account identifiers that a raw position names, read off the record
    in order, the absent and the empty ones left out. *)
Definition named_accounts (position : Raw.position) : list string :=
  List.filter truthy
    (flat_map (fun r => match Raw.ref_id r with Some id => [id] | None => [] end)
       (default [] (Raw.pos_accounts position))).

(** The supplied account is one of the accounts that the position names. *)
Definition holds (account : Raw.account) (position : Raw.position) : bool :=
  match Raw.acc_id account with
  | Some id => bool_decide (id ∈ named_accounts position)
  | None => false
  end.

(** The owning accounts of a position among the supplied ones, in the order
    supplied, and the pairs of a supplied account and a position it holds,
    account by account. *)
Definition holders (accounts : list Raw.account) (position : Raw.position)
  : list Raw.account :=
  List.filter (fun account => holds account position) accounts.

Definition holdings (positions : list Raw.position)
    (accounts : list Raw.account) : list (Raw.account * Raw.position) :=
  flat_map (fun account =>
              map (pair account)
                (List.filter (fun p => holds account p) positions))
           accounts.

(** The label of an account, "description (number)", and the label and
    figures expected of the entry of an account and a position it holds. *)
Definition account_title (account : Raw.account) : string :=
  default "Unknown" (Raw.acc_description account) +:+ " ("
  +:+ default "N/A" (Raw.acc_number account) +:+ ")".

Definition expected_entry (pair : Raw.account * Raw.position)
  : option string * float * float :=
  (Some (account_title (fst pair)), raw_market_value (snd pair),
   raw_book_value (snd pair)).

(** The client answers a security lookup by the identifier alone, whatever
    was asked of it before. *)
Definition history_free (ws : WealthsimpleAPI) : Prop :=
  forall (before : list string) (security_id : string),
    get_security_market_data ws before security_id
    = get_security_market_data ws [] security_id.

(** What a resolver answers for an identifier when nothing is cached. *)
Definition fresh_answer {V} (ws : WealthsimpleAPI)
    (of_response : Raw.response -> string -> V) (fallback : string -> V)
    (security_id : string) : V :=
  fst (resolve_with ws of_response fallback security_id init).

(** Every value in the cache is the answer of a fresh resolution. *)
Definition cache_sound {V} (ws : WealthsimpleAPI)
    (of_response : Raw.response -> string -> V) (fallback : string -> V)
    (st : state V) : Prop :=
  forall id v,
    cache st !! id = Some v -> v = fresh_answer ws of_response fallback id.

(** The calls recorded are the non-empty identifiers that the cache holds. *)
Definition calls_are_cached_ids {V} (st : state V) : Prop :=
  forall id,
    In id (calls st) <-> truthy id = true /\ is_Some (cache st !! id).

(** The security identifier that [_get_position_data] reads of a position. *)
Definition security_id_of (position : Raw.position) : string :=
  default "" (Raw.sec_id (default (Raw.Security None) (Raw.pos_security position))).

(** A position and an activity transformed on their own, from a fresh
    cache. *)
Definition position_alone (ws : WealthsimpleAPI) (currency : string)
    (label : option string) (position : Raw.position) : PositionData.t :=
  PositionData.set_account_label label
    (fst (Assets._get_position_data ws position currency init)).

Definition activity_alone (lib : Library) (ws : WealthsimpleAPI)
    (label : option string) (activity : Raw.activity) : ActivityData.t :=
  fst (Activities._transform_activity lib ws activity label init).

(** An activity view without its description, the one field that is made
    with the security cache. *)
Definition without_description (a : ActivityData.t) : ActivityData.t :=
  ActivityData.mk (ActivityData.date a) (ActivityData.activity_type a) ""
    (ActivityData.amount a) (ActivityData.currency a) (ActivityData.sign a)
    (ActivityData.account_label a).

(** The activities of one account that a report with the given options is
    made of: the dividends when asked for, then the slice [[:limit]]. *)
Definition reported_activities (ws : WealthsimpleAPI)
    (account_id : option string) (dividends_only : bool) (limit : Z)
  : list Raw.activity :=
  Activities.slice_list limit
    (List.filter
       (fun a => negb dividends_only || Activities.is_dividend_activity a)
       (get_activities ws account_id)).

(** The positions that a report scoped to [account_id] is made of. *)
Definition scoped_positions (ws : WealthsimpleAPI) (account_id : option string)
    (currency : string) : list Raw.position :=
  List.filter
    (fun p =>
       negb (truthy (or_str account_id ""))
       || bool_decide
            (or_str account_id "" ∈ Assets._get_position_account_ids p))
    (get_identity_positions ws currency).

(** The heading of one account in the activities table, and the lines of a
    run of activities under it. *)
Definition activity_block (g : option string * list ActivityData.t)
  : list string :=
  [ nl +:+ Formatters.TableFormatter.rule 80;
    "Account: " +:+ or_str (fst g) "";
    Formatters.TableFormatter.rule 80;
    Formatters.TableFormatter.activity_header;
    Formatters.TableFormatter.dashes 80 ]
  ++ map Formatters.TableFormatter.activity_row (snd g)
  ++ [ Formatters.TableFormatter.rule 80 ].

(** The formatter of an output format of the command line. *)
Definition formatter_of (lib : Library) (output_format : Cli.OutputFormat)
  : Formatters.FormatterProtocol :=
  match output_format with
  | Cli.table => Formatters.TableFormatter.formatter
  | Cli.json => Formatters.JsonFormatter.formatter lib
  | Cli.csv => Formatters.CsvFormatter.formatter lib
  end.

End Spec.

Import Spec.

(** ** Sample data *)

Module Sample.

Definition tfsa : Raw.account :=
  Raw.Account (Some "acc-1") (Some "TFSA") (Some "001") None.

Definition rrsp : Raw.account :=
  Raw.Account (Some "acc-2") (Some "RRSP") (Some "002") None.

(** A holding of security [sec] with the given owning accounts, market value
    and book value, in CAD. *)
Definition holding (sec : string) (owning : list string) (market book : float)
  : Raw.position :=
  Raw.Position (Some (dec 10 0))
    (Some (map (fun id => Raw.AccountRef (Some id)) owning))
    (Some (Raw.Security (Some sec)))
    (Some (Raw.Money (Some market) (Some "CAD")))
    (Some (Raw.Money (Some book) (Some "CAD"))).

Definition client (positions : list Raw.position) : WealthsimpleAPI :=
  Client [tfsa; rrsp] (fun _ => positions) (fun _ => [])
    (fun _ _ => Raw.Raises).

(** One holding in each account: 0.30 bought at 0.20 in the TFSA, 0.10
    bought at 0.20 in the RRSP. *)
Definition one_each : WealthsimpleAPI :=
  client [ holding "sec-s-1a" ["acc-1"] (dec 30 2) (dec 20 2);
           holding "sec-s-2b" ["acc-2"] (dec 10 2) (dec 20 2) ].

(** One holding in the TFSA, two in the RRSP. *)
Definition one_and_two : WealthsimpleAPI :=
  client [ holding "sec-s-1a" ["acc-1"] (dec 20 2) (dec 20 2);
           holding "sec-s-2b" ["acc-2"] (dec 10 2) (dec 10 2);
           holding "sec-s-3c" ["acc-2"] (dec 252500 2) (dec 240000 2) ].

(** A holding that both accounts own. *)
Definition shared : Raw.position :=
  holding "sec-s-1a" ["acc-1"; "acc-2"] (dec 252500 2) (dec 240000 2).

Definition labelled (label : string) (market book : float) : PositionData.t :=
  PositionData.mk "XEQT" "iShares Core Equity ETF" (dec 10 0) market book "CAD"
    (fsub market book) (zero_guarded_pct (fsub market book) book) (Some label).

Definition dividend (label : string) : ActivityData.t :=
  ActivityData.mk "2024-01-15" "DIVIDEND" "Dividend" (dec 1234 2) "CAD" "+"
    (Some label).

(** A deposit, a dividend and a purchase, as the client reports them. *)
Definition deposit : Raw.activity :=
  Raw.Activity (Some "DEPOSIT") (Some "Deposit") (Some "2024-01-15T10:30:00Z")
    (Some (dec 10000 2)) (Some "positive") (Some "CAD") None.

Definition payout : Raw.activity :=
  Raw.Activity (Some "DIVIDEND") (Some "Dividend") (Some "2024-02-01T00:00:00Z")
    (Some (dec 1234 2)) (Some "positive") (Some "CAD")
    (Some (Raw.SecBare "sec-s-1a")).

Definition purchase : Raw.activity :=
  Raw.Activity (Some "DIY_BUY") (Some "Bought 2 shares")
    (Some "2024-02-03T00:00:00Z") (Some (dec 5000 2)) (Some "negative")
    (Some "CAD") (Some (Raw.SecObject (Raw.Security (Some "sec-s-2b")))).

(** The two accounts, each with the given activities, and no position. *)
Definition active (activities : list Raw.activity) : WealthsimpleAPI :=
  Client [tfsa; rrsp] (fun _ => []) (fun _ => activities)
    (fun _ _ => Raw.Raises).

(** A client without accounts, positions or activities. *)
Definition bare : WealthsimpleAPI :=
  Client [] (fun _ => []) (fun _ => []) (fun _ _ => Raw.Raises).

(** A library whose regular expressions match nothing and whose date parser
    refuses every text. *)
Definition plain_library : Library :=
  Lib (fun _ _ => None) (fun _ _ s => s) (fun _ => None) (fun _ => "").

End Sample.


(** ** Properties *)

(** *** Strings *)

Section StringFacts.

Lemma prefix_occurs (sub s : string) :
  String.prefix sub s = true <-> exists after, s = sub +:+ after.
Proof.
  revert s; induction sub as [|c sub IH]; intros s; simpl.
  - split; [intros _; exists s; reflexivity | intros _; now destruct s].
  - destruct s as [|d s]; simpl.
    + split; [discriminate | intros [after H]; discriminate].
    + destruct (ascii_dec c d) as [->|Hne].
      * rewrite IH. split.
        -- intros [after ->]. exists after. reflexivity.
        -- intros [after H]. injection H as ->. exists after. reflexivity.
      * split; [discriminate|].
        intros [after H]. injection H as <- _. congruence.
Qed.

Lemma contains_occurs (sub s : string) :
  contains sub s = true <-> occurs_in sub s.
Proof.
  unfold occurs_in. induction s as [|d s IH].
  - cbn [contains]. rewrite orb_false_r, prefix_occurs. split.
    + intros [after H]. exists "", after. exact H.
    + intros [[|b before] [after H]]; [exists after; exact H | discriminate].
  - cbn [contains]. rewrite orb_true_iff, prefix_occurs, IH. split.
    + intros [[after H] | (before & after & H)].
      * exists "", after. exact H.
      * exists (String d before), after. simpl. now rewrite H.
    + intros ([|b before] & after & H).
      * left. exists after. exact H.
      * right. simpl in H. injection H as _ ->. now exists before, after.
Qed.

End StringFacts.

(** *** Liquidity filters *)

Section Liquidity.

Lemma should_include_liquid_only (is_non_liquid : bool) :
  Accounts._should_include_account is_non_liquid true false = negb is_non_liquid.
Proof. now destruct is_non_liquid. Qed.

Lemma should_include_not_liquid (is_non_liquid : bool) :
  Accounts._should_include_account is_non_liquid false true = is_non_liquid.
Proof. now destruct is_non_liquid. Qed.

Lemma included_eq (sz lo nl : bool) (account : Raw.account) :
  included sz lo nl account
  = Accounts._should_include_account
      (Accounts._is_non_liquid_account (description_of account)) lo nl
    && passes_zero_balance sz account.
Proof.
  unfold included, Accounts.account_entry, passes_zero_balance, description_of.
  destruct (Accounts._should_include_account _ lo nl); cbn [negb andb];
    [|reflexivity].
  destruct (Accounts._extract_account_value account) as [v c]; cbn [fst].
  destruct (feqb v fzero), sz; reflexivity.
Qed.

Lemma get_accounts_data_omap (ws : WealthsimpleAPI) (sz lo nl : bool) :
  Accounts.get_accounts_data ws sz lo nl
  = omap (Accounts.account_entry sz lo nl) (get_accounts ws).
Proof. unfold Accounts.get_accounts_data. now destruct (get_accounts ws). Qed.

Lemma omap_entry_filter (sz lo nl : bool) (keep : Raw.account -> bool)
    (accounts : list Raw.account) :
  (forall a, Accounts.account_entry sz lo nl a
             = if keep a then Accounts.account_entry sz false false a else None) ->
  omap (Accounts.account_entry sz lo nl) accounts
  = omap (Accounts.account_entry sz false false) (List.filter keep accounts).
Proof.
  intros Hkeep. induction accounts as [|a accounts IH]; [reflexivity|].
  cbn [omap list_omap List.filter]. rewrite Hkeep, IH.
  destruct (keep a); reflexivity.
Qed.

Lemma entry_liquid_only (sz : bool) (a : Raw.account) :
  Accounts.account_entry sz true false a
  = if negb (Accounts._is_non_liquid_account (description_of a))
    then Accounts.account_entry sz false false a else None.
Proof.
  unfold Accounts.account_entry, description_of.
  now destruct (Accounts._is_non_liquid_account _).
Qed.

Lemma entry_not_liquid (sz : bool) (a : Raw.account) :
  Accounts.account_entry sz false true a
  = if Accounts._is_non_liquid_account (description_of a)
    then Accounts.account_entry sz false false a else None.
Proof.
  unfold Accounts.account_entry, description_of.
  now destruct (Accounts._is_non_liquid_account _).
Qed.

Lemma is_non_liquid_keywords (description : string) :
  Accounts._is_non_liquid_account description = true
  <-> occurs_in "rrsp" (lower description)
      \/ occurs_in "lira" (lower description)
      \/ occurs_in "private equity" (lower description)
      \/ occurs_in "private credit" (lower description).
Proof.
  unfold Accounts._is_non_liquid_account, any, Accounts.non_liquid_keywords.
  cbn [existsb]. rewrite !orb_true_iff, !contains_occurs. intuition discriminate.
Qed.

Lemma extract_account_value_read (a : Raw.account) :
  Accounts._extract_account_value a
  = (balance_of a, default "CAD" (Raw.currency (net_liquidation a))).
Proof.
  unfold Accounts._extract_account_value, balance_of, net_liquidation.
  destruct (Raw.acc_financials a) as [[[[[money|]]|]]|]; reflexivity.
Qed.

Lemma account_entry_view (sz lo nl : bool) (a : Raw.account) :
  Accounts.account_entry sz lo nl a
  = if balance_shown sz a
       && Accounts._should_include_account
            (Accounts._is_non_liquid_account (description_of a)) lo nl
    then Some (account_view a) else None.
Proof.
  unfold Accounts.account_entry, balance_shown, account_view, description_of.
  cbv zeta. rewrite extract_account_value_read.
  destruct (Accounts._should_include_account _ lo nl);
    [|now rewrite andb_false_r].
  rewrite andb_true_r. cbn [negb].
  now destruct (feqb (balance_of a) fzero), sz.
Qed.

Lemma report_is_the_view_of_the_kept (ws : WealthsimpleAPI) (sz lo nl : bool) :
  Accounts.get_accounts_data ws sz lo nl
  = map account_view
      (List.filter
         (fun a =>
            balance_shown sz a
            && Accounts._should_include_account
                 (Accounts._is_non_liquid_account (description_of a)) lo nl)
         (get_accounts ws)).
Proof.
  rewrite get_accounts_data_omap.
  induction (get_accounts ws) as [|a accounts IH]; [reflexivity|].
  cbn [omap list_omap List.filter]. rewrite account_entry_view, IH.
  now destruct (balance_shown sz a && _).
Qed.

(** C3.  With the zero-balance setting held equal, the report under
    [liquid_only] is the entries of exactly the accounts that the setting
    lets through and that are not non-liquid, and the report under
    [not_liquid] the entries of exactly those that it lets through and that
    are non-liquid, each in the client's order; so an account of the client is
    in the second selection exactly when the setting lets it through and it is
    not in the first.  The two reports are the unfiltered report of the two
    complementary parts of the account list.  An account is non-liquid
    exactly when one of rrsp, lira, private equity, private credit occurs in
    its lower-cased description. *)
Theorem not_liquid_complements_liquid_only
    (ws : WealthsimpleAPI) (show_zero_balances : bool) :
  let non_liquid a := Accounts._is_non_liquid_account (description_of a) in
  let kept_liquid :=
    List.filter
      (fun a => balance_shown show_zero_balances a && negb (non_liquid a))
      (get_accounts ws) in
  let kept_non_liquid :=
    List.filter (fun a => balance_shown show_zero_balances a && non_liquid a)
      (get_accounts ws) in
  Accounts.get_accounts_data ws show_zero_balances true false
  = map account_view kept_liquid
  /\ Accounts.get_accounts_data ws show_zero_balances false true
     = map account_view kept_non_liquid
  /\ Accounts.get_accounts_data ws show_zero_balances false false
     = map account_view
         (List.filter (balance_shown show_zero_balances) (get_accounts ws))
  /\ (forall a,
        In a (get_accounts ws) ->
        (In a kept_non_liquid
         <-> balance_shown show_zero_balances a = true /\ ~ In a kept_liquid)
        /\ (In a kept_liquid
            <-> balance_shown show_zero_balances a = true
                /\ ~ In a kept_non_liquid))
  /\ Accounts.get_accounts_data ws show_zero_balances true false
     = Accounts.get_accounts_data
         (Client (List.filter (fun a => negb (non_liquid a)) (get_accounts ws))
            (get_identity_positions ws) (get_activities ws)
            (get_security_market_data ws))
         show_zero_balances false false
  /\ Accounts.get_accounts_data ws show_zero_balances false true
     = Accounts.get_accounts_data
         (Client (List.filter non_liquid (get_accounts ws))
            (get_identity_positions ws) (get_activities ws)
            (get_security_market_data ws))
         show_zero_balances false false
  /\ (forall a,
        included show_zero_balances true false a
        = passes_zero_balance show_zero_balances a && negb (non_liquid a))
  /\ (forall a,
        included show_zero_balances false true a
        = passes_zero_balance show_zero_balances a && non_liquid a)
  /\ (forall a,
        included show_zero_balances false true a
        = passes_zero_balance show_zero_balances a
          && negb (included show_zero_balances true false a))
  /\ (forall description,
        Accounts._is_non_liquid_account description = true
        <-> occurs_in "rrsp" (lower description)
            \/ occurs_in "lira" (lower description)
            \/ occurs_in "private equity" (lower description)
            \/ occurs_in "private credit" (lower description)).
Proof.
  intros non_liquid kept_liquid kept_non_liquid.
  split; [|split; [|split; [|split]]].
  - rewrite report_is_the_view_of_the_kept. unfold kept_liquid.
    apply (f_equal (map account_view)), filter_ext. intros a.
    now rewrite should_include_liquid_only.
  - rewrite report_is_the_view_of_the_kept. unfold kept_non_liquid.
    apply (f_equal (map account_view)), filter_ext. intros a.
    now rewrite should_include_not_liquid.
  - rewrite report_is_the_view_of_the_kept. f_equal.
    apply filter_ext. intros a. apply andb_true_r.
  - intros a Hin. unfold kept_liquid, kept_non_liquid.
    rewrite !filter_In.
    destruct (balance_shown show_zero_balances a), (non_liquid a);
      cbn [andb negb]; intuition discriminate.
  - rewrite !get_accounts_data_omap. cbn [get_accounts].
    repeat split.
    + apply omap_entry_filter. intros a. apply entry_liquid_only.
    + apply omap_entry_filter. intros a. apply entry_not_liquid.
    + intros a. rewrite included_eq, should_include_liquid_only.
      apply andb_comm.
    + intros a. rewrite included_eq, should_include_not_liquid.
      apply andb_comm.
    + intros a. rewrite !included_eq, should_include_liquid_only,
        should_include_not_liquid.
      fold (non_liquid a).
      destruct (non_liquid a), (passes_zero_balance show_zero_balances a);
        reflexivity.
    + apply is_non_liquid_keywords.
    + apply is_non_liquid_keywords.
Qed.

End Liquidity.

(** *** Profit and loss *)

Section ProfitAndLoss.

Lemma get_position_data_fields (ws : WealthsimpleAPI) (position : Raw.position)
    (currency : string) (st : state (string * string)) :
  let pos := fst (Assets._get_position_data ws position currency st) in
  let market :=
    default fzero
      (Raw.amount (default Raw.no_money (Raw.pos_totalValue position))) in
  let book :=
    default fzero
      (Raw.amount (default Raw.no_money (Raw.pos_bookValue position))) in
  PositionData.market_value pos = market
  /\ PositionData.book_value pos = book
  /\ PositionData.pnl pos = fsub market book
  /\ PositionData.pnl_pct pos = zero_guarded_pct (fsub market book) book
  /\ PositionData.account_label pos = None.
Proof.
  cbv zeta. unfold Assets._get_position_data, bind, ret.
  destruct (Assets._get_security_info ws _ st) as [info st'].
  cbn [fst PositionData.market_value PositionData.book_value PositionData.pnl
         PositionData.pnl_pct PositionData.account_label].
  unfold zero_guarded_pct. repeat split; reflexivity.
Qed.

Lemma zero_guard_at_zero (pnl book : float) :
  feqb book fzero = true -> zero_guarded_pct pnl book = fzero.
Proof. unfold zero_guarded_pct, fneb, feqb. now intros ->. Qed.

Lemma zero_guard_off_zero (pnl book : float) :
  feqb book fzero = false ->
  zero_guarded_pct pnl book = fmul (fdiv pnl book) (of_Z 100).
Proof. unfold zero_guarded_pct, fneb, feqb. now intros ->. Qed.

(** C1.  A position record has [pnl = market_value - book_value] and
    [pnl_pct = pnl / book_value * 100] when the book value is not zero, and
    [0.0] when it is; the totals of a position sequence are the sum of the
    market values, the sum of the book values, their difference, and the same
    zero-guarded percentage over the summed book value, in the table and CSV
    totals, in the JSON totals and in the grand total of the grouped report. *)
Theorem pnl_and_totals_follow_one_rule
    (ws : WealthsimpleAPI) (position : Raw.position) (currency : string)
    (st : state (string * string)) (positions : list PositionData.t) :
  let pos := fst (Assets._get_position_data ws position currency st) in
  let total_value := sum (map PositionData.market_value positions) in
  let total_book := sum (map PositionData.book_value positions) in
  let pct (pnl book : float) :=
    if feqb book fzero then fzero else fmul (fdiv pnl book) (of_Z 100) in
  PositionData.pnl pos
  = fsub (PositionData.market_value pos) (PositionData.book_value pos)
  /\ PositionData.pnl_pct pos
     = pct (PositionData.pnl pos) (PositionData.book_value pos)
  /\ Formatters._calculate_position_totals positions
     = (total_value, total_book, fsub total_value total_book,
        pct (fsub total_value total_book) total_book)
  /\ Assets._calculate_position_totals positions
     = (total_value, fsub total_value total_book,
        pct (fsub total_value total_book) total_book)
  /\ Formatters.JsonFormatter.totals_value positions
     = Formatters.JDict
         [ ("market_value", Formatters.JFloat total_value);
           ("book_value", Formatters.JFloat total_book);
           ("pnl", Formatters.JFloat (fsub total_value total_book));
           ("pnl_pct",
            Formatters.JFloat (pct (fsub total_value total_book) total_book));
           ("currency", Formatters.JStr (Formatters.first_currency positions)) ].
Proof.
  cbv zeta.
  destruct (get_position_data_fields ws position currency st)
    as (Hm & Hb & Hp & Hq & _).
  rewrite Hm, Hb, Hp, Hq.
  unfold Formatters._calculate_position_totals,
    Assets._calculate_position_totals, Formatters.JsonFormatter.totals_value,
    zero_guarded_pct, fneb, feqb.
  repeat split;
    repeat match goal with |- context [SFeqb ?b fzero] => destruct (SFeqb b fzero) end;
    reflexivity.
Qed.

Lemma mapM_length {V A B} (f : A -> M V B) (xs : list A) (st : state V) :
  length (fst (mapM f xs st)) = length xs.
Proof.
  revert st; induction xs as [|x xs IH]; intros st; [reflexivity|].
  cbn [mapM]. unfold bind at 1. destruct (f x st) as [y st1].
  unfold bind at 1. specialize (IH st1).
  destruct (mapM f xs st1) as [ys st2]. cbn in *. now rewrite IH.
Qed.

Lemma get_assets_data_aggregated (ws : WealthsimpleAPI) (currency : string) :
  Assets.get_assets_data ws None false currency None
  = fst (mapM (fun pos => Assets._get_position_data ws pos currency)
           (get_identity_positions ws currency) init).
Proof.
  unfold Assets.get_assets_data, Assets.get_assets_data_run.
  destruct (get_identity_positions ws currency) as [|p ps]; [reflexivity|].
  cbn [or_str truthy negb].
  destruct (mapM _ (p :: ps) init) as [data st]. reflexivity.
Qed.

Lemma zero_is_neither_profit_nor_loss (x : float) :
  feqb x fzero = true -> fgtb x fzero = false /\ fltb x fzero = false.
Proof.
  unfold feqb, fgtb, fltb, SFeqb, SFltb, fzero.
  destruct x as [[]|[]| |[] m e]; cbn; intros H; split;
    solve [reflexivity | discriminate].
Qed.

(** C8.  The profit filter keeps exactly the positions whose [pnl] is above
    zero, the loss filter exactly those whose [pnl] is below zero, both in
    the order of the unfiltered report; a position whose [pnl] is zero
    passes neither; and with no filter the report is the transform of the
    fetched positions, all of them. *)
Theorem pnl_filter_keeps_strict_sign
    (ws : WealthsimpleAPI) (account_id : option string) (by_account : bool)
    (currency : string) :
  let unfiltered := Assets.get_assets_data ws account_id by_account currency None in
  Assets.get_assets_data ws account_id by_account currency (Some "profit")
  = List.filter (fun pos => fgtb (PositionData.pnl pos) fzero) unfiltered
  /\ Assets.get_assets_data ws account_id by_account currency (Some "loss")
     = List.filter (fun pos => fltb (PositionData.pnl pos) fzero) unfiltered
  /\ (forall pos,
        feqb (PositionData.pnl pos) fzero = true ->
        fgtb (PositionData.pnl pos) fzero = false
        /\ fltb (PositionData.pnl pos) fzero = false)
  /\ Assets.get_assets_data ws None false currency None
     = fst (mapM (fun pos => Assets._get_position_data ws pos currency)
              (get_identity_positions ws currency) init)
  /\ length (Assets.get_assets_data ws None false currency None)
     = length (get_identity_positions ws currency).
Proof.
  cbv zeta. repeat split.
  - unfold Assets.get_assets_data, Assets.get_assets_data_run.
    destruct (get_identity_positions ws currency) as [|p ps]; [reflexivity|].
    destruct (if truthy _ then _ else _) as [|q qs]; [reflexivity|].
    destruct (if negb by_account then _ else _) as [fetch|]; [|reflexivity].
    destruct (fetch init) as [data st]. reflexivity.
  - unfold Assets.get_assets_data, Assets.get_assets_data_run.
    destruct (get_identity_positions ws currency) as [|p ps]; [reflexivity|].
    destruct (if truthy _ then _ else _) as [|q qs]; [reflexivity|].
    destruct (if negb by_account then _ else _) as [fetch|]; [|reflexivity].
    destruct (fetch init) as [data st]. reflexivity.
  - apply zero_is_neither_profit_nor_loss; assumption.
  - apply zero_is_neither_profit_nor_loss; assumption.
  - apply get_assets_data_aggregated.
  - rewrite get_assets_data_aggregated. apply mapM_length.
Qed.

End ProfitAndLoss.

(** *** Activities *)

Section ActivityView.

Context (lib : Library).

Lemma transform_activity_fields (ws : WealthsimpleAPI) (activity : Raw.activity)
    (account_label : option string) (st : state string) :
  let view :=
    fst (Activities._transform_activity lib ws activity account_label st) in
  ActivityData.sign view
  = (if bool_decide (Raw.act_amountSign activity = Some "positive")
     then "+" else "-")
  /\ ActivityData.amount view = default fzero (Raw.act_amount activity)
  /\ ActivityData.account_label view = account_label.
Proof.
  cbv zeta. unfold Activities._transform_activity, bind, ret.
  destruct (Activities._enhance_description lib ws activity st) as [d st'].
  repeat split; reflexivity.
Qed.

(** C7, as amended.  The sign of an activity view is ["+"] exactly when the
    raw [amountSign] is ["positive"] and ["-"] otherwise, whatever the amount
    is: two raw records with the same [amountSign] get the same sign.  The
    stored amount is the raw amount as it came (zero when absent); its sign
    is not changed, so it is at least zero exactly when the raw amount is. *)
Theorem sign_follows_amount_sign_only
    (ws : WealthsimpleAPI) (activity other : Raw.activity)
    (account_label : option string) (st st' : state string) :
  let view :=
    fst (Activities._transform_activity lib ws activity account_label st) in
  let view' :=
    fst (Activities._transform_activity lib ws other account_label st') in
  (ActivityData.sign view = "+"
   <-> Raw.act_amountSign activity = Some "positive")
  /\ (ActivityData.sign view = "-"
      <-> Raw.act_amountSign activity <> Some "positive")
  /\ (Raw.act_amountSign activity = Raw.act_amountSign other ->
      ActivityData.sign view = ActivityData.sign view')
  /\ ActivityData.amount view = default fzero (Raw.act_amount activity)
  /\ fgeb (ActivityData.amount view) fzero
     = fgeb (default fzero (Raw.act_amount activity)) fzero.
Proof.
  cbv zeta.
  destruct (transform_activity_fields ws activity account_label st)
    as (Hs & Ha & _).
  destruct (transform_activity_fields ws other account_label st')
    as (Hs' & _ & _).
  rewrite Hs, Hs', Ha. clear Hs Hs' Ha. repeat split.
  - case_bool_decide; [intros _; assumption | intros; discriminate].
  - intros H. now rewrite bool_decide_eq_true_2.
  - case_bool_decide; [intros; discriminate | intros _; assumption].
  - intros H. now rewrite bool_decide_eq_false_2.
  - intros ->. reflexivity.
Qed.

(** An activity whose raw amount is [-5.0], marked negative. *)
Example negative_amount_is_stored_as_it_came :
  let activity :=
    Raw.Activity (Some "WITHDRAWAL") (Some "Transfer out")
      (Some "2024-01-15T10:30:00Z") (Some (fsub fzero (dec 5 0)))
      (Some "negative") (Some "CAD") None in
  let ws := Client [] (fun _ => []) (fun _ => []) (fun _ _ => Raw.Raises) in
  let view := fst (Activities._transform_activity lib ws activity None init) in
  ActivityData.sign view = "-"
  /\ ActivityData.amount view = S754_finite true 5629499534213120 (-50)
  /\ fltb (ActivityData.amount view) fzero = true
  /\ fgeb (ActivityData.amount view) fzero = false.
Proof.
  intros activity ws view.
  destruct (transform_activity_fields ws activity None init) as (Hs & Ha & _).
  fold view in Hs, Ha. rewrite Hs, Ha. vm_compute. repeat split.
Qed.

End ActivityView.

(** C7, as the claim states it, fails: a raw record whose amount is below
    zero yields a view whose stored amount is below zero. *)
Lemma stored_amount_can_be_negative :
  ~ (forall (lib : Library) (ws : WealthsimpleAPI) (activity : Raw.activity)
            (account_label : option string) (st : state string),
        fgeb
          (ActivityData.amount
             (fst (Activities._transform_activity lib ws activity
                     account_label st)))
          fzero = true).
Proof.
  intros H.
  specialize
    (H (Lib (fun _ _ => None) (fun _ _ s => s) (fun _ => None) (fun _ => ""))
       (Client [] (fun _ => []) (fun _ => []) (fun _ _ => Raw.Raises))
       (Raw.Activity (Some "WITHDRAWAL") (Some "Transfer out")
          (Some "2024-01-15T10:30:00Z") (Some (fsub fzero (dec 5 0)))
          (Some "negative") (Some "CAD") None)
       None init).
  match type of H with
  | fgeb (ActivityData.amount (fst ?run)) _ = _ =>
      change (ActivityData.amount (fst run))
        with (S754_finite true 5629499534213120 (-50)) in H
  end.
  vm_compute in H. discriminate H.
Qed.

(** *** Formatters *)

Section FormatterFacts.

Import Formatters.

Context (lib : Library).

(** C9.  Every formatter method returns on the empty sequence: the table
    formatter answers with its "no data" sentence, the JSON formatter with
    the empty array, the CSV formatter with the empty string, whatever
    [show_totals] and [group_label] are; and so does whichever formatter
    [get_formatter] selects. *)
Theorem formatters_total_on_empty (show_totals : bool)
    (group_label : option string) (format_type : string) :
  TableFormatter.format_accounts [] = "No accounts found."
  /\ TableFormatter.format_activities [] = "No activities found."
  /\ TableFormatter.format_positions [] show_totals group_label
     = "No positions found."
  /\ JsonFormatter.format_accounts lib [] = "[]"
  /\ JsonFormatter.format_activities lib [] = "[]"
  /\ JsonFormatter.format_positions lib [] show_totals group_label = "[]"
  /\ CsvFormatter.format_accounts lib [] = ""
  /\ CsvFormatter.format_activities lib [] = ""
  /\ CsvFormatter.format_positions lib [] show_totals group_label = ""
  /\ In (format_accounts (get_formatter lib format_type) [])
        ["No accounts found."; "[]"; ""]
  /\ In (format_activities (get_formatter lib format_type) [])
        ["No activities found."; "[]"; ""]
  /\ In (format_positions (get_formatter lib format_type) [] show_totals
           group_label)
        ["No positions found."; "[]"; ""].
Proof.
  repeat split; try reflexivity;
    unfold get_formatter;
    repeat match goal with
           | |- context [String.eqb ?a ?b] => destruct (String.eqb a b)
           end;
    cbn; tauto.
Qed.

(** C6, as amended.  For a non-empty sequence [p :: ps], the total row of
    the positions table, the [TOTAL] row of the positions CSV, the [totals]
    object of the positions JSON and the grand total of the grouped report
    show the currency of [p], the first item.  The total row of the accounts
    table shows [CAD], whatever the accounts are. *)
Theorem totals_currency_is_first_item
    (p : PositionData.t) (ps : list PositionData.t)
    (group_label : option string) (accounts : list AccountData.t) :
  let positions := p :: ps in
  let '(total_value, total_book, total_pnl, total_pnl_pct) :=
    _calculate_position_totals positions in
  let label :=
    if truthy (or_str group_label "") then "Account Total" else "Total" in
  TableFormatter.position_total_lines positions group_label
  = [ TableFormatter.rule 94;
      ljust 51 label +:+ " " +:+ rjust 13 (format_f true 2 total_value)
      +:+ " " +:+ PositionData.currency p +:+ " "
      +:+ rjust 13 (TableFormatter.signed_amount total_pnl) +:+ " "
      +:+ rjust 8 (TableFormatter.signed_percent total_pnl_pct);
      TableFormatter.rule 94 ]
  /\ CsvFormatter.total_cells positions group_label
     = [ CStr "TOTAL"; CStr "";
         CFloat (sum (map PositionData.quantity positions));
         CFloat total_value; CFloat total_book;
         CStr (PositionData.currency p);
         CFloat total_pnl; CFloat total_pnl_pct;
         CStr (or_str group_label "") ]
  /\ JsonFormatter.totals_value positions
     = JDict [ ("market_value", JFloat total_value);
               ("book_value", JFloat total_book);
               ("pnl", JFloat total_pnl);
               ("pnl_pct", JFloat total_pnl_pct);
               ("currency", JStr (PositionData.currency p)) ]
  /\ Driver.grand_total_lines positions
     = [ nl +:+ TableFormatter.rule 94;
         ljust 51 "Grand Total" +:+ " "
         +:+ rjust 13 (format_f true 2 total_value) +:+ " "
         +:+ PositionData.currency p +:+ " "
         +:+ rjust 13 (TableFormatter.signed_amount total_pnl) +:+ " "
         +:+ rjust 8 (TableFormatter.signed_percent total_pnl_pct);
         TableFormatter.rule 94 ]
  /\ TableFormatter.accounts_total_lines accounts
     = [ TableFormatter.rule 80;
         ljust 61 "Total" +:+ " "
         +:+ rjust 15
               (format_f true 2
                  (fold_left fadd (map AccountData.value accounts) fzero))
         +:+ " " +:+ "CAD";
         TableFormatter.rule 80 ]
  /\ (forall show_totals,
        JsonFormatter.positions_value positions true group_label
        = JDict ([ ("positions", JList (map JsonFormatter.asdict_position positions));
                   ("totals", JsonFormatter.totals_value positions) ]
                 ++ (if truthy (or_str group_label "")
                     then [ ("group", JStr (or_str group_label "")) ] else []))
        /\ CsvFormatter.position_rows positions true group_label
           = CsvFormatter.positions_header
             :: map CsvFormatter.position_cells positions
             ++ [ CsvFormatter.total_cells positions group_label ]
        /\ TableFormatter.format_positions positions show_totals group_label
           = join nl
               ((if truthy (or_str group_label "")
                 then [ nl +:+ TableFormatter.rule 94;
                        "Account: " +:+ or_str group_label "";
                        TableFormatter.rule 94 ]
                 else [ nl +:+ TableFormatter.rule 94 ])
                ++ [ TableFormatter.position_header; TableFormatter.dashes 94 ]
                ++ map TableFormatter._format_position_row positions
                ++ (if show_totals
                    then TableFormatter.position_total_lines positions
                           group_label
                    else []))).
Proof.
  cbv zeta.
  unfold TableFormatter.position_total_lines, CsvFormatter.total_cells,
    JsonFormatter.totals_value, Driver.grand_total_lines,
    Driver._format_pnl_display, TableFormatter._format_totals_row,
    TableFormatter.accounts_total_lines,
    Assets._calculate_position_totals, _calculate_position_totals.
  cbn [first_currency]. repeat split.
Qed.

End FormatterFacts.

(** C6, as the claim states it, fails on the accounts table: for a single
    account held in USD the total row ends in [CAD], not in the currency of
    the first item. *)
Lemma accounts_total_row_shows_CAD :
  let accounts := [ AccountData.mk "US Savings" "SAV-001" (dec 10000 2) "USD" ] in
  Formatters.TableFormatter.accounts_total_lines accounts
  = [ Formatters.TableFormatter.rule 80;
      "Total                                                                  100.00 CAD";
      Formatters.TableFormatter.rule 80 ]
  /\ Formatters.TableFormatter.format_accounts accounts
     = join nl
         [ nl +:+ Formatters.TableFormatter.rule 80;
           "Account                                  Number                            Value";
           Formatters.TableFormatter.dashes 80;
           "US Savings                               SAV-001                       100.00 USD";
           Formatters.TableFormatter.rule 80;
           "Total                                                                  100.00 CAD";
           Formatters.TableFormatter.rule 80 ]
  /\ hd "" (map AccountData.currency accounts) = "USD".
Proof. vm_compute. repeat split. Qed.

(** *** The security cache *)

Section SecurityCache.

Lemma get_security_name_run (ws : WealthsimpleAPI) (security_id : string)
    (st : state string) :
  Activities._get_security_name ws security_id st
  = resolve_with ws name_of_response (fun id => id) security_id st.
Proof.
  unfold Activities._get_security_name, resolve_with, bind, cache_get, ret.
  cbn [cache calls]. destruct (cache st !! security_id); [reflexivity|].
  destruct (truthy security_id); reflexivity.
Qed.

Lemma get_security_info_run (ws : WealthsimpleAPI) (security_id : string)
    (st : state (string * string)) :
  Assets._get_security_info ws security_id st
  = resolve_with ws info_of_response (fun _ => ("N/A", "Unknown")) security_id st.
Proof.
  unfold Assets._get_security_info, resolve_with, bind, cache_get, ret.
  cbn [cache calls]. destruct (cache st !! security_id); [reflexivity|].
  destruct (truthy security_id); [|reflexivity].
  unfold fetch_market_data, cache_set, info_of_response. cbn [cache calls].
  destruct (get_security_market_data ws (calls st) security_id)
    as [|[[[stock|]]|]]; reflexivity.
Qed.

Section Resolver.

Context {V : Type} (ws : WealthsimpleAPI)
  (of_response : Raw.response -> string -> V) (fallback : string -> V).

Local Abbreviation resolve := (resolve_with ws of_response fallback).

Lemma resolve_cached (security_id : string) (st : state V) (v : V) :
  cache st !! security_id = Some v -> resolve security_id st = (v, st).
Proof. unfold resolve_with. now intros ->. Qed.

Lemma resolve_writes (security_id : string) (st : state V) :
  cache (snd (resolve security_id st)) !! security_id
  = Some (fst (resolve security_id st)).
Proof.
  unfold resolve_with. destruct (cache st !! security_id) eqn:E; [exact E|].
  destruct (truthy security_id); cbn [fst snd cache]; apply lookup_insert_eq.
Qed.

Lemma resolve_calls (security_id : string) (st : state V) :
  calls (snd (resolve security_id st))
  = calls st
    ++ (if bool_decide (is_Some (cache st !! security_id)) then []
        else if truthy security_id then [security_id] else []).
Proof.
  unfold resolve_with. destruct (cache st !! security_id) eqn:E.
  - rewrite bool_decide_eq_true_2 by eauto. cbn. now rewrite app_nil_r.
  - rewrite bool_decide_eq_false_2 by (intros [? ?]; discriminate).
    destruct (truthy security_id); cbn [snd calls]; [reflexivity|].
    now rewrite app_nil_r.
Qed.

Lemma resolve_keeps (security_id : string) (st : state V) (id : string) :
  is_Some (cache st !! id) ->
  cache (snd (resolve security_id st)) !! id = cache st !! id.
Proof.
  intros Hid. unfold resolve_with.
  destruct (cache st !! security_id) eqn:E; [reflexivity|].
  assert (security_id <> id) by (intros ->; rewrite E in Hid; now destruct Hid).
  destruct (truthy security_id); cbn [snd cache]; now apply lookup_insert_ne.
Qed.

Lemma resolve_calls_cached (security_id : string) (st : state V) :
  calls_cached st -> calls_cached (snd (resolve security_id st)).
Proof.
  intros [Hnd Hin]. split.
  - rewrite resolve_calls. case_bool_decide as Hc; [now rewrite app_nil_r|].
    destruct (truthy security_id); [|now rewrite app_nil_r].
    apply NoDup_app. repeat split.
    + exact Hnd.
    + intros id Hid Hone. apply list_elem_of_singleton in Hone as ->.
      apply Hc, Hin. now apply list_elem_of_In.
    + apply NoDup_singleton.
  - intros id. rewrite resolve_calls, in_app_iff. intros [Hid | Hid].
    + rewrite resolve_keeps; auto.
    + assert (id = security_id) as ->.
      { case_bool_decide; [destruct Hid|].
        destruct (truthy security_id); simpl in Hid; intuition. }
      rewrite resolve_writes. eauto.
Qed.

Lemma mapM_resolve_keeps (ids : list string) (st : state V) (id : string) :
  is_Some (cache st !! id) ->
  cache (snd (mapM resolve ids st)) !! id = cache st !! id.
Proof.
  revert st. induction ids as [|i ids IH]; intros st Hid; [reflexivity|].
  cbn [mapM]. unfold bind at 1.
  pose proof (resolve_keeps i st id Hid) as Hk.
  destruct (resolve i st) as [y st1]. cbn [snd] in Hk.
  unfold bind at 1. specialize (IH st1).
  destruct (mapM resolve ids st1) as [ys st2]. cbn [snd ret] in *.
  rewrite IH; [exact Hk | rewrite Hk; exact Hid].
Qed.

Lemma mapM_resolve_calls_cached (ids : list string) (st : state V) :
  calls_cached st -> calls_cached (snd (mapM resolve ids st)).
Proof.
  revert st. induction ids as [|i ids IH]; intros st Hst; [exact Hst|].
  cbn [mapM]. unfold bind at 1.
  pose proof (resolve_calls_cached i st Hst) as H1.
  destruct (resolve i st) as [y st1]. cbn [snd] in H1.
  unfold bind at 1. specialize (IH st1 H1).
  destruct (mapM resolve ids st1) as [ys st2]. exact IH.
Qed.

Lemma calls_cached_init : calls_cached (@init V).
Proof. split; [constructor | intros id []]. Qed.

(** The contract of a resolver, for one identifier resolved twice with any
    other resolutions in between. *)
Lemma resolve_contract (security_id : string) (st : state V)
    (between : list string) :
  let '(first, st1) := resolve security_id st in
  let st2 := snd (mapM resolve between st1) in
  let '(second, st3) := resolve security_id st2 in
  (forall v, cache st !! security_id = Some v -> first = v /\ st1 = st)
  /\ cache st1 !! security_id = Some first
  /\ (truthy security_id = false ->
      cache st !! security_id = None ->
      first = fallback security_id /\ calls st1 = calls st)
  /\ (calls st1 = calls st \/ calls st1 = calls st ++ [security_id])
  /\ second = first
  /\ st3 = st2.
Proof.
  pose proof (resolve_writes security_id st) as Hw.
  pose proof (resolve_calls security_id st) as Hc.
  destruct (resolve security_id st) as [first st1] eqn:E1.
  cbn [fst snd] in Hw, Hc. cbv zeta.
  assert (cache (snd (mapM resolve between st1)) !! security_id = Some first)
    as Hlater by (rewrite mapM_resolve_keeps; [exact Hw | rewrite Hw; eauto]).
  rewrite (resolve_cached _ _ _ Hlater).
  split; [|split; [|split; [|split; [|split]]]]; try reflexivity.
  - intros v Hv. rewrite (resolve_cached _ _ _ Hv) in E1.
    split; congruence.
  - exact Hw.
  - intros Hempty Hnone. split.
    + unfold resolve_with in E1. rewrite Hnone, Hempty in E1. congruence.
    + rewrite Hc, Hnone, Hempty.
      rewrite bool_decide_eq_false_2 by (intros [? ?]; discriminate).
      apply app_nil_r.
  - rewrite Hc. case_bool_decide; [left; apply app_nil_r|].
    destruct (truthy security_id); [right; reflexivity | left; apply app_nil_r].
Qed.

End Resolver.

(** C4.  Both resolvers, the one of the activities and the one of the
    assets: an identifier that is a key of the cache is answered with the
    cached value, the state (cache and calls) unchanged; every resolution
    leaves its result in the cache under the identifier, also the fallback
    for an empty identifier or a failed lookup; a resolution adds at most one
    call; and a second resolution of the same identifier, after any other
    resolutions, returns the same value and changes nothing, so it makes no
    call.  From a fresh cache, no identifier is ever asked of the client
    twice. *)
Theorem resolution_is_cached
    (ws : WealthsimpleAPI) (security_id : string) (between others : list string)
    (names : state string) (infos : state (string * string)) :
  (let '(first, st1) := Activities._get_security_name ws security_id names in
   let st2 := snd (mapM (Activities._get_security_name ws) between st1) in
   let '(second, st3) := Activities._get_security_name ws security_id st2 in
   (forall v, cache names !! security_id = Some v -> first = v /\ st1 = names)
   /\ cache st1 !! security_id = Some first
   /\ (calls st1 = calls names \/ calls st1 = calls names ++ [security_id])
   /\ second = first /\ st3 = st2)
  /\ (let '(first, st1) := Assets._get_security_info ws security_id infos in
      let st2 := snd (mapM (Assets._get_security_info ws) between st1) in
      let '(second, st3) := Assets._get_security_info ws security_id st2 in
      (forall v, cache infos !! security_id = Some v -> first = v /\ st1 = infos)
      /\ cache st1 !! security_id = Some first
      /\ (calls st1 = calls infos \/ calls st1 = calls infos ++ [security_id])
      /\ second = first /\ st3 = st2)
  /\ (let '(name, st1) := Activities._get_security_name ws "" names in
      cache names !! "" = None ->
      name = "" /\ cache st1 !! "" = Some "" /\ calls st1 = calls names)
  /\ (let '(info, st1) := Assets._get_security_info ws "" infos in
      cache infos !! "" = None ->
      info = ("N/A", "Unknown")
      /\ cache st1 !! "" = Some ("N/A", "Unknown") /\ calls st1 = calls infos)
  /\ NoDup (calls (snd (mapM (Activities._get_security_name ws) others init)))
  /\ NoDup (calls (snd (mapM (Assets._get_security_info ws) others init))).
Proof.
  assert (Hn : forall ids st,
             mapM (Activities._get_security_name ws) ids st
             = mapM (resolve_with ws name_of_response (fun id => id)) ids st).
  { induction ids as [|i ids IH]; intros st; [reflexivity|].
    cbn [mapM]. unfold bind. rewrite get_security_name_run.
    destruct (resolve_with _ _ _ i st) as [y st1]. now rewrite IH. }
  assert (Hi : forall ids st,
             mapM (Assets._get_security_info ws) ids st
             = mapM (resolve_with ws info_of_response
                       (fun _ => ("N/A", "Unknown"))) ids st).
  { induction ids as [|i ids IH]; intros st; [reflexivity|].
    cbn [mapM]. unfold bind. rewrite get_security_info_run.
    destruct (resolve_with _ _ _ i st) as [y st1]. now rewrite IH. }
  repeat apply conj.
  - pose proof (resolve_contract ws name_of_response (fun id => id)
                  security_id names between) as H.
    rewrite get_security_name_run.
    destruct (resolve_with _ _ _ security_id names) as [first st1].
    cbv zeta in H |- *. rewrite Hn, get_security_name_run.
    destruct (resolve_with _ _ _ security_id _) as [second st3].
    tauto.
  - pose proof (resolve_contract ws info_of_response
                  (fun _ => ("N/A", "Unknown")) security_id infos between) as H.
    rewrite get_security_info_run.
    destruct (resolve_with _ _ _ security_id infos) as [first st1].
    cbv zeta in H |- *. rewrite Hi, get_security_info_run.
    destruct (resolve_with _ _ _ security_id _) as [second st3].
    tauto.
  - pose proof (resolve_contract ws name_of_response (fun id => id)
                  "" names []) as H.
    rewrite get_security_name_run.
    destruct (resolve_with _ _ _ "" names) as [first st1].
    cbv zeta in H. cbn [mapM ret snd] in H.
    destruct (resolve_with _ _ _ "" st1) as [second st3].
    destruct H as (_ & Hw & Hf & _). intros Hnone.
    destruct (Hf eq_refl Hnone) as [-> Hc]. auto.
  - pose proof (resolve_contract ws info_of_response
                  (fun _ => ("N/A", "Unknown")) "" infos []) as H.
    rewrite get_security_info_run.
    destruct (resolve_with _ _ _ "" infos) as [first st1].
    cbv zeta in H. cbn [mapM ret snd] in H.
    destruct (resolve_with _ _ _ "" st1) as [second st3].
    destruct H as (_ & Hw & Hf & _). intros Hnone.
    destruct (Hf eq_refl Hnone) as [-> Hc]. auto.
  - rewrite Hn. apply mapM_resolve_calls_cached, calls_cached_init.
  - rewrite Hi. apply mapM_resolve_calls_cached, calls_cached_init.
Qed.

End SecurityCache.

(** *** Sorting and grouping *)

Section SortAndGroup.

Context {A K : Type} `{EqDecision K} (gkey : A -> K) (skey_of : K -> string).

Local Abbreviation key := (fun a => skey_of (gkey a)).
Local Abbreviation key_le := (fun a b => String.le (key a) (key b)).
Local Abbreviation has_key := (fun k a => bool_decide (gkey a = k)).

Lemma filter_none {B} (P : B -> bool) (l : list B) :
  (forall y, In y l -> P y = false) -> List.filter P l = [].
Proof.
  intros H. rewrite (List.filter_ext_in P (fun _ => false) l H).
  apply List.filter_false.
Qed.

Lemma leb_false_le (s t : string) : String.leb s t = false -> String.le t s.
Proof.
  intros H. destruct (String.leb_total s t) as [Hst | Hts].
  - congruence.
  - unfold String.le. now rewrite Hts.
Qed.

Lemma insert_by_perm (x : A) (xs : list A) :
  Permutation (insert_by key x xs) (x :: xs).
Proof.
  induction xs as [|y xs IH]; cbn [insert_by]; [reflexivity|].
  destruct (String.leb _ _); [reflexivity|].
  rewrite IH. apply perm_swap.
Qed.

Lemma sorted_perm (xs : list A) : Permutation (sorted key xs) xs.
Proof.
  induction xs as [|x xs IH]; cbn [sorted]; [reflexivity|].
  rewrite insert_by_perm. now constructor.
Qed.

Lemma insert_by_sorted (x : A) (xs : list A) :
  StronglySorted key_le xs -> StronglySorted key_le (insert_by key x xs).
Proof.
  induction 1 as [|y xs Hs IH Hy]; cbn [insert_by].
  - repeat constructor.
  - destruct (String.leb (key x) (key y)) eqn:E.
    + constructor; [now constructor|]. constructor.
      * unfold String.le. now rewrite E.
      * eapply Forall_impl; [exact Hy|]. cbn. intros z Hz.
        transitivity (skey_of (gkey y)); [|exact Hz].
        unfold String.le. now rewrite E.
    + constructor; [exact IH|].
      eapply Permutation_Forall; [symmetry; apply insert_by_perm|].
      constructor; [now apply leb_false_le | exact Hy].
Qed.

Lemma sorted_sorted (xs : list A) : StronglySorted key_le (sorted key xs).
Proof.
  induction xs as [|x xs IH]; cbn [sorted]; [constructor|].
  now apply insert_by_sorted.
Qed.

(** Stability: items selected by a property that fixes the sort key keep
    their order. *)
Lemma insert_by_filter (P : A -> bool) (x : A) (xs : list A) :
  (forall a b, P a = true -> P b = true -> key a = key b) ->
  List.filter P (insert_by key x xs) = List.filter P (x :: xs).
Proof.
  intros HP. induction xs as [|y xs IH]; cbn [insert_by]; [reflexivity|].
  destruct (String.leb (key x) (key y)) eqn:E; [reflexivity|].
  cbn [List.filter] in *. rewrite IH.
  destruct (P x) eqn:Px, (P y) eqn:Py; try reflexivity.
  exfalso. rewrite (HP x y Px Py) in E.
  assert (String.le (skey_of (gkey y)) (skey_of (gkey y))) as Hr by reflexivity.
  unfold String.le in Hr. cbn in E. rewrite E in Hr. exact Hr.
Qed.

Lemma sorted_filter (P : A -> bool) (xs : list A) :
  (forall a b, P a = true -> P b = true -> key a = key b) ->
  List.filter P (sorted key xs) = List.filter P xs.
Proof.
  intros HP. induction xs as [|x xs IH]; cbn [sorted]; [reflexivity|].
  rewrite insert_by_filter by exact HP. cbn [List.filter]. now rewrite IH.
Qed.

Lemma has_key_fixes_key (k : K) (a b : A) :
  has_key k a = true -> has_key k b = true -> key a = key b.
Proof.
  intros Ha%bool_decide_eq_true Hb%bool_decide_eq_true. cbn. congruence.
Qed.

Lemma groupby_concat (xs : list A) :
  concat (map snd (groupby gkey xs)) = xs.
Proof.
  induction xs as [|x xs IH]; cbn [groupby]; [reflexivity|].
  destruct (groupby gkey xs) as [|[k g] rest]; cbn in *.
  - now rewrite <- IH.
  - destruct (decide (gkey x = k)); cbn; now rewrite <- IH.
Qed.

Lemma groupby_nil (xs : list A) : groupby gkey xs = [] -> xs = [].
Proof. intros H. rewrite <- (groupby_concat xs), H. reflexivity. Qed.

(** The first group starts with the first item and carries its key. *)
Lemma groupby_first (x : A) (xs : list A) :
  exists g rest, groupby gkey (x :: xs) = (gkey x, x :: g) :: rest.
Proof.
  cbn [groupby]. destruct (groupby gkey xs) as [|[k g] rest]; [eauto|].
  destruct (decide (gkey x = k)) as [<-|]; eauto.
Qed.

Section Sorted.

Context (ok : K -> Prop).
Hypothesis skey_inj :
  forall k1 k2, ok k1 -> ok k2 -> skey_of k1 = skey_of k2 -> k1 = k2.

Local Abbreviation before :=
  (fun g1 g2 : K * list A =>
     String.le (skey_of (fst g1)) (skey_of (fst g2))
     /\ skey_of (fst g1) <> skey_of (fst g2)).

Lemma before_trans_le (s : string) (g1 g2 : K * list A) :
  String.le s (skey_of (fst g1)) -> before g1 g2 ->
  String.le s (skey_of (fst g2)) /\ s <> skey_of (fst g2).
Proof.
  intros Hs [Hle Hne]. split; [now transitivity (skey_of (fst g1))|].
  intros ->. apply Hne. now apply (anti_symm String.le).
Qed.

(** On a list sorted by key, whose keys are told apart by their sort keys,
    the groups ascend strictly and each is the selection of its key. *)
Lemma groupby_sorted (xs : list A) :
  StronglySorted key_le xs ->
  Forall (fun a => ok (gkey a)) xs ->
  StronglySorted before (groupby gkey xs)
  /\ Forall (fun kg => ok (fst kg) /\ snd kg <> []
                       /\ snd kg = List.filter (has_key (fst kg)) xs)
       (groupby gkey xs).
Proof.
  induction 1 as [|x xs Hs IH Hx]; intros Hok.
  { split; constructor. }
  apply Forall_cons in Hok as [Hokx Hok].
  destruct (IH Hok) as [IHs IHg]. clear IH.
  cbn [groupby].
  destruct (groupby gkey xs) as [|[k g] rest] eqn:E.
  { apply groupby_nil in E as ->. split; [repeat constructor|].
    constructor; [|constructor]. cbn [fst snd List.filter].
    rewrite bool_decide_eq_true_2 by reflexivity.
    split; [exact Hokx|]. split; [discriminate | reflexivity]. }
  (* the head of [xs] carries [k] and bounds [x] from above *)
  assert (String.le (key x) (skey_of k)) as Hxk.
  { destruct xs as [|y ys]; [discriminate E|].
    destruct (groupby_first y ys) as (g' & rest' & E').
    rewrite E' in E. injection E as <- _ _.
    apply Forall_cons in Hx as [Hy _]. exact Hy. }
  apply StronglySorted_inv in IHs as [IHs IHk].
  apply Forall_cons in IHg as [(Hokk & Hg & Hgk) IHg]. cbn [fst snd] in *.
  assert (Hrest : Forall (fun kg : K * list A => gkey x <> fst kg) rest).
  { apply Forall_forall. intros kg Hin Heq.
    rewrite Forall_forall in IHk. specialize (IHk kg Hin).
    destruct (before_trans_le (key x) (k, g) kg Hxk IHk) as [_ Hne].
    apply Hne. cbn. now rewrite Heq. }
  assert (Hkeep : Forall (fun kg : K * list A =>
                    ok (fst kg) /\ snd kg <> []
                    /\ snd kg = List.filter (has_key (fst kg)) (x :: xs)) rest).
  { rewrite Forall_forall in IHg, Hrest |- *. intros kg Hin.
    destruct (IHg kg Hin) as (? & ? & Hf). repeat split; auto.
    cbn [List.filter]. rewrite bool_decide_eq_false_2 by now apply Hrest.
    exact Hf. }
  destruct (decide (gkey x = k)) as [<-|Hne].
  - split.
    + constructor; [exact IHs | exact IHk].
    + constructor; [|exact Hkeep]. cbn [fst snd].
      split; [exact Hokx|]. split; [discriminate|].
      cbn [List.filter]. rewrite bool_decide_eq_true_2 by reflexivity.
      now f_equal.
  - assert (key x <> skey_of k) as Hsk.
    { intros Heq. apply Hne. now apply skey_inj. }
    split.
    + constructor; [now constructor|]. constructor.
      * split; [exact Hxk | exact Hsk].
      * rewrite Forall_forall in IHk |- *. intros kg Hin.
        apply (before_trans_le (key x) (k, g) kg Hxk (IHk kg Hin)).
    + constructor; [|constructor; [|exact Hkeep]]; cbn [fst snd].
      * split; [exact Hokx|]. split; [discriminate|].
        cbn [List.filter]. rewrite bool_decide_eq_true_2 by reflexivity.
        f_equal. symmetry. apply filter_none.
        intros y Hy. apply bool_decide_eq_false_2. intros Hyx.
        apply Hsk. apply (anti_symm String.le); [exact Hxk|].
        (* [k] is the key of an item of [xs], all of which lie above the
           head, and [y] has the key of [x] *)
        destruct xs as [|z zs]; [destruct Hy|].
        destruct (groupby_first z zs) as (g' & rest' & E').
        rewrite E' in E. injection E as <- _ _.
        apply StronglySorted_inv in Hs as [_ Hz].
        destruct Hy as [<-|Hy]; [cbn; now rewrite Hyx|].
        rewrite List.Forall_forall in Hz. specialize (Hz y Hy). cbn in Hz.
        now rewrite Hyx in Hz.
      * split; [exact Hokk|]. split; [exact Hg|].
        cbn [List.filter]. rewrite bool_decide_eq_false_2 by exact Hne.
        exact Hgk.
Qed.

(** The groups of the sorted list, told in terms of the list itself. *)
Lemma groupby_sorted_input (xs : list A) :
  Forall (fun a => ok (gkey a)) xs ->
  let groups := groupby gkey (sorted key xs) in
  StronglySorted before groups
  /\ (forall k g, In (k, g) groups ->
                  g <> [] /\ g = List.filter (has_key k) xs)
  /\ (forall a, In a xs -> In (gkey a) (map fst groups)).
Proof.
  intros Hok groups.
  assert (Hok' : Forall (fun a => ok (gkey a)) (sorted key xs))
    by (eapply Permutation_Forall; [symmetry; apply sorted_perm | exact Hok]).
  destruct (groupby_sorted _ (sorted_sorted xs) Hok') as [Hs Hg].
  fold groups in Hs, Hg. split; [exact Hs|]. split.
  - intros k g Hin. rewrite List.Forall_forall in Hg.
    destruct (Hg (k, g) Hin) as (_ & Hne & Hf). cbn [fst snd] in *.
    split; [exact Hne|]. rewrite Hf. apply sorted_filter.
    intros a b. apply has_key_fixes_key.
  - intros a Ha.
    assert (In a (concat (map snd groups))) as Hc.
    { unfold groups. rewrite groupby_concat.
      eapply Permutation_in; [symmetry; apply sorted_perm | exact Ha]. }
    apply in_concat in Hc as (g & Hg' & Hag).
    apply in_map_iff in Hg' as ([k g'] & <- & Hin). cbn [snd] in Hag.
    rewrite List.Forall_forall in Hg. destruct (Hg (k, g') Hin) as (_ & _ & Hf).
    cbn [fst snd] in Hf. rewrite Hf in Hag.
    apply filter_In in Hag as [_ Hk%bool_decide_eq_true].
    rewrite Hk. apply in_map_iff. now exists (k, g').
Qed.

End Sorted.

(** The groups together are the list, rearranged. *)
Lemma groups_permutation (xs : list A) :
  Permutation (concat (map snd (groupby gkey (sorted key xs)))) xs.
Proof. rewrite groupby_concat. apply sorted_perm. Qed.

End SortAndGroup.

(** *** Grouped reports *)

Section GroupedReports.

Lemma or_str_some (s : string) : or_str (Some s) "" = s.
Proof. now destruct s. Qed.

Lemma label_key_inj (k1 k2 : option string) :
  is_Some k1 -> is_Some k2 -> or_str k1 "" = or_str k2 "" -> k1 = k2.
Proof. intros [s1 ->] [s2 ->]. rewrite !or_str_some. congruence. Qed.

Lemma grouped_by_label_sorted {A} (label : A -> option string) (data : list A) :
  Forall (fun a => is_Some (label a)) data ->
  grouped_by_label label data
    (groupby label (sorted (fun a => or_str (label a) "") data)).
Proof.
  intros Hok. unfold grouped_by_label, label_before.
  exact (groupby_sorted_input label (fun k => or_str k "") is_Some
           label_key_inj data Hok).
Qed.

(** C5, as amended.  In a multi-account report, where every item carries a
    label, the groups come in ascending order of their labels (the order of
    the sort key, not the order of first appearance); no label comes twice;
    each group holds all the items of its label, in the order they have in
    the sequence; and every label of the sequence has its group.  This holds
    for the grouped positions report and for the grouped activities report. *)
Theorem groups_ascend_by_label
    (positions : list PositionData.t) (activities : list ActivityData.t) :
  Forall (fun p => is_Some (PositionData.account_label p)) positions ->
  Forall (fun a => is_Some (ActivityData.account_label a)) activities ->
  grouped_by_label PositionData.account_label positions
    (Driver.position_groups positions)
  /\ grouped_by_label ActivityData.account_label activities
       (Driver.activity_groups activities).
Proof.
  intros Hp Ha. split.
  - apply grouped_by_label_sorted, Hp.
  - apply grouped_by_label_sorted, Ha.
Qed.

Lemma groups_ascend_by_label_witness :
  let positions :=
    [ Sample.labelled "TFSA (001)" (dec 252500 2) (dec 240000 2);
      Sample.labelled "RRSP (002)" (dec 315000 2) (dec 300000 2);
      Sample.labelled "TFSA (001)" (dec 1000 2) (dec 1200 2) ] in
  let activities :=
    [ Sample.dividend "TFSA (001)"; Sample.dividend "RRSP (002)" ] in
  grouped_by_label PositionData.account_label positions
    (Driver.position_groups positions)
  /\ grouped_by_label ActivityData.account_label activities
       (Driver.activity_groups activities).
Proof.
  intros positions activities.
  apply (groups_ascend_by_label positions activities);
    repeat constructor; eexists; reflexivity.
Defined.

(** C5, as the claim states it, fails: with the TFSA supplied before the
    RRSP, the items come labelled TFSA first, and the report shows the RRSP
    group first. *)
Lemma groups_not_in_order_of_first_appearance :
  let data := Assets.get_assets_data Sample.one_each None true "CAD" None in
  map PositionData.account_label data = [Some "TFSA (001)"; Some "RRSP (002)"]
  /\ map fst (Driver.position_groups data)
     = [Some "RRSP (002)"; Some "TFSA (001)"]
  /\ map fst (stable_partition PositionData.account_label data)
     = [Some "TFSA (001)"; Some "RRSP (002)"]
  /\ Driver.position_groups data
     <> stable_partition PositionData.account_label data.
Proof.
  cbv zeta. repeat split; try (vm_compute; reflexivity).
  intros H. apply (f_equal (map fst)) in H. vm_compute in H. discriminate H.
Qed.

(** **** Totals of the grouped positions report *)

Lemma exact_sum_app (xs ys : list float) :
  (exact_sum (xs ++ ys) == exact_sum xs + exact_sum ys)%Q.
Proof.
  unfold exact_sum. induction xs as [|x xs IH]; cbn [map fold_right app].
  - now rewrite Qplus_0_l.
  - rewrite IH. now rewrite Qplus_assoc.
Qed.

Lemma exact_sum_perm (xs ys : list float) :
  Permutation xs ys -> (exact_sum xs == exact_sum ys)%Q.
Proof.
  unfold exact_sum.
  induction 1 as [|x xs ys _ IH|x y xs|xs ys zs _ IH1 _ IH2];
    cbn [map fold_right].
  - reflexivity.
  - now rewrite IH.
  - rewrite !Qplus_assoc. now rewrite (Qplus_comm (exact y)).
  - now rewrite IH1.
Qed.

Lemma exact_sum_groups {B} (f : B -> float) (groups : list (list B)) :
  (fold_right Qplus 0 (map (fun g => exact_sum (map f g)) groups)
   == exact_sum (map f (concat groups)))%Q.
Proof.
  induction groups as [|g groups IH]; cbn [map fold_right concat].
  - reflexivity.
  - rewrite map_app, exact_sum_app, IH. reflexivity.
Qed.

Lemma sorted_same_key {A} (key : A -> string) (s : string) (xs : list A) :
  Forall (fun a => key a = s) xs -> sorted key xs = xs.
Proof.
  induction 1 as [|x xs Hx Hxs IH]; cbn [sorted]; [reflexivity|].
  rewrite IH. destruct Hxs as [|y ys Hy _]; [reflexivity|].
  cbn [insert_by]. rewrite Hx, Hy.
  assert (String.le s s) as Hr by reflexivity.
  unfold String.le in Hr. now destruct (String.leb s s).
Qed.

Lemma groupby_same_key {A K} `{EqDecision K} (gkey : A -> K) (k : K)
    (x : A) (xs : list A) :
  Forall (fun a => gkey a = k) (x :: xs) -> groupby gkey (x :: xs) = [(k, x :: xs)].
Proof.
  revert x. induction xs as [|y ys IH]; intros x Hall.
  - apply Forall_cons in Hall as [<- _]. reflexivity.
  - apply Forall_cons in Hall as [Hx Hall].
    change (groupby gkey (x :: y :: ys))
      with (match groupby gkey (y :: ys) with
            | (k', g) :: rest =>
                if decide (gkey x = k') then (k', x :: g) :: rest
                else (gkey x, [x]) :: (k', g) :: rest
            | [] => [(gkey x, [x])]
            end).
    rewrite (IH y Hall). now rewrite decide_True.
Qed.

Lemma groupby_nonempty {A K} `{EqDecision K} (gkey : A -> K) (xs : list A) :
  Forall (fun kg => snd kg <> []) (groupby gkey xs).
Proof.
  induction xs as [|x xs IH]; [constructor|].
  cbn [groupby]. destruct (groupby gkey xs) as [|[k g] rest].
  - now repeat constructor.
  - destruct (decide (gkey x = k)).
    + inversion IH; subst. now constructor.
    + now constructor.
Qed.

Lemma guard_flip (book x : float) :
  (if fneb book fzero then x else fzero)
  = (if feqb book fzero then fzero else x).
Proof. unfold fneb, feqb. now destruct (SFeqb book fzero). Qed.

(** C2, as amended.  The grouped report prints one table per group and then
    the grand total.  The grand total row shows the float sum of the market
    values of the whole sequence, in the order of the sequence, and the P&L
    and percentage computed from that sum and the float sum of all the book
    values; the row closing the table of a group shows the same figures
    computed from the items of the group alone.  The groups together hold
    exactly the items of the sequence, each in one group, so the numbers that
    the grand total adds up are the numbers that the subtotals add up, and in
    exact arithmetic the totals of market value, book value and P&L are the
    sums of the subtotals; with a single group the subtotal and the grand
    total are the same floats. *)
Theorem grand_total_is_recomputed_from_all_items
    (formatter : Formatters.FormatterProtocol)
    (positions_data : list PositionData.t) :
  let groups := Driver.position_groups positions_data in
  let values g := map PositionData.market_value g in
  let books g := map PositionData.book_value g in
  let pnl_of g := fsub (sum (values g)) (sum (books g)) in
  let pct_of g :=
    if feqb (sum (books g)) fzero then fzero
    else fmul (fdiv (pnl_of g) (sum (books g))) (of_Z 100) in
  let total_row (title : string) (g : list PositionData.t) :=
    ljust 51 title +:+ " " +:+ rjust 13 (format_f true 2 (sum (values g)))
    +:+ " " +:+ Formatters.first_currency g +:+ " "
    +:+ rjust 13 (Formatters.TableFormatter.signed_amount (pnl_of g)) +:+ " "
    +:+ rjust 8 (Formatters.TableFormatter.signed_percent (pct_of g)) in
  let market g := exact_sum (values g) in
  let book g := exact_sum (books g) in
  Driver._print_positions_by_account formatter positions_data
  = map (fun g => Formatters.format_positions formatter (snd g) true (fst g))
      groups
    ++ [ nl +:+ Formatters.TableFormatter.rule 94;
         total_row "Grand Total" positions_data;
         Formatters.TableFormatter.rule 94 ]
  /\ Assets._calculate_position_totals positions_data
     = (sum (values positions_data), pnl_of positions_data,
        pct_of positions_data)
  /\ (forall g,
        In g groups ->
        snd g <> []
        /\ Formatters._calculate_position_totals (snd g)
           = (sum (values (snd g)), sum (books (snd g)), pnl_of (snd g),
              pct_of (snd g))
        /\ Formatters.TableFormatter.format_positions (snd g) true (fst g)
           = join nl
               ((if truthy (or_str (fst g) "")
                 then [ nl +:+ Formatters.TableFormatter.rule 94;
                        "Account: " +:+ or_str (fst g) "";
                        Formatters.TableFormatter.rule 94 ]
                 else [ nl +:+ Formatters.TableFormatter.rule 94 ])
                ++ [ Formatters.TableFormatter.position_header;
                     Formatters.TableFormatter.dashes 94 ]
                ++ map Formatters.TableFormatter._format_position_row (snd g)
                ++ [ Formatters.TableFormatter.rule 94;
                     total_row
                       (if truthy (or_str (fst g) "")
                        then "Account Total" else "Total")
                       (snd g);
                     Formatters.TableFormatter.rule 94 ]))
  /\ Permutation (concat (map snd groups)) positions_data
  /\ (market positions_data
      == fold_right Qplus 0 (map (fun g => market (snd g)) groups))%Q
  /\ (book positions_data
      == fold_right Qplus 0 (map (fun g => book (snd g)) groups))%Q
  /\ (market positions_data - book positions_data
      == fold_right Qplus 0
           (map (fun g => market (snd g) - book (snd g)) groups))%Q
  /\ (forall k p ps,
        positions_data = p :: ps ->
        Forall (fun q => PositionData.account_label q = k) positions_data ->
        groups = [(k, positions_data)]
        /\ Formatters._calculate_position_totals positions_data
           = (let '(total_value, total_pnl, total_pnl_pct) :=
                Assets._calculate_position_totals positions_data in
              (total_value,
               sum (map PositionData.book_value positions_data),
               total_pnl, total_pnl_pct))).
Proof.
  intros groups values books pnl_of pct_of total_row market book.
  assert (Hperm : Permutation (concat (map snd groups)) positions_data)
    by apply (groups_permutation PositionData.account_label
                (fun k => or_str k "")).
  assert (Hsum : forall f : PositionData.t -> float,
             (exact_sum (map f positions_data)
              == fold_right Qplus 0
                   (map (fun g => exact_sum (map f (snd g))) groups))%Q).
  { intros f.
    rewrite <- (exact_sum_perm _ _ (Permutation_map f Hperm)).
    rewrite <- exact_sum_groups, map_map. reflexivity. }
  assert (Htotals : forall g,
             Formatters._calculate_position_totals g
             = (sum (values g), sum (books g), pnl_of g, pct_of g)).
  { intros g. unfold Formatters._calculate_position_totals. cbv zeta.
    now rewrite guard_flip. }
  split; [|split; [|split;
    [|split; [exact Hperm|split; [apply Hsum|split; [apply Hsum|split]]]]]].
  - unfold Driver._print_positions_by_account. fold groups. f_equal.
    + apply map_ext. now intros [k g].
    + unfold Driver.grand_total_lines, Assets._calculate_position_totals,
        Driver._format_pnl_display. cbv zeta. now rewrite guard_flip.
  - unfold Assets._calculate_position_totals. cbv zeta.
    now rewrite guard_flip.
  - intros [k g] Hin. cbn [fst snd].
    assert (g <> []) as Hg.
    { pose proof (groupby_nonempty PositionData.account_label
                    (sorted (fun p => or_str (PositionData.account_label p) "")
                       positions_data)) as Hall.
      rewrite List.Forall_forall in Hall. exact (Hall _ Hin). }
    split; [exact Hg|]. split; [apply Htotals|].
    destruct g as [|p ps]; [congruence|].
    unfold Formatters.TableFormatter.format_positions,
      Formatters.TableFormatter.position_total_lines,
      Formatters.TableFormatter._format_totals_row.
    rewrite Htotals. reflexivity.
  - unfold market, book, values, books.
    rewrite (Hsum PositionData.market_value),
      (Hsum PositionData.book_value).
    clear. induction groups as [|g gs IH]; cbn [map fold_right].
    + reflexivity.
    + rewrite <- IH. ring.
  - intros k p ps -> Hall. split; [|reflexivity].
    unfold groups, Driver.position_groups.
    rewrite (sorted_same_key _ (or_str k "")).
    + now apply groupby_same_key.
    + eapply Forall_impl; [exact Hall|]. cbn. now intros q ->.
Qed.

(** C2, as the claim states it, fails.  With one holding in each account,
    the grand total of the P&L is [0.0] and the subtotals add up to a
    negative number; with two holdings in one account and one in the other,
    the grand total of the market value is 2525.3 and the subtotals add up
    to the float below it. *)
Lemma grand_total_differs_from_sum_of_subtotals :
  let data := Assets.get_assets_data Sample.one_each None true "CAD" None in
  let data' := Assets.get_assets_data Sample.one_and_two None true "CAD" None in
  map (fun p => (PositionData.account_label p, PositionData.market_value p,
                 PositionData.book_value p)) data
  = [ (Some "TFSA (001)", dec 30 2, dec 20 2);
      (Some "RRSP (002)", dec 10 2, dec 20 2) ]
  /\ snd (fst (Assets._calculate_position_totals data)) = fzero
  /\ sum_of_subtotal_pnls data = S754_finite true 4503599627370496 (-107)
  /\ feqb (snd (fst (Assets._calculate_position_totals data)))
          (sum_of_subtotal_pnls data) = false
  /\ fst (fst (Assets._calculate_position_totals data')) = dec 25253 1
  /\ fltb (sum_of_subtotal_values data')
          (fst (fst (Assets._calculate_position_totals data'))) = true.
Proof. vm_compute. repeat split. Qed.

End GroupedReports.

(** *** Positions by account *)

Section ByAccount.

Lemma setdefault_append_lookup (acc_id id : string) (pos : Raw.position)
    (d : gmap string (list Raw.position)) :
  default [] (Assets.setdefault_append acc_id pos d !! id)
  = default [] (d !! id) ++ (if bool_decide (acc_id = id) then [pos] else []).
Proof.
  unfold Assets.setdefault_append. case_bool_decide as E.
  - subst. now rewrite lookup_insert_eq.
  - rewrite lookup_insert_ne by exact E. now rewrite app_nil_r.
Qed.

Lemma inner_fold_lookup (pos : Raw.position) (ids : list string) (id : string)
    (d : gmap string (list Raw.position)) :
  default []
    (fold_left (fun d acc_id => Assets.setdefault_append acc_id pos d) ids d
     !! id)
  = default [] (d !! id)
    ++ repeat pos (length (List.filter (fun i => bool_decide (i = id)) ids)).
Proof.
  revert d. induction ids as [|i ids IH]; intros d; cbn [fold_left].
  - cbn. now rewrite app_nil_r.
  - rewrite IH, setdefault_append_lookup. cbn [List.filter].
    destruct (bool_decide (i = id)); cbn [length repeat].
    + now rewrite <- app_assoc.
    + now rewrite app_nil_r.
Qed.

Lemma nodup_filter_eq {B} `{EqDecision B} (ids : list B) (id : B) :
  NoDup ids ->
  length (List.filter (fun i => bool_decide (i = id)) ids)
  = if bool_decide (id ∈ ids) then 1 else 0.
Proof.
  induction 1 as [|i ids Hi Hnd IH]; [reflexivity|].
  cbn [List.filter]. destruct (decide (i = id)) as [->|E].
  - rewrite (bool_decide_eq_true_2 (id = id)) by reflexivity.
    cbn [length]. rewrite IH.
    rewrite (bool_decide_eq_false_2 (id ∈ ids)) by exact Hi.
    rewrite bool_decide_eq_true_2 by constructor. reflexivity.
  - rewrite (bool_decide_eq_false_2 (i = id)) by exact E.
    rewrite IH. apply (f_equal (fun b : bool => if b then 1 else 0)).
    apply bool_decide_ext. rewrite elem_of_cons. intuition congruence.
Qed.

Lemma build_lookup (positions : list Raw.position) (id : string)
    (d : gmap string (list Raw.position)) :
  Forall (fun p => NoDup (Assets._get_position_account_ids p)) positions ->
  default []
    (fold_left
       (fun d pos =>
          fold_left (fun d acc_id => Assets.setdefault_append acc_id pos d)
            (Assets._get_position_account_ids pos) d)
       positions d !! id)
  = default [] (d !! id)
    ++ List.filter
         (fun p => bool_decide (id ∈ Assets._get_position_account_ids p))
         positions.
Proof.
  intros Hnd. revert d.
  induction Hnd as [|p ps Hp _ IH]; intros d; cbn [fold_left List.filter].
  - now rewrite app_nil_r.
  - rewrite IH, inner_fold_lookup, (nodup_filter_eq _ _ Hp), <- app_assoc.
    now destruct (bool_decide _).
Qed.

Lemma account_positions (positions : list Raw.position) (account : Raw.account) :
  Forall (fun p => NoDup (Assets._get_position_account_ids p)) positions ->
  default []
    (Raw.acc_id account ≫= fun id =>
       Assets.build_positions_by_account positions !! id)
  = List.filter (owns account) positions.
Proof.
  intros Hnd. unfold owns, Assets.build_positions_by_account.
  destruct (Raw.acc_id account) as [id|]; cbn [mbind option_bind].
  - rewrite (build_lookup positions id ∅ Hnd), lookup_empty. reflexivity.
  - symmetry. now apply filter_none.
Qed.

Lemma labelled_views_summary (ws : WealthsimpleAPI) (account : Raw.account)
    (currency : string) (ps : list Raw.position) (st : state (string * string)) :
  map summary
    (fst (mapM (fun pos =>
                  pos_data <- Assets._get_position_data ws pos currency ;;
                  ret (PositionData.set_account_label
                         (Some (Assets._build_account_label account)) pos_data))
               ps st))
  = map (fun p => summary_of (account, p)) ps.
Proof.
  revert st. induction ps as [|p ps IH]; intros st; [reflexivity|].
  cbn [mapM]. unfold bind at 1. unfold bind at 1.
  pose proof (get_position_data_fields ws p currency st) as Hf.
  destruct (Assets._get_position_data ws p currency st) as [pd st1].
  cbv zeta in Hf. cbn [fst] in Hf. destruct Hf as (Hm & Hb & _).
  unfold ret at 1. unfold bind at 1. specialize (IH st1).
  destruct (mapM _ ps st1) as [pds st2]. cbn [fst ret map] in *.
  rewrite IH. f_equal. unfold summary, summary_of. cbn.
  now rewrite Hm, Hb.
Qed.

Lemma grouped_summary (ws : WealthsimpleAPI) (positions : list Raw.position)
    (accounts : list Raw.account) (currency : string)
    (st : state (string * string)) :
  Forall (fun p => NoDup (Assets._get_position_account_ids p)) positions ->
  map summary
    (fst (Assets._get_positions_by_account_grouped ws positions accounts
            currency st))
  = map summary_of (owning_pairs positions accounts).
Proof.
  intros Hnd. unfold Assets._get_positions_by_account_grouped, owning_pairs.
  unfold bind at 1.
  match goal with
  | |- context [mapM ?body accounts st] => set (per_account := body)
  end.
  assert (Hbody : forall a st0,
             map summary (fst (per_account a st0))
             = map (fun p => summary_of (a, p)) (List.filter (owns a) positions)).
  { intros a st0. unfold per_account.
    rewrite (account_positions positions a Hnd).
    destruct (List.filter (owns a) positions) as [|q qs] eqn:E; [reflexivity|].
    apply labelled_views_summary. }
  clearbody per_account. revert st.
  induction accounts as [|a accounts IH]; intros st; [reflexivity|].
  cbn [mapM flat_map]. unfold bind at 1. specialize (Hbody a st).
  destruct (per_account a st) as [views st1]. unfold bind at 1.
  specialize (IH st1). destruct (mapM per_account accounts st1) as [rest st2].
  cbn [fst ret concat] in *. rewrite !map_app, Hbody, IH, map_map.
  reflexivity.
Qed.

(** The entries that one account contributes for position [p], when [p]
    stands [n] times in the list: [n] if the account owns it, none if not. *)
Lemma account_entries_of_position (a : Raw.account) (p : Raw.position)
    (qs : list Raw.position) :
  List.filter (fun pair : Raw.account * Raw.position =>
                 bool_decide (snd pair = p))
    (map (pair a) (List.filter (owns a) qs))
  = repeat (a, p)
      (if owns a p
       then length (List.filter (fun q => bool_decide (q = p)) qs) else 0).
Proof.
  induction qs as [|q qs IH]; [now destruct (owns a p)|].
  cbn [List.filter]. destruct (decide (q = p)) as [->|Hne].
  - rewrite (bool_decide_eq_true_2 (p = p)) by reflexivity.
    destruct (owns a p); [|exact IH].
    cbn [map List.filter snd length repeat].
    rewrite bool_decide_eq_true_2 by reflexivity. now rewrite IH.
  - rewrite (bool_decide_eq_false_2 (q = p)) by exact Hne.
    destruct (owns a q); [|exact IH].
    cbn [map List.filter snd]. rewrite bool_decide_eq_false_2 by exact Hne.
    exact IH.
Qed.

Lemma entries_of_position (positions : list Raw.position)
    (accounts : list Raw.account) (p : Raw.position) :
  List.filter (fun pair => bool_decide (snd pair = p))
    (owning_pairs positions accounts)
  = flat_map
      (fun a =>
         repeat (a, p)
           (length (List.filter (fun q => bool_decide (q = p)) positions)))
      (owners accounts p).
Proof.
  unfold owning_pairs, owners.
  induction accounts as [|a accounts IH]; [reflexivity|].
  cbn [flat_map List.filter].
  rewrite List.filter_app, account_entries_of_position, IH.
  now destruct (owns a p).
Qed.

Lemma pairs_of_position (positions : list Raw.position)
    (accounts : list Raw.account) (p : Raw.position) :
  NoDup positions -> In p positions ->
  List.filter (fun pair => bool_decide (snd pair = p))
    (owning_pairs positions accounts)
  = map (fun a => (a, p)) (owners accounts p).
Proof.
  intros Hnd Hin. rewrite entries_of_position, (nodup_filter_eq _ _ Hnd).
  rewrite bool_decide_eq_true_2 by (apply list_elem_of_In, Hin).
  induction (owners accounts p) as [|a l IH]; [reflexivity|].
  cbn in *. now f_equal.
Qed.

Lemma named_accounts_ids (p : Raw.position) :
  named_accounts p = Assets._get_position_account_ids p.
Proof.
  unfold named_accounts, Assets._get_position_account_ids. cbv zeta.
  induction (default [] (Raw.pos_accounts p)) as [|r refs IH]; [reflexivity|].
  cbn [flat_map omap list_omap]. destruct (Raw.ref_id r) as [id|];
    cbn [app List.filter]; [|exact IH].
  destruct (truthy id); now rewrite IH.
Qed.

Lemma holds_owns (a : Raw.account) (p : Raw.position) : holds a p = owns a p.
Proof. unfold holds, owns. now rewrite named_accounts_ids. Qed.

Lemma holders_owners (accounts : list Raw.account) (p : Raw.position) :
  holders accounts p = owners accounts p.
Proof. apply filter_ext. intros a. apply holds_owns. Qed.

Lemma holdings_owning_pairs (positions : list Raw.position)
    (accounts : list Raw.account) :
  holdings positions accounts = owning_pairs positions accounts.
Proof.
  unfold holdings, owning_pairs. rewrite !flat_map_concat_map. f_equal.
  apply map_ext. intros a. f_equal. apply filter_ext. intros p.
  apply holds_owns.
Qed.

Lemma count_holders (positions : list Raw.position)
    (accounts : list Raw.account) :
  length (holdings positions accounts)
  = list_sum (map (fun p => length (holders accounts p)) positions).
Proof.
  unfold holdings, holders.
  induction accounts as [|a accounts IH].
  - cbn. induction positions as [|p positions IHp]; [reflexivity | exact IHp].
  - cbn [flat_map]. rewrite length_app, length_map, IH. clear IH.
    rewrite (map_ext
               (fun p => length (List.filter (fun account => holds account p)
                                   (a :: accounts)))
               (fun p => (if holds a p then 1 else 0)
                         + length (List.filter
                                     (fun account => holds account p)
                                     accounts)))
      by (intros p; cbn [List.filter]; now destruct (holds a p)).
    induction positions as [|p positions IHp]; [reflexivity|].
    cbn [List.filter map].
    change (list_sum (?x :: ?l)) with (x + list_sum l).
    destruct (holds a p); cbn [length]; lia.
Qed.

(** C10, as amended.  In the by-account view, for positions that name no
    account twice, the entries are, account by account in the order supplied,
    one entry for each position that names the account, labelled
    "description (number)" of that account and carrying the position's market
    value and book value.  A position that [k] of the supplied accounts own
    has exactly [k] entries (for each time it stands in the position list),
    one for each of these accounts and labelled with it; the view has as many
    entries as the positions have owners among the supplied accounts,
    together; and the market value and book value of each entry enter the
    grand total, those of a position with [k] owners [k] times. *)
Theorem position_yields_one_entry_per_owning_account
    (ws : WealthsimpleAPI) (positions : list Raw.position)
    (accounts : list Raw.account) (currency : string)
    (st : state (string * string)) :
  Forall (fun p => NoDup (named_accounts p)) positions ->
  let result :=
    fst (Assets._get_positions_by_account_grouped ws positions accounts
           currency st) in
  let pairs := holdings positions accounts in
  let entries p := List.filter (fun pair => bool_decide (snd pair = p)) pairs in
  let times p :=
    length (List.filter (fun q => bool_decide (q = p)) positions) in
  map summary result = map expected_entry pairs
  /\ length result
     = list_sum (map (fun p => length (holders accounts p)) positions)
  /\ (forall p, length (entries p) = times p * length (holders accounts p))
  /\ (forall p, NoDup positions -> In p positions ->
        entries p = map (fun a => (a, p)) (holders accounts p)
        /\ length (entries p) = length (holders accounts p)
        /\ map expected_entry (entries p)
           = map (fun a => (Some (account_title a),
                            raw_market_value p, raw_book_value p))
               (holders accounts p))
  /\ fst (fst (Assets._calculate_position_totals result))
     = sum (map (fun pair => raw_market_value (snd pair)) pairs)
  /\ snd (fst (fst (Formatters._calculate_position_totals result)))
     = sum (map (fun pair => raw_book_value (snd pair)) pairs).
Proof.
  intros Hids result pairs entries times.
  assert (Forall (fun p => NoDup (Assets._get_position_account_ids p))
            positions) as Hids'.
  { eapply Forall_impl; [exact Hids|]. cbn. intros p.
    now rewrite named_accounts_ids. }
  pose proof (grouped_summary ws positions accounts currency st Hids') as Hs.
  rewrite <- holdings_owning_pairs in Hs.
  change (map summary_of (holdings positions accounts))
    with (map expected_entry (holdings positions accounts)) in Hs.
  assert (forall p,
            List.filter (fun pair : Raw.account * Raw.position =>
                           bool_decide (snd pair = p))
              (owning_pairs positions accounts) = entries p) as Hentries
    by (intros p; unfold entries, pairs; now rewrite holdings_owning_pairs).
  fold result pairs in Hs.
  assert (Hm : map PositionData.market_value result
               = map (fun pair => raw_market_value (snd pair)) pairs).
  { apply (f_equal (map (fun s => snd (fst s)))) in Hs.
    rewrite !map_map in Hs. exact Hs. }
  assert (Hb : map PositionData.book_value result
               = map (fun pair => raw_book_value (snd pair)) pairs).
  { apply (f_equal (map snd)) in Hs. rewrite !map_map in Hs. exact Hs. }
  split; [exact Hs|]. split; [|split; [|split; [|split]]].
  - rewrite <- (length_map summary), Hs, length_map. apply count_holders.
  - intros p. rewrite <- Hentries, entries_of_position, holders_owners.
    fold (times p). induction (owners accounts p) as [|a l IH]; cbn; [lia|].
    rewrite length_app, repeat_length, IH. lia.
  - intros p Hnd Hin.
    pose proof (pairs_of_position positions accounts p Hnd Hin) as Hp.
    rewrite Hentries, <- holders_owners in Hp.
    split; [exact Hp|]. split.
    + rewrite Hp. now rewrite length_map.
    + rewrite Hp, map_map. reflexivity.
  - unfold Assets._calculate_position_totals. cbn [fst]. now rewrite Hm.
  - unfold Formatters._calculate_position_totals. cbn [fst snd]. now rewrite Hb.
Qed.

Lemma position_yields_one_entry_per_owning_account_witness :
  let positions :=
    [ Sample.shared;
      Sample.holding "sec-s-2b" ["acc-2"] (dec 315000 2) (dec 300000 2) ] in
  let accounts := [Sample.tfsa; Sample.rrsp] in
  let result :=
    fst (Assets._get_positions_by_account_grouped (Sample.client positions)
           positions accounts "CAD" init) in
  let pairs := holdings positions accounts in
  let entries p := List.filter (fun pair => bool_decide (snd pair = p)) pairs in
  let times p :=
    length (List.filter (fun q => bool_decide (q = p)) positions) in
  map summary result = map expected_entry pairs
  /\ length result
     = list_sum (map (fun p => length (holders accounts p)) positions)
  /\ (forall p, length (entries p) = times p * length (holders accounts p))
  /\ (forall p, NoDup positions -> In p positions ->
        entries p = map (fun a => (a, p)) (holders accounts p)
        /\ length (entries p) = length (holders accounts p)
        /\ map expected_entry (entries p)
           = map (fun a => (Some (account_title a),
                            raw_market_value p, raw_book_value p))
               (holders accounts p))
  /\ fst (fst (Assets._calculate_position_totals result))
     = sum (map (fun pair => raw_market_value (snd pair)) pairs)
  /\ snd (fst (fst (Formatters._calculate_position_totals result)))
     = sum (map (fun pair => raw_book_value (snd pair)) pairs).
Proof.
  intros positions accounts.
  apply (position_yields_one_entry_per_owning_account
           (Sample.client positions) positions accounts "CAD" init).
  refine (bool_decide_unpack _ _). vm_compute. exact I.
Defined.

(** C10, as the claim states it, fails: a raw position that names the
    account acc-1 twice has one owner among the supplied accounts, the TFSA,
    and two entries in the by-account view, both labelled with the TFSA, so
    its market value enters the grand total twice. *)
Lemma position_naming_an_account_twice_has_two_entries :
  let position :=
    Sample.holding "sec-s-1a" ["acc-1"; "acc-1"] (dec 252500 2)
      (dec 240000 2) in
  let accounts := [Sample.tfsa; Sample.rrsp] in
  let result :=
    Assets.get_assets_data (Sample.client [position]) None true "CAD" None in
  get_accounts (Sample.client [position]) = accounts
  /\ holders accounts position = [Sample.tfsa]
  /\ map summary result
     = [ (Some "TFSA (001)", dec 252500 2, dec 240000 2);
         (Some "TFSA (001)", dec 252500 2, dec 240000 2) ]
  /\ length result = 2
  /\ fst (fst (Assets._calculate_position_totals result)) = dec 505000 2.
Proof. vm_compute. repeat split. Qed.

(** The shared holding of the sample has two entries, one per account, and
    enters the grand total twice. *)
Example shared_holding_counted_twice :
  let positions := [Sample.shared] in
  let result :=
    Assets.get_assets_data (Sample.client positions) None true "CAD" None in
  map summary result
  = [ (Some "TFSA (001)", dec 252500 2, dec 240000 2);
      (Some "RRSP (002)", dec 252500 2, dec 240000 2) ]
  /\ length (owners [Sample.tfsa; Sample.rrsp] Sample.shared) = 2
  /\ fst (fst (Assets._calculate_position_totals result)) = dec 505000 2.
Proof. vm_compute. repeat split. Qed.

End ByAccount.

(** *** The grouped reports are labelled *)

Section Labelled.

Context (lib : Library).

Lemma mapM_Forall {V B C} (P : C -> Prop) (f : B -> M V C) (xs : list B)
    (st : state V) :
  (forall x st0, P (fst (f x st0))) -> Forall P (fst (mapM f xs st)).
Proof.
  intros Hf. revert st. induction xs as [|x xs IH]; intros st; [constructor|].
  cbn [mapM]. unfold bind at 1. specialize (Hf x st).
  destruct (f x st) as [y st1]. unfold bind at 1. specialize (IH st1).
  destruct (mapM f xs st1) as [ys st2]. cbn [fst ret] in *.
  now constructor.
Qed.

Lemma Forall_concat_intro {B} (P : B -> Prop) (xss : list (list B)) :
  Forall (Forall P) xss -> Forall P (concat xss).
Proof.
  induction 1 as [|xs xss Hxs _ IH]; [constructor|].
  cbn [concat]. apply Forall_app. now split.
Qed.

Lemma Forall_filter_keep {B} (P : B -> Prop) (f : B -> bool) (xs : list B) :
  Forall P xs -> Forall P (List.filter f xs).
Proof.
  induction 1 as [|x xs Hx _ IH]; [constructor|].
  cbn [List.filter]. destruct (f x); [now constructor | exact IH].
Qed.

Lemma by_account_positions_labelled (ws : WealthsimpleAPI)
    (positions : list Raw.position) (accounts : list Raw.account)
    (currency : string) (st : state (string * string)) :
  Forall (fun p => is_Some (PositionData.account_label p))
    (fst (Assets._get_positions_by_account_grouped ws positions accounts
            currency st)).
Proof.
  unfold Assets._get_positions_by_account_grouped. unfold bind at 1.
  match goal with
  | |- context [mapM ?body accounts st] =>
      pose proof (mapM_Forall
                    (Forall (fun p => is_Some (PositionData.account_label p)))
                    body accounts st) as H;
      destruct (mapM body accounts st) as [groups st1]
  end.
  cbn [fst ret] in *. apply Forall_concat_intro, H. clear.
  intros account st0.
  destruct (default [] _) as [|q qs]; [constructor|].
  apply mapM_Forall. intros pos st1. unfold bind.
  destruct (Assets._get_position_data ws pos currency st1) as [pd st2].
  cbn. eauto.
Qed.

Lemma by_account_report_labelled (ws : WealthsimpleAPI)
    (account_id : option string) (currency : string)
    (pnl_filter : option string) :
  Forall (fun p => is_Some (PositionData.account_label p))
    (Assets.get_assets_data ws account_id true currency pnl_filter).
Proof.
  unfold Assets.get_assets_data, Assets.get_assets_data_run.
  destruct (get_identity_positions ws currency) as [|p ps]; [constructor|].
  destruct (if truthy _ then _ else _) as [|q qs]; [constructor|].
  cbn [negb].
  destruct (Assets._get_accounts_for_assets ws account_id) as [|a accounts];
    [constructor|].
  pose proof (by_account_positions_labelled ws (q :: qs) (a :: accounts)
                currency init) as H.
  destruct (Assets._get_positions_by_account_grouped _ _ _ _ _) as [data st].
  cbn [fst] in *.
  repeat match goal with
         | |- context [bool_decide ?P] => destruct (bool_decide P)
         end;
    try apply Forall_filter_keep; exact H.
Qed.

Lemma all_accounts_activities_labelled (ws : WealthsimpleAPI)
    (dividends_only : bool) (limit : Z) :
  Forall (fun a => is_Some (ActivityData.account_label a))
    (Activities.get_activities_data lib ws None dividends_only limit).
Proof.
  unfold Activities.get_activities_data. cbn [or_str truthy].
  destruct (get_accounts ws) as [|a accounts]; [constructor|].
  unfold bind.
  match goal with
  | |- context [mapM ?body (a :: accounts) init] =>
      pose proof (mapM_Forall
                    (Forall (fun a => is_Some (ActivityData.account_label a)))
                    body (a :: accounts) init) as H;
      destruct (mapM body (a :: accounts) init) as [groups st1]
  end.
  cbn [fst ret] in *. apply Forall_concat_intro, H. clear.
  intros account st0. unfold Activities._process_account_activities.
  apply mapM_Forall. intros act st1.
  destruct (transform_activity_fields lib ws act
              (Some (Activities.account_label_of account)) st1)
    as (_ & _ & ->).
  eauto.
Qed.

(** The two grouped reports, end to end: what the by-account positions
    report and the all-accounts activities report group is grouped by label
    in ascending order. *)
Lemma grouped_reports_ascend_by_label (ws : WealthsimpleAPI)
    (account_id : option string) (currency : string)
    (pnl_filter : option string) (dividends_only : bool) (limit : Z) :
  let positions_data :=
    Assets.get_assets_data ws account_id true currency pnl_filter in
  let activities_data :=
    Activities.get_activities_data lib ws None dividends_only limit in
  grouped_by_label PositionData.account_label positions_data
    (Driver.position_groups positions_data)
  /\ grouped_by_label ActivityData.account_label activities_data
       (Driver.activity_groups activities_data).
Proof.
  split.
  - apply grouped_by_label_sorted, by_account_report_labelled.
  - apply grouped_by_label_sorted, all_accounts_activities_labelled.
Qed.

End Labelled.

(** *** The figures of the test suite *)

Section Figures.

(** A book value of 2400.00 and a market value of 2525.00 give a P&L of
    125.00, that is 5.2083 %; a zero book value gives 0.0 %. *)
Example pnl_of_one_position :
  let view (market book : float) :=
    fst (Assets._get_position_data (Sample.client [])
           (Sample.holding "sec-s-1a" ["acc-1"] market book) "CAD" init) in
  PositionData.pnl (view (dec 252500 2) (dec 240000 2)) = dec 12500 2
  /\ format_f false 4 (PositionData.pnl_pct (view (dec 252500 2) (dec 240000 2)))
     = "5.2083"
  /\ PositionData.pnl_pct (view (dec 252500 2) fzero) = fzero.
Proof. vm_compute. repeat split. Qed.

(** Two positions, 2525.00 over 2400.00 and 3150.00 over 3000.00, total
    5675.00 with a P&L of 275.00, that is 5.0926 %; the table shows +5.1%. *)
Example totals_of_two_positions :
  let positions :=
    [ Sample.labelled "TFSA (001)" (dec 252500 2) (dec 240000 2);
      Sample.labelled "TFSA (001)" (dec 315000 2) (dec 300000 2) ] in
  let '(total_value, total_book, total_pnl, total_pnl_pct) :=
    Formatters._calculate_position_totals positions in
  total_value = dec 567500 2
  /\ total_pnl = dec 27500 2
  /\ format_f false 4 total_pnl_pct = "5.0926"
  /\ Formatters.TableFormatter._format_totals_row total_value total_pnl
       total_pnl_pct "Total" "CAD"
     = "Total                                                    5,675.00 CAD       +275.00    +5.1%".
Proof. vm_compute. repeat split. Qed.

End Figures.

(** *** The accounts report *)

Section AccountsReport.

Context (lib : Library).

Lemma entry_both_filters (sz : bool) (a : Raw.account) :
  Accounts.account_entry sz true true a = None.
Proof.
  unfold Accounts.account_entry, Accounts._should_include_account.
  now destruct (Accounts._is_non_liquid_account _).
Qed.

Lemma omap_none {A B} (f : A -> option B) (xs : list A) :
  (forall x, f x = None) -> omap f xs = [].
Proof.
  intros H. induction xs as [|x xs IH]; [reflexivity|].
  cbn [omap list_omap]. now rewrite H.
Qed.

(** X1.  With both [liquid_only] and [not_liquid] set, the report is empty
    whatever the accounts are, and the [list] command prints the sentence for
    an empty report in every output format and exits with code 0: the two
    options are not rejected as conflicting. *)
Theorem both_liquidity_filters_empty_the_report
    (ws : WealthsimpleAPI) (show_zero_balances verbose : bool)
    (output_format : Cli.OutputFormat) :
  Accounts.get_accounts_data ws show_zero_balances true true = []
  /\ Cli.list_accounts_cmd lib (Some ws) verbose show_zero_balances true true
       output_format
     = Cli.Outcome
         ((if verbose then [nl +:+ "Fetching accounts..."] else [])
          ++ ["No accounts found."])
         0.
Proof.
  assert (Accounts.get_accounts_data ws show_zero_balances true true = [])
    as Hempty.
  { rewrite get_accounts_data_omap. apply omap_none, entry_both_filters. }
  split; [exact Hempty|].
  unfold Cli.list_accounts_cmd, Driver.print_accounts. now rewrite Hempty.
Qed.

Lemma entry_show_zero (lo nl : bool) (a : Raw.account) :
  Accounts.account_entry false lo nl a
  = match Accounts.account_entry true lo nl a with
    | Some acc =>
        if fneb (AccountData.value acc) fzero then Some acc else None
    | None => None
    end.
Proof.
  unfold Accounts.account_entry. cbv zeta.
  destruct (negb (Accounts._should_include_account _ lo nl)); [reflexivity|].
  destruct (Accounts._extract_account_value a) as [value currency].
  cbn [negb]. rewrite andb_false_r, andb_true_r. unfold fneb, feqb.
  cbn [AccountData.value]. now destruct (SFeqb value fzero).
Qed.

(** X2.  The zero-balance option only removes entries: the report without
    zero balances is the report with them, filtered by [value != 0], so it
    holds no entry whose value equals zero; and with zero balances shown and
    no liquidity filter, which is how the [list] command runs by default, the
    report has one entry for every account of the client, in the client's
    order. *)
Theorem zero_balances_are_filtered_out
    (ws : WealthsimpleAPI) (liquid_only not_liquid : bool) :
  Accounts.get_accounts_data ws false liquid_only not_liquid
  = List.filter (fun acc => fneb (AccountData.value acc) fzero)
      (Accounts.get_accounts_data ws true liquid_only not_liquid)
  /\ Forall (fun acc => feqb (AccountData.value acc) fzero = false)
       (Accounts.get_accounts_data ws false liquid_only not_liquid)
  /\ Accounts.get_accounts_data ws true false false
     = map (fun a =>
              AccountData.mk (description_of a)
                (default "N/A" (Raw.acc_number a))
                (fst (Accounts._extract_account_value a))
                (snd (Accounts._extract_account_value a)))
         (get_accounts ws).
Proof.
  assert (Accounts.get_accounts_data ws false liquid_only not_liquid
          = List.filter (fun acc => fneb (AccountData.value acc) fzero)
              (Accounts.get_accounts_data ws true liquid_only not_liquid))
    as Hfilter.
  { rewrite !get_accounts_data_omap.
    induction (get_accounts ws) as [|a accounts IH]; [reflexivity|].
    cbn [omap list_omap]. rewrite entry_show_zero.
    destruct (Accounts.account_entry true liquid_only not_liquid a) as [acc|];
      [|exact IH].
    cbn [List.filter]. destruct (fneb (AccountData.value acc) fzero);
      now rewrite IH. }
  split; [exact Hfilter|]. split.
  - rewrite Hfilter. apply List.Forall_forall. intros acc Hin.
    apply filter_In in Hin as [_ Hne]. unfold fneb in Hne. unfold feqb.
    now destruct (SFeqb (AccountData.value acc) fzero).
  - rewrite get_accounts_data_omap.
    induction (get_accounts ws) as [|a accounts IH]; [reflexivity|].
    cbn [omap list_omap map]. rewrite IH.
    unfold Accounts.account_entry at 1. unfold description_of.
    destruct (Accounts._is_non_liquid_account _);
      cbn; destruct (Accounts._extract_account_value a);
      cbn; now rewrite andb_false_r.
Qed.

End AccountsReport.

(** *** The dividend test, dates and column widths *)

Section ActivityFields.

Context (lib : Library).

Lemma append_assoc_str (a b c : string) : (a +:+ b) +:+ c = a +:+ (b +:+ c).
Proof.
  induction a as [|x a IH]; [reflexivity|].
  change (String x ((a +:+ b) +:+ c) = String x (a +:+ (b +:+ c))).
  now rewrite IH.
Qed.

Lemma length_append_str (a b : string) :
  String.length (a +:+ b) = String.length a + String.length b.
Proof.
  induction a as [|x a IH]; [reflexivity|].
  change (S (String.length (a +:+ b)) = S (String.length a + String.length b)).
  now rewrite IH.
Qed.

Lemma occurs_in_inner (pre sub post s : string) :
  occurs_in (pre +:+ sub +:+ post) s -> occurs_in sub s.
Proof.
  intros (b & a & ->). exists (b +:+ pre), (post +:+ a).
  now rewrite !append_assoc_str.
Qed.

Lemma upper_char_idempotent (c : ascii) :
  Activities.upper_char (Activities.upper_char c) = Activities.upper_char c.
Proof. destruct c as [[] [] [] [] [] [] [] []]; reflexivity. Qed.

Lemma upper_idempotent (s : string) :
  Activities.upper (Activities.upper s) = Activities.upper s.
Proof.
  induction s as [|c s IH]; [reflexivity|].
  cbn [Activities.upper]. now rewrite upper_char_idempotent, IH.
Qed.

(** X3.  An activity is a dividend exactly when DIVIDEND or DISTRIBUTION
    occurs in its type or in its description, letter case ignored: the third
    word of [DIVIDEND_TYPES], DIY_DIVIDEND, adds nothing, and upper-casing the
    two fields beforehand does not change the verdict.  An activity with
    neither field is no dividend. *)
Theorem dividend_test_reads_two_words (activity : Raw.activity) :
  let act_type := Activities.upper (default "" (Raw.act_type activity)) in
  let description :=
    Activities.upper (default "" (Raw.act_description activity)) in
  (Activities.is_dividend_activity activity = true
   <-> occurs_in "DIVIDEND" act_type \/ occurs_in "DISTRIBUTION" act_type
       \/ occurs_in "DIVIDEND" description
       \/ occurs_in "DISTRIBUTION" description)
  /\ Activities.is_dividend_activity
       (Raw.Activity (Some act_type) (Some description)
          (Raw.act_occurredAt activity) (Raw.act_amount activity)
          (Raw.act_amountSign activity) (Raw.act_currency activity)
          (Raw.act_security activity))
     = Activities.is_dividend_activity activity
  /\ Activities.is_dividend_activity
       (Raw.Activity None None (Raw.act_occurredAt activity)
          (Raw.act_amount activity) (Raw.act_amountSign activity)
          (Raw.act_currency activity) (Raw.act_security activity))
     = false.
Proof.
  intros act_type description. split; [|split].
  - unfold Activities.is_dividend_activity, any, Activities.DIVIDEND_TYPES.
    fold act_type description. cbn [existsb].
    rewrite !orb_true_iff, !contains_occurs.
    assert (forall s, occurs_in "DIY_DIVIDEND" s -> occurs_in "DIVIDEND" s)
      as Hinner by (intros s; apply (occurs_in_inner "DIY_" "DIVIDEND" "")).
    split.
    + intros [[H | H] | [[H | H] | [[H | H] | H]]];
        try discriminate; try apply Hinner in H; tauto.
    + tauto.
  - unfold Activities.is_dividend_activity. cbn [Raw.act_type
      Raw.act_description default from_option id].
    subst act_type description. now rewrite !upper_idempotent.
  - reflexivity.
Qed.

Lemma slice_to_length (n : nat) (s : string) :
  String.length (slice_to n s) = Nat.min n (String.length s).
Proof.
  revert s. induction n as [|n IH]; intros [|c s]; cbn; try reflexivity.
  now rewrite IH.
Qed.

Lemma slice_to_prefix (n : nat) (s : string) :
  String.prefix (slice_to n s) s = true.
Proof.
  revert s. induction n as [|n IH]; intros [|c s]; cbn; try reflexivity.
  destruct (ascii_dec c c); [apply IH | congruence].
Qed.

Lemma slice_to_all (n : nat) (s : string) :
  String.length s <= n -> slice_to n s = s.
Proof.
  revert s. induction n as [|n IH]; intros [|c s]; cbn; try reflexivity;
    try lia.
  intros H. rewrite IH; [reflexivity | lia].
Qed.

(** X4.  A date that the ISO parser refuses is not lost: it is shown as its
    first ten characters, and as N/A when it has fewer than ten. *)
Theorem unparsed_date_is_cut_to_ten (iso_date : string) :
  fromisoformat_ymd lib (Activities.replace_Z iso_date) = None ->
  let shown := Activities._format_date lib iso_date in
  shown = (if (String.length iso_date <? 10)%nat then "N/A"
           else slice_to 10 iso_date)
  /\ (10 <= String.length iso_date ->
      String.length shown = 10 /\ String.prefix shown iso_date = true)
  /\ (String.length shown = 3 \/ String.length shown = 10).
Proof.
  intros Hparse shown. subst shown. unfold Activities._format_date.
  rewrite Hparse.
  destruct (Nat.leb_spec 10 (String.length iso_date)) as [Hlen | Hlen].
  - destruct (Nat.ltb_spec (String.length iso_date) 10); [lia|].
    split; [reflexivity|]. rewrite slice_to_length, slice_to_prefix.
    split; [intros _; split; [lia | reflexivity] | right; lia].
  - destruct (Nat.ltb_spec (String.length iso_date) 10); [|lia].
    split; [reflexivity|]. split; [lia | now left].
Qed.

Lemma ljust_length (n : nat) (s : string) :
  String.length s <= n -> String.length (ljust n s) = n.
Proof.
  intros H. unfold ljust. rewrite length_append_str.
  assert (forall c k, String.length (repeat_char c k) = k) as Hrep.
  { intros c k. induction k as [|k IH]; cbn; [reflexivity | now rewrite IH]. }
  rewrite Hrep. lia.
Qed.

Lemma transform_activity_cut (ws : WealthsimpleAPI) (activity : Raw.activity)
    (account_label : option string) (st : state string) :
  let view :=
    fst (Activities._transform_activity lib ws activity account_label st) in
  ActivityData.activity_type view
  = slice_to 14 (default "N/A" (Raw.act_type activity))
  /\ ActivityData.description view
     = slice_to 34 (fst (Activities._enhance_description lib ws activity st))
  /\ ActivityData.date view
     = Activities._format_date lib (default "" (Raw.act_occurredAt activity)).
Proof.
  cbv zeta. unfold Activities._transform_activity, bind, ret.
  destruct (Activities._enhance_description lib ws activity st).
  cbn. auto.
Qed.

(** X5.  The text fields of a view fit the columns of the tables: the type
    of an activity has at most 14 characters and its description at most 34,
    the name of a position at most 30; each is the beginning of the text it
    was cut from, and a type that fits is not changed.  So in every row of
    the activities table whose date has at most 12 characters, the sign and
    the amount start after exactly 63 characters. *)
Theorem text_fields_fit_their_columns
    (ws : WealthsimpleAPI) (activity : Raw.activity)
    (account_label : option string) (st : state string)
    (position : Raw.position) (currency : string)
    (st' : state (string * string)) :
  let view :=
    fst (Activities._transform_activity lib ws activity account_label st) in
  let pos := fst (Assets._get_position_data ws position currency st') in
  let raw_type := default "N/A" (Raw.act_type activity) in
  String.length (ActivityData.activity_type view) <= 14
  /\ String.prefix (ActivityData.activity_type view) raw_type = true
  /\ (String.length raw_type <= 14 -> ActivityData.activity_type view = raw_type)
  /\ String.length (ActivityData.description view) <= 34
  /\ String.length (PositionData.name pos) <= 30
  /\ exists columns : string,
       Formatters.TableFormatter.activity_row view
       = columns +:+ ActivityData.sign view
         +:+ rjust 14 (format_f true 2 (ActivityData.amount view)) +:+ " "
         +:+ ActivityData.currency view
       /\ (String.length (ActivityData.date view) <= 12 ->
           String.length columns = 63).
Proof.
  intros view pos raw_type.
  destruct (transform_activity_cut ws activity account_label st)
    as (Htype & Hdesc & _).
  fold view in Htype, Hdesc. fold raw_type in Htype.
  assert (String.length (ActivityData.activity_type view) <= 14) as H14
    by (rewrite Htype, slice_to_length; lia).
  assert (String.length (ActivityData.description view) <= 34) as H34
    by (rewrite Hdesc, slice_to_length; lia).
  repeat split.
  - exact H14.
  - rewrite Htype. apply slice_to_prefix.
  - intros H. rewrite Htype. now apply slice_to_all.
  - exact H34.
  - subst pos. unfold Assets._get_position_data, bind, ret.
    destruct (Assets._get_security_info ws _ st') as [info st1].
    cbn [fst PositionData.name]. rewrite slice_to_length. lia.
  - exists (ljust 12 (ActivityData.date view) +:+ " "
            +:+ ljust 14 (ActivityData.activity_type view) +:+ " "
            +:+ ljust 34 (ActivityData.description view) +:+ " ").
    split.
    + unfold Formatters.TableFormatter.activity_row.
      now rewrite !append_assoc_str.
    + intros H12. rewrite !length_append_str, !ljust_length by assumption.
      reflexivity.
Qed.

End ActivityFields.

(** *** The activities report *)

Section ActivitiesReport.

Context (lib : Library).

Lemma mapM_map {V B C D} (f : B -> M V C) (g : C -> D) (h : B -> D)
    (xs : list B) (st : state V) :
  (forall x st0, g (fst (f x st0)) = h x) ->
  map g (fst (mapM f xs st)) = map h xs.
Proof.
  intros Hf. revert st. induction xs as [|x xs IH]; intros st; [reflexivity|].
  cbn [mapM]. unfold bind at 1. specialize (Hf x st).
  destruct (f x st) as [y st1]. unfold bind at 1. specialize (IH st1).
  destruct (mapM f xs st1) as [ys st2]. cbn [fst ret map] in *.
  now rewrite Hf, IH.
Qed.

Lemma slice_list_length {B} (limit : Z) (xs : list B) :
  length (Activities.slice_list limit xs)
  = if (0 <=? limit)%Z then Nat.min (Z.to_nat limit) (length xs)
    else length xs - Z.to_nat (- limit).
Proof.
  unfold Activities.slice_list.
  destruct (0 <=? limit)%Z; rewrite length_firstn; lia.
Qed.

Lemma dividends_filter (dividends_only : bool) (activities : list Raw.activity) :
  (if dividends_only
   then List.filter Activities.is_dividend_activity activities
   else activities)
  = List.filter
      (fun a => negb dividends_only || Activities.is_dividend_activity a)
      activities.
Proof.
  destruct dividends_only; cbn [negb orb]; [reflexivity|].
  induction activities as [|a activities IH]; [reflexivity|].
  cbn [List.filter]. now rewrite <- IH.
Qed.

Lemma transform_without_description (ws : WealthsimpleAPI)
    (activity : Raw.activity) (label : option string) (st : state string) :
  without_description
    (fst (Activities._transform_activity lib ws activity label st))
  = without_description (activity_alone lib ws label activity).
Proof.
  unfold activity_alone, Activities._transform_activity, bind, ret.
  destruct (Activities._enhance_description lib ws activity st).
  destruct (Activities._enhance_description lib ws activity init).
  reflexivity.
Qed.

Lemma process_without_description (ws : WealthsimpleAPI)
    (account_id label : option string) (dividends_only : bool) (limit : Z)
    (st : state string) :
  map without_description
    (fst (Activities._process_account_activities lib ws account_id label
            dividends_only limit st))
  = map (fun act => without_description (activity_alone lib ws label act))
      (reported_activities ws account_id dividends_only limit).
Proof.
  unfold Activities._process_account_activities, reported_activities.
  cbv zeta. rewrite dividends_filter. apply mapM_map.
  intros act st0. apply transform_without_description.
Qed.

Lemma report_without_description (ws : WealthsimpleAPI)
    (account_id : option string) (dividends_only : bool) (limit : Z) :
  map without_description
    (Activities.get_activities_data lib ws account_id dividends_only limit)
  = if truthy (or_str account_id "") then
      map (fun act => without_description (activity_alone lib ws None act))
        (reported_activities ws account_id dividends_only limit)
    else
      flat_map
        (fun account =>
           map (fun act =>
                  without_description
                    (activity_alone lib ws
                       (Some (Activities.account_label_of account)) act))
             (reported_activities ws (Raw.acc_id account) dividends_only
                limit))
        (get_accounts ws).
Proof.
  unfold Activities.get_activities_data.
  destruct (truthy (or_str account_id "")).
  - apply process_without_description.
  - destruct (get_accounts ws) as [|a accounts] eqn:E; [reflexivity|].
    rewrite <- E. clear E a accounts. unfold bind.
    match goal with
    | |- context [mapM ?body (get_accounts ws) init] =>
        pose proof (mapM_map body (map without_description)
                      (fun account =>
                         map (fun act =>
                                without_description
                                  (activity_alone lib ws
                                     (Some (Activities.account_label_of account))
                                     act))
                           (reported_activities ws (Raw.acc_id account)
                              dividends_only limit))
                      (get_accounts ws) init) as H;
        destruct (mapM body (get_accounts ws) init) as [groups st1]
    end.
    cbn [fst ret] in *. rewrite concat_map, H, flat_map_concat_map.
    + reflexivity.
    + intros account st0. apply process_without_description.
Qed.

Lemma reported_length (ws : WealthsimpleAPI) (account_id : option string)
    (dividends_only : bool) (limit : Z) :
  length (reported_activities ws account_id dividends_only limit)
  = let candidates :=
      length
        (List.filter
           (fun a => negb dividends_only || Activities.is_dividend_activity a)
           (get_activities ws account_id)) in
    if (0 <=? limit)%Z then Nat.min (Z.to_nat limit) candidates
    else candidates - Z.to_nat (- limit).
Proof. unfold reported_activities. apply slice_list_length. Qed.

(** X6.  The activities report is made account by account.  For one
    account it is the transform of that account's reported activities (the
    dividends when asked for, then the slice up to the limit), every entry
    without a label; for all accounts it is, for each account in the client's
    order, the transform of its reported activities under the label
    "description (number)".  Apart from the description, which is made with
    the shared security cache, every entry is the one its activity gives when
    transformed on its own. *)
Theorem activities_report_is_made_per_account
    (ws : WealthsimpleAPI) (account_id : option string)
    (dividends_only : bool) (limit : Z) :
  let report :=
    Activities.get_activities_data lib ws account_id dividends_only limit in
  map without_description report
  = (if truthy (or_str account_id "") then
       map (fun act => without_description (activity_alone lib ws None act))
         (reported_activities ws account_id dividends_only limit)
     else
       flat_map
         (fun account =>
            map (fun act =>
                   without_description
                     (activity_alone lib ws
                        (Some (Activities.account_label_of account)) act))
              (reported_activities ws (Raw.acc_id account) dividends_only
                 limit))
         (get_accounts ws))
  /\ map ActivityData.account_label report
     = (if truthy (or_str account_id "") then
          map (fun _ => None)
            (reported_activities ws account_id dividends_only limit)
        else
          flat_map
            (fun account =>
               map (fun _ => Some (Activities.account_label_of account))
                 (reported_activities ws (Raw.acc_id account) dividends_only
                    limit))
            (get_accounts ws)).
Proof.
  intros report.
  pose proof (report_without_description ws account_id dividends_only limit)
    as H.
  fold report in H. split; [exact H|].
  assert (map ActivityData.account_label report
          = map ActivityData.account_label (map without_description report))
    as -> by (rewrite map_map; reflexivity).
  rewrite H. destruct (truthy (or_str account_id "")).
  - rewrite map_map. apply map_ext. intros act. unfold activity_alone, without_description.
    cbn [ActivityData.account_label].
    now destruct (transform_activity_fields lib ws act None init)
      as (_ & _ & ->).
  - rewrite !flat_map_concat_map, concat_map, map_map. f_equal.
    apply map_ext. intros account. rewrite map_map. apply map_ext.
    intros act. unfold activity_alone, without_description.
    cbn [ActivityData.account_label].
    now destruct (transform_activity_fields lib ws act
                    (Some (Activities.account_label_of account)) init)
      as (_ & _ & ->).
Qed.

Lemma report_length (ws : WealthsimpleAPI) (account_id : option string)
    (dividends_only : bool) (limit : Z) :
  length
    (Activities.get_activities_data lib ws account_id dividends_only limit)
  = if truthy (or_str account_id "") then
      length (reported_activities ws account_id dividends_only limit)
    else
      list_sum
        (map (fun account =>
                length
                  (reported_activities ws (Raw.acc_id account) dividends_only
                     limit))
           (get_accounts ws)).
Proof.
  rewrite <- (length_map without_description), report_without_description.
  destruct (truthy (or_str account_id "")); [apply length_map|].
  rewrite length_flat_map. f_equal. apply map_ext. intros account.
  apply length_map.
Qed.

(** X7.  A limit that is not negative bounds each account, not the report:
    for one account the report has [min limit n] entries, [n] being the number
    of that account's activities (of its dividends when only dividends are
    asked for); for all accounts it has at most [limit] entries for each
    account of the client. *)
Theorem limit_bounds_each_account
    (ws : WealthsimpleAPI) (account_id : option string)
    (dividends_only : bool) (limit : Z) :
  (0 <= limit)%Z ->
  let report :=
    Activities.get_activities_data lib ws account_id dividends_only limit in
  let candidates id :=
    List.filter
      (fun a => negb dividends_only || Activities.is_dividend_activity a)
      (get_activities ws id) in
  (if truthy (or_str account_id "") then
     length report = Nat.min (Z.to_nat limit) (length (candidates account_id))
   else
     length report
     = list_sum
         (map (fun account =>
                 Nat.min (Z.to_nat limit)
                   (length (candidates (Raw.acc_id account))))
            (get_accounts ws))
     /\ length report <= Z.to_nat limit * length (get_accounts ws)).
Proof.
  intros Hlimit report candidates. subst report. rewrite report_length.
  assert (forall id,
            length (reported_activities ws id dividends_only limit)
            = Nat.min (Z.to_nat limit) (length (candidates id))) as Hcount.
  { intros id. rewrite reported_length. cbv zeta.
    destruct (Z.leb_spec 0 limit); [reflexivity | lia]. }
  destruct (truthy (or_str account_id "")); [apply Hcount|].
  assert (map (fun account =>
                 length (reported_activities ws (Raw.acc_id account)
                           dividends_only limit)) (get_accounts ws)
          = map (fun account =>
                   Nat.min (Z.to_nat limit)
                     (length (candidates (Raw.acc_id account))))
              (get_accounts ws)) as ->
    by (apply map_ext; intros account; apply Hcount).
  split; [reflexivity|].
  unfold list_sum.
  induction (get_accounts ws) as [|a accounts IH]; cbn [map fold_right length];
    nia.
Qed.

(** X8.  A negative limit is not refused: it is the Python slice
    [[:limit]], which drops the last [-limit] activities of the account and
    keeps the others, however many they are. *)
Theorem negative_limit_drops_the_last
    (ws : WealthsimpleAPI) (account_id : option string)
    (dividends_only : bool) (limit : Z) :
  (limit < 0)%Z ->
  truthy (or_str account_id "") = true ->
  let candidates :=
    List.filter
      (fun a => negb dividends_only || Activities.is_dividend_activity a)
      (get_activities ws account_id) in
  length
    (Activities.get_activities_data lib ws account_id dividends_only limit)
  = length candidates - Z.to_nat (- limit)
  /\ map without_description
       (Activities.get_activities_data lib ws account_id dividends_only limit)
     = map (fun act => without_description (activity_alone lib ws None act))
         (firstn (length candidates - Z.to_nat (- limit)) candidates).
Proof.
  intros Hlimit Haccount candidates. split.
  - rewrite report_length, Haccount, reported_length. cbv zeta.
    destruct (Z.leb_spec 0 limit); [lia | reflexivity].
  - rewrite report_without_description, Haccount.
    unfold reported_activities, Activities.slice_list.
    destruct (Z.leb_spec 0 limit); [lia | reflexivity].
Qed.

End ActivitiesReport.

(** *** The commands *)

Section Commands.

Context (lib : Library).

Lemma find_number (number : string) (accounts : list Raw.account) :
  match List.find
          (fun account => bool_decide (Raw.acc_number account = Some number))
          accounts with
  | Some a => In a accounts /\ Raw.acc_number a = Some number
  | None => Forall (fun b => Raw.acc_number b <> Some number) accounts
  end.
Proof.
  induction accounts as [|b accounts IH]; [constructor|].
  cbn [List.find]. destruct (decide (Raw.acc_number b = Some number)) as [E|E].
  - rewrite bool_decide_eq_true_2 by exact E. split; [now left | exact E].
  - rewrite bool_decide_eq_false_2 by exact E.
    destruct (List.find _ accounts) as [a|].
    + destruct IH as [Hin Ha]. split; [now right | exact Ha].
    + now constructor.
Qed.

Lemma NoDup_map_same {B C} (f : B -> C) (xs : list B) (x y : B) :
  NoDup (map f xs) -> In x xs -> In y xs -> f x = f y -> x = y.
Proof.
  induction xs as [|z xs IH]; [intros _ []|].
  cbn [map]. intros Hnd Hx Hy Hf.
  inversion Hnd as [|? ? Hz Hnd']; subst.
  destruct Hx as [-> | Hx], Hy as [-> | Hy]; auto.
  - exfalso. apply Hz, list_elem_of_In. rewrite Hf. now apply in_map.
  - exfalso. apply Hz, list_elem_of_In. rewrite <- Hf. now apply in_map.
Qed.

Lemma truthy_or_str (s : string) : truthy (or_str (Some s) "") = truthy s.
Proof. now destruct s. Qed.

(** X9.  When the accounts of the client have distinct numbers, an account
    number selects its account: the lookup returns the identifier of the
    account that bears the number, and the [--account] option of the commands
    resolves to it.  An account whose identifier is missing or empty is
    reported as not found although its number matches, and an empty number
    selects all accounts. *)
Theorem account_number_selects_its_account
    (ws : WealthsimpleAPI) (a : Raw.account) (number : string) :
  NoDup (map Raw.acc_number (get_accounts ws)) ->
  In a (get_accounts ws) ->
  Raw.acc_number a = Some number ->
  Activities.get_account_id_by_number ws number = Raw.acc_id a
  /\ Cli.lookup_account ws (Some number)
     = (if negb (truthy number) then inl None
        else if truthy (or_str (Raw.acc_id a) "") then inl (Raw.acc_id a)
        else inr ("Account '" +:+ number +:+ "' not found.")).
Proof.
  intros Hnd Hin Hnumber.
  assert (Activities.get_account_id_by_number ws number = Raw.acc_id a)
    as Hid.
  { unfold Activities.get_account_id_by_number.
    pose proof (find_number number (get_accounts ws)) as Hfind.
    destruct (List.find _ (get_accounts ws)) as [b|].
    - destruct Hfind as [Hb Hbn]. f_equal.
      apply (NoDup_map_same Raw.acc_number (get_accounts ws)); auto.
      congruence.
    - exfalso. rewrite List.Forall_forall in Hfind. now apply (Hfind a). }
  split; [exact Hid|]. unfold Cli.lookup_account.
  rewrite truthy_or_str. destruct (truthy number) eqn:Hn; [|reflexivity].
  cbn [negb]. assert (or_str (Some number) "" = number) as ->
    by (now destruct number).
  rewrite Hid. now destruct (truthy (or_str (Raw.acc_id a) "")).
Qed.

(** X10.  An account number that no account bears stops the [activities]
    and [assets] commands before anything is fetched or reported: the only
    line printed says that the account was not found, and the exit code
    is 1. *)
Theorem unknown_account_number_stops_the_command
    (ws : WealthsimpleAPI) (number : string) (verbose dividends_only : bool)
    (limit : Z) (by_account profits losses : bool)
    (output_format : Cli.OutputFormat) :
  truthy number = true ->
  Forall (fun b => Raw.acc_number b <> Some number) (get_accounts ws) ->
  Activities.get_account_id_by_number ws number = None
  /\ Cli.activities lib (Some ws) verbose (Some number) dividends_only limit
       output_format
     = Cli.Outcome ["Account '" +:+ number +:+ "' not found."] 1
  /\ Cli.assets lib (Some ws) verbose (Some number) by_account profits losses
       output_format
     = Cli.Outcome
         [ if profits && losses
           then "Error: --profits and --losses cannot be used together."
           else "Account '" +:+ number +:+ "' not found." ]
         1.
Proof.
  intros Hn Hnone.
  assert (Activities.get_account_id_by_number ws number = None) as Hid.
  { unfold Activities.get_account_id_by_number.
    pose proof (find_number number (get_accounts ws)) as Hfind.
    destruct (List.find _ (get_accounts ws)) as [b|]; [|reflexivity].
    destruct Hfind as [Hb Hbn]. rewrite List.Forall_forall in Hnone.
    now destruct (Hnone b Hb). }
  assert (Cli.lookup_account ws (Some number)
          = inr ("Account '" +:+ number +:+ "' not found.")) as Hlookup.
  { unfold Cli.lookup_account. rewrite truthy_or_str, Hn.
    assert (or_str (Some number) "" = number) as -> by (now destruct number).
    now rewrite Hid. }
  split; [exact Hid|]. split.
  - unfold Cli.activities. now rewrite Hlookup.
  - unfold Cli.assets. rewrite Hlookup. now destruct (profits && losses).
Qed.

(** X11.  The three output formats of the command line select the
    formatter they name, and the positions are grouped into one table per
    account exactly for [--by-account] with the table format: with JSON or
    CSV the positions of a by-account report are one document, each entry
    carrying its account label. *)
Theorem command_line_formats_select_their_formatter
    (ws : WealthsimpleAPI) (verbose by_account : bool)
    (output_format : Cli.OutputFormat) :
  Formatters.get_formatter lib (Cli.value output_format)
  = formatter_of lib output_format
  /\ Cli.assets lib (Some ws) verbose None by_account false false output_format
     = Cli.Outcome
         ((if verbose then [nl +:+ "Fetching positions..."] else [])
          ++ match Assets.get_assets_data ws None by_account "CAD" None with
             | [] => ["No positions found."]
             | data =>
                 match by_account, output_format with
                 | true, Cli.table =>
                     Driver._print_positions_by_account
                       Formatters.TableFormatter.formatter data
                 | _, _ =>
                     [Formatters.format_positions
                        (formatter_of lib output_format) data true None]
                 end
             end)
         0
  /\ (by_account = true ->
      Forall (fun p => is_Some (PositionData.account_label p))
        (Assets.get_assets_data ws None by_account "CAD" None)).
Proof.
  split; [now destruct output_format|]. split.
  - unfold Cli.assets, Cli.lookup_account, Driver.print_assets.
    cbn [andb truthy or_str].
    destruct (Assets.get_assets_data ws None by_account "CAD" None);
      [reflexivity|].
    now destruct by_account, output_format.
  - intros ->. apply by_account_report_labelled.
Qed.

(** X12.  The driver of the positions decides on grouping by comparing the
    format with the word table as it is written, while the formatter is
    chosen whatever the letter case: for a format such as Table, a by-account
    report is printed as a single table without account headings, not as one
    table per account. *)
Theorem grouping_needs_the_exact_word_table
    (ws : WealthsimpleAPI) (account_id : option string)
    (currency output_format : string) (verbose : bool)
    (pnl_filter : option string) :
  lower output_format = "table" ->
  output_format <> "table" ->
  let data := Assets.get_assets_data ws account_id true currency pnl_filter in
  data <> [] ->
  Driver.print_assets lib ws account_id true currency output_format verbose
    pnl_filter
  = (if verbose then [nl +:+ "Fetching positions..."] else [])
    ++ [Formatters.TableFormatter.format_positions data true None]
  /\ Driver.print_assets lib ws account_id true currency "table" verbose
       pnl_filter
     = (if verbose then [nl +:+ "Fetching positions..."] else [])
       ++ Driver._print_positions_by_account
            Formatters.TableFormatter.formatter data.
Proof.
  intros Hlower Hne data Hdata. unfold Driver.print_assets. fold data.
  destruct data as [|p data']; [congruence|]. cbn [andb].
  unfold Formatters.get_formatter. rewrite Hlower.
  assert (String.eqb output_format "table" = false) as ->
    by (now apply String.eqb_neq).
  split; reflexivity.
Qed.

(** X13.  A client that has no accounts and no positions: each command
    prints its sentence for an empty report and exits with code 0, in every
    output format, so what a JSON or CSV consumer receives is the sentence,
    not the empty document [[]] or the empty text of the formatter. *)
Theorem empty_reports_print_a_sentence
    (ws : WealthsimpleAPI) (verbose show_zero_balances liquid_only not_liquid
     dividends_only by_account profits losses : bool) (limit : Z)
    (output_format : Cli.OutputFormat) :
  get_accounts ws = [] ->
  get_identity_positions ws "CAD" = [] ->
  Cli.list_accounts_cmd lib (Some ws) verbose show_zero_balances liquid_only
    not_liquid output_format
  = Cli.Outcome
      ((if verbose then [nl +:+ "Fetching accounts..."] else [])
       ++ ["No accounts found."]) 0
  /\ Cli.activities lib (Some ws) verbose None dividends_only limit
       output_format
     = Cli.Outcome
         ((if verbose then [nl +:+ "Fetching activities..."] else [])
          ++ ["No activities found."]) 0
  /\ (profits && losses = false ->
      Cli.assets lib (Some ws) verbose None by_account profits losses
        output_format
      = Cli.Outcome
          ((if verbose then [nl +:+ "Fetching positions..."] else [])
           ++ ["No positions found."]) 0)
  /\ Formatters.format_accounts (formatter_of lib Cli.json) [] = "[]"
  /\ Formatters.format_accounts (formatter_of lib Cli.csv) [] = "".
Proof.
  intros Haccounts Hpositions. repeat split.
  - unfold Cli.list_accounts_cmd, Driver.print_accounts,
      Accounts.get_accounts_data. now rewrite Haccounts.
  - unfold Cli.activities, Cli.lookup_account, Driver.print_activities,
      Activities.get_activities_data. cbn [truthy or_str].
    now rewrite Haccounts.
  - intros Hflags. unfold Cli.assets, Cli.lookup_account, Driver.print_assets,
      Assets.get_assets_data, Assets.get_assets_data_run.
    rewrite Hflags. cbn [truthy or_str]. now rewrite Hpositions.
Qed.

End Commands.

(** *** The cache changes no result *)

Section CacheTransparency.

Lemma mapM_invariant {V B C} (I : state V -> Prop) (f : B -> M V C)
    (h : B -> C) (xs : list B) (st : state V) :
  (forall x st0, I st0 -> fst (f x st0) = h x /\ I (snd (f x st0))) ->
  I st -> fst (mapM f xs st) = map h xs /\ I (snd (mapM f xs st)).
Proof.
  intros Hf. revert st. induction xs as [|x xs IH]; intros st Hst;
    [now split|].
  cbn [mapM]. unfold bind. destruct (Hf x st Hst) as [Hx Hst1].
  destruct (f x st) as [y st1].
  destruct (IH st1 Hst1) as [Hxs Hst2].
  destruct (mapM f xs st1) as [ys st2]. cbn [fst snd ret map] in *.
  split; [congruence | exact Hst2].
Qed.

Section Resolver.

Context {V : Type} (ws : WealthsimpleAPI)
  (of_response : Raw.response -> string -> V) (fallback : string -> V).

Local Abbreviation resolve := (resolve_with ws of_response fallback).
Local Abbreviation sound := (cache_sound ws of_response fallback).
Local Abbreviation fresh := (fresh_answer ws of_response fallback).

Lemma fresh_answer_unfold (id : string) :
  fresh id
  = if truthy id then of_response (get_security_market_data ws [] id) id
    else fallback id.
Proof.
  unfold fresh_answer, resolve_with. cbn [cache calls init].
  rewrite lookup_empty. now destruct (truthy id).
Qed.

Lemma sound_init : sound init.
Proof. intros id v H. cbn in H. rewrite lookup_empty in H. discriminate. Qed.

Lemma resolve_sound (id : string) (st : state V) :
  history_free ws -> sound st ->
  fst (resolve id st) = fresh id /\ sound (snd (resolve id st)).
Proof.
  intros Hfree Hst. unfold resolve_with.
  destruct (cache st !! id) as [v|] eqn:E.
  - cbn [fst snd]. split; [exact (Hst _ _ E) | exact Hst].
  - assert (forall v, v = fresh id ->
              sound (State (<[id := v]> (cache st)) (calls st ++ [id]))
              /\ sound (State (<[id := v]> (cache st)) (calls st))) as Hins.
    { intros v ->. split; intros id' v'; cbn [cache];
        (destruct (decide (id = id')) as [<-|Hne];
         [rewrite lookup_insert_eq; congruence
         |rewrite lookup_insert_ne by exact Hne; apply Hst]). }
    rewrite fresh_answer_unfold in *. destruct (truthy id); cbn [fst snd].
    + rewrite Hfree. split; [reflexivity|]. now apply Hins.
    + split; [reflexivity|]. now apply Hins.
Qed.

End Resolver.

Local Abbreviation infos_sound ws :=
  (cache_sound ws info_of_response (fun _ => ("N/A", "Unknown"))).
Local Abbreviation names_sound ws :=
  (cache_sound ws name_of_response (fun id => id)).

Lemma position_data_sound (ws : WealthsimpleAPI) (position : Raw.position)
    (currency : string) (st : state (string * string)) :
  history_free ws -> infos_sound ws st ->
  fst (Assets._get_position_data ws position currency st)
  = position_alone ws currency None position
  /\ infos_sound ws (snd (Assets._get_position_data ws position currency st)).
Proof.
  intros Hfree Hst.
  unfold position_alone, Assets._get_position_data, bind, ret. cbv zeta.
  rewrite !get_security_info_run.
  match goal with
  | |- context [resolve_with ws ?r ?f ?id st] =>
      destruct (resolve_sound ws r f id st Hfree Hst) as [H1 H2];
      destruct (resolve_sound ws r f id init Hfree (sound_init ws r f))
        as [H3 _];
      destruct (resolve_with ws r f id st) as [info st1];
      destruct (resolve_with ws r f id init) as [info0 st0]
  end.
  cbn [fst snd] in *. subst info info0. split; [reflexivity | exact H2].
Qed.

Lemma position_has_account_ids (position : Raw.position) (id : string) :
  truthy id = true ->
  Assets._position_has_account position id
  = bool_decide (id ∈ Assets._get_position_account_ids position).
Proof.
  intros Hid.
  unfold Assets._position_has_account, Assets._get_position_account_ids, any.
  cbv zeta. induction (default [] (Raw.pos_accounts position)) as [|r refs IH].
  - cbn. rewrite bool_decide_eq_false_2; [reflexivity | apply not_elem_of_nil].
  - cbn [existsb omap list_omap]. rewrite IH. clear IH.
    destruct (Raw.ref_id r) as [i|].
    + destruct (decide (i = id)) as [->|Hne].
      * rewrite Hid, bool_decide_eq_true_2 by reflexivity.
        cbn [orb]. symmetry. apply bool_decide_eq_true_2. left.
      * rewrite (bool_decide_eq_false_2 (Some i = Some id)) by congruence.
        cbn [orb]. destruct (truthy i); [|reflexivity].
        apply bool_decide_ext. rewrite elem_of_cons. intuition congruence.
    + now rewrite bool_decide_eq_false_2 by discriminate.
Qed.

Lemma filter_all {B} (xs : list B) : List.filter (fun _ => true) xs = xs.
Proof. induction xs as [|x xs IH]; cbn; congruence. Qed.

Lemma scoped_positions_eq (ws : WealthsimpleAPI) (account_id : option string)
    (currency : string) :
  (if truthy (or_str account_id "")
   then Assets._filter_positions_by_account (get_identity_positions ws currency)
          (or_str account_id "")
   else get_identity_positions ws currency)
  = scoped_positions ws account_id currency.
Proof.
  unfold scoped_positions, Assets._filter_positions_by_account.
  destruct (truthy (or_str account_id "")) eqn:Hid; cbn [negb orb].
  - apply filter_ext. intros p. now apply position_has_account_ids.
  - symmetry. apply filter_all.
Qed.

Lemma mapM_ret {V B C} (f : B -> M V C) (h : B -> C) (xs : list B)
    (st : state V) :
  (forall x st0, f x st0 = (h x, st0)) -> mapM f xs st = (map h xs, st).
Proof.
  intros Hf. induction xs as [|x xs IH]; [reflexivity|].
  cbn [mapM map]. unfold bind. now rewrite Hf, IH.
Qed.

Lemma grouped_nil (ws : WealthsimpleAPI) (accounts : list Raw.account)
    (currency : string) (st : state (string * string)) :
  Assets._get_positions_by_account_grouped ws [] accounts currency st
  = ([], st).
Proof.
  unfold Assets._get_positions_by_account_grouped. unfold bind at 1.
  match goal with
  | |- context [mapM ?body accounts st] =>
      rewrite (mapM_ret body (fun _ => []) accounts st)
  end.
  - unfold ret. f_equal.
    induction accounts as [|a accounts IH]; [reflexivity | exact IH].
  - intros account st0. cbn [Assets.build_positions_by_account fold_left].
    destruct (Raw.acc_id account); cbn; now rewrite ?lookup_empty.
Qed.

(** [get_assets_data], with the branches on empty sequences folded away. *)
Lemma assets_run (ws : WealthsimpleAPI) (account_id : option string)
    (by_account : bool) (currency : string) (pnl_filter : option string) :
  Assets.get_assets_data_run ws account_id by_account currency pnl_filter
  = let positions := scoped_positions ws account_id currency in
    let '(data, st) :=
      (if by_account
       then Assets._get_positions_by_account_grouped ws positions
              (Assets._get_accounts_for_assets ws account_id) currency
       else mapM (fun pos => Assets._get_position_data ws pos currency)
              positions) init in
    (if bool_decide (pnl_filter = Some "profit") then
       List.filter (fun pos => fgtb (PositionData.pnl pos) fzero) data
     else if bool_decide (pnl_filter = Some "loss") then
       List.filter (fun pos => fltb (PositionData.pnl pos) fzero) data
     else data, st).
Proof.
  cbv zeta. unfold Assets.get_assets_data_run.
  rewrite <- scoped_positions_eq.
  assert (forall (data : list PositionData.t),
            data = [] ->
            (if bool_decide (pnl_filter = Some "profit") then
               List.filter (fun pos => fgtb (PositionData.pnl pos) fzero) data
             else if bool_decide (pnl_filter = Some "loss") then
               List.filter (fun pos => fltb (PositionData.pnl pos) fzero) data
             else data) = []) as Hnil.
  { intros data ->. now repeat destruct (bool_decide _). }
  destruct (get_identity_positions ws currency) as [|p0 ps0] eqn:Hall.
  - assert ((if truthy (or_str account_id "")
             then Assets._filter_positions_by_account [] (or_str account_id "")
             else []) = []) as -> by (now destruct (truthy _)).
    destruct by_account; [rewrite grouped_nil|]; cbn [mapM ret];
      now rewrite Hnil.
  - destruct (if truthy (or_str account_id "") then _ else _)
      as [|p ps] eqn:Hscoped.
    + destruct by_account; [rewrite grouped_nil|]; cbn [mapM ret];
        now rewrite Hnil.
    + destruct by_account; cbn [negb]; [|reflexivity].
      destruct (Assets._get_accounts_for_assets ws account_id)
        as [|a accounts]; [|reflexivity].
      unfold Assets._get_positions_by_account_grouped, bind. cbn [mapM ret].
      now rewrite Hnil.
Qed.

Lemma mapM_labelled {V B C D} (f : B -> M V C) (g : C -> D) (xs : list B)
    (st : state V) :
  mapM (fun x => y <- f x ;; ret (g y)) xs st
  = (map g (fst (mapM f xs st)), snd (mapM f xs st)).
Proof.
  revert st. induction xs as [|x xs IH]; intros st; [reflexivity|].
  cbn [mapM]. unfold bind, ret in *. destruct (f x st) as [y st1].
  rewrite IH. now destruct (mapM f xs st1).
Qed.

Lemma security_name_sound (ws : WealthsimpleAPI) (id : string)
    (st : state string) :
  history_free ws -> names_sound ws st ->
  fst (Activities._get_security_name ws id st)
  = fresh_answer ws name_of_response (fun id => id) id
  /\ names_sound ws (snd (Activities._get_security_name ws id st)).
Proof. intros. rewrite get_security_name_run. now apply resolve_sound. Qed.

Section Activities.

Context (lib : Library).

Lemma enhance_sound (ws : WealthsimpleAPI) (activity : Raw.activity)
    (st : state string) :
  history_free ws -> names_sound ws st ->
  fst (Activities._enhance_description lib ws activity st)
  = fst (Activities._enhance_description lib ws activity init)
  /\ names_sound ws (snd (Activities._enhance_description lib ws activity st)).
Proof.
  intros Hfree Hst. unfold Activities._enhance_description. cbv zeta.
  destruct (truthy (or_str (if truthy _ then _ else _) ""));
    [|now split].
  unfold bind, ret.
  match goal with
  | |- context [Activities._get_security_name ws ?sid st] =>
      destruct (security_name_sound ws sid st Hfree Hst) as [H1 H2];
      destruct (security_name_sound ws sid init Hfree
                  (sound_init ws name_of_response (fun i => i)))
        as [H3 _];
      destruct (Activities._get_security_name ws sid st) as [name st1];
      destruct (Activities._get_security_name ws sid init) as [name0 st0]
  end.
  cbn [fst snd] in *. subst name name0. split; [reflexivity | exact H2].
Qed.

Lemma transform_sound (ws : WealthsimpleAPI) (activity : Raw.activity)
    (label : option string) (st : state string) :
  history_free ws -> names_sound ws st ->
  fst (Activities._transform_activity lib ws activity label st)
  = activity_alone lib ws label activity
  /\ names_sound ws
       (snd (Activities._transform_activity lib ws activity label st)).
Proof.
  intros Hfree Hst.
  unfold activity_alone, Activities._transform_activity, bind, ret.
  destruct (enhance_sound ws activity st Hfree Hst) as [H1 H2].
  destruct (Activities._enhance_description lib ws activity st) as [d st1].
  destruct (Activities._enhance_description lib ws activity init) as [d0 st0].
  cbn [fst snd] in *. subst d. split; [reflexivity | exact H2].
Qed.

Lemma process_sound (ws : WealthsimpleAPI) (account_id label : option string)
    (dividends_only : bool) (limit : Z) (st : state string) :
  history_free ws -> names_sound ws st ->
  fst (Activities._process_account_activities lib ws account_id label
         dividends_only limit st)
  = map (activity_alone lib ws label)
      (reported_activities ws account_id dividends_only limit)
  /\ names_sound ws
       (snd (Activities._process_account_activities lib ws account_id label
               dividends_only limit st)).
Proof.
  intros Hfree Hst.
  unfold Activities._process_account_activities, reported_activities.
  cbv zeta.
  assert ((if dividends_only
           then List.filter Activities.is_dividend_activity
                  (get_activities ws account_id)
           else get_activities ws account_id)
          = List.filter
              (fun a => negb dividends_only || Activities.is_dividend_activity a)
              (get_activities ws account_id)) as ->.
  { destruct dividends_only; cbn [negb orb]; [reflexivity|].
    symmetry. apply filter_all. }
  apply mapM_invariant; [|exact Hst].
  intros act st0 Hst0. now apply transform_sound.
Qed.

Lemma activities_report_sound (ws : WealthsimpleAPI)
    (account_id : option string) (dividends_only : bool) (limit : Z) :
  history_free ws ->
  Activities.get_activities_data lib ws account_id dividends_only limit
  = if truthy (or_str account_id "") then
      map (activity_alone lib ws None)
        (reported_activities ws account_id dividends_only limit)
    else
      flat_map
        (fun account =>
           map (activity_alone lib ws
                  (Some (Activities.account_label_of account)))
             (reported_activities ws (Raw.acc_id account) dividends_only
                limit))
        (get_accounts ws).
Proof.
  intros Hfree. unfold Activities.get_activities_data.
  pose proof (sound_init ws name_of_response (fun id => id)) as Hinit.
  destruct (truthy (or_str account_id "")).
  - now apply process_sound.
  - destruct (get_accounts ws) as [|a accounts] eqn:E; [reflexivity|].
    rewrite <- E. clear E a accounts. unfold bind.
    match goal with
    | |- context [mapM ?body (get_accounts ws) init] =>
        destruct (mapM_invariant (names_sound ws) body
                    (fun account =>
                       map (activity_alone lib ws
                              (Some (Activities.account_label_of account)))
                         (reported_activities ws (Raw.acc_id account)
                            dividends_only limit))
                    (get_accounts ws) init) as [H _];
        [ intros account st0 Hst0; now apply process_sound
        | exact Hinit
        | destruct (mapM body (get_accounts ws) init) as [groups st1] ]
    end.
    cbn [fst ret] in *. now rewrite H, flat_map_concat_map.
Qed.

End Activities.

Lemma aggregated_report_sound (ws : WealthsimpleAPI)
    (account_id : option string) (currency : string) :
  history_free ws ->
  Assets.get_assets_data ws account_id false currency None
  = map (position_alone ws currency None)
      (scoped_positions ws account_id currency).
Proof.
  intros Hfree. unfold Assets.get_assets_data. rewrite assets_run. cbv zeta.
  destruct (mapM_invariant (infos_sound ws)
              (fun pos => Assets._get_position_data ws pos currency)
              (position_alone ws currency None)
              (scoped_positions ws account_id currency) init) as [H _].
  - intros pos st0 Hst0. now apply position_data_sound.
  - apply sound_init.
  - destruct (mapM _ (scoped_positions ws account_id currency) init)
      as [data st]. cbn [fst] in *. exact H.
Qed.

(** X14.  The security cache changes how often the client is asked, not
    what is reported: when the client answers a lookup by the identifier
    alone, the aggregated positions report is the sequence of the scoped
    positions, each transformed as if it were the only one, and the
    activities report is the sequence of the reported activities of the
    account, or of each account in turn under its label, each transformed as
    if it were the only one. *)
Theorem cache_changes_no_result
    (lib : Library) (ws : WealthsimpleAPI) (account_id : option string)
    (currency : string) (dividends_only : bool) (limit : Z) :
  history_free ws ->
  Assets.get_assets_data ws account_id false currency None
  = map (position_alone ws currency None)
      (scoped_positions ws account_id currency)
  /\ Activities.get_activities_data lib ws account_id dividends_only limit
     = (if truthy (or_str account_id "") then
          map (activity_alone lib ws None)
            (reported_activities ws account_id dividends_only limit)
        else
          flat_map
            (fun account =>
               map (activity_alone lib ws
                      (Some (Activities.account_label_of account)))
                 (reported_activities ws (Raw.acc_id account) dividends_only
                    limit))
            (get_accounts ws)).
Proof.
  intros Hfree. split.
  - now apply aggregated_report_sound.
  - now apply activities_report_sound.
Qed.

Lemma filter_true {B} (f : B -> bool) (xs : list B) :
  (forall x, In x xs -> f x = true) -> List.filter f xs = xs.
Proof.
  induction xs as [|x xs IH]; intros H; [reflexivity|].
  cbn [List.filter]. rewrite (H x) by now left.
  rewrite IH; [reflexivity|]. intros y Hy. apply H. now right.
Qed.

Lemma filter_map_label (f : PositionData.t -> float -> bool)
    (label : option string) (data : list PositionData.t) :
  List.filter (fun pos => f pos (PositionData.pnl pos))
    (map (PositionData.set_account_label label) data)
  = map (PositionData.set_account_label label)
      (List.filter (fun pos => f (PositionData.set_account_label label pos)
                                 (PositionData.pnl pos)) data).
Proof.
  induction data as [|p data IH]; [reflexivity|].
  cbn [map List.filter]. rewrite IH.
  change (PositionData.pnl (PositionData.set_account_label label p))
    with (PositionData.pnl p).
  now destruct (f _ _).
Qed.

(** X15.  For one account, the by-account report and the aggregated report
    agree: when exactly one account of the client has the identifier asked
    for, and no position lists an account twice, the by-account report is the
    aggregated report of that account with the label of the account put on
    every entry, under every P&L filter. *)
Theorem scoped_by_account_report_is_the_aggregated_one_labelled
    (ws : WealthsimpleAPI) (id : string) (a : Raw.account)
    (currency : string) (pnl_filter : option string) :
  truthy id = true ->
  Assets._get_accounts_for_assets ws (Some id) = [a] ->
  Forall (fun p => NoDup (Assets._get_position_account_ids p))
    (get_identity_positions ws currency) ->
  Assets.get_assets_data ws (Some id) true currency pnl_filter
  = map (PositionData.set_account_label
           (Some (Assets._build_account_label a)))
      (Assets.get_assets_data ws (Some id) false currency pnl_filter).
Proof.
  intros Hid Haccounts Hids. unfold Assets.get_assets_data.
  rewrite !assets_run. cbv zeta. rewrite Haccounts.
  assert (Raw.acc_id a = Some id) as Ha.
  { assert (In a (Assets._get_accounts_for_assets ws (Some id))) as Hin
      by (rewrite Haccounts; now left).
    unfold Assets._get_accounts_for_assets in Hin.
    rewrite or_str_some, Hid in Hin. apply filter_In in Hin as [_ Hin].
    now apply bool_decide_eq_true_1 in Hin. }
  set (positions := scoped_positions ws (Some id) currency).
  assert (Forall (fun p => NoDup (Assets._get_position_account_ids p))
            positions) as Hscoped by (now apply Forall_filter_keep).
  assert (List.filter (owns a) positions = positions) as Howned.
  { apply filter_true. intros p Hp. unfold owns. rewrite Ha.
    apply filter_In in Hp as [_ Hp]. rewrite or_str_some, Hid in Hp.
    exact Hp. }
  unfold Assets._get_positions_by_account_grouped, bind. cbn [mapM].
  unfold bind. rewrite account_positions, Howned by exact Hscoped.
  assert ((match positions with
           | [] => ret []
           | _ :: _ =>
               mapM (fun pos st =>
                       let '(a0, st') :=
                         Assets._get_position_data ws pos currency st in
                       ret (PositionData.set_account_label
                              (Some (Assets._build_account_label a)) a0) st')
                    positions
           end) init
          = (map (PositionData.set_account_label
                    (Some (Assets._build_account_label a)))
               (fst (mapM (fun pos => Assets._get_position_data ws pos currency)
                       positions init)),
             snd (mapM (fun pos => Assets._get_position_data ws pos currency)
                    positions init))) as ->.
  { rewrite <- (mapM_labelled
                  (fun pos => Assets._get_position_data ws pos currency)).
    now destruct positions. }
  destruct (mapM _ positions init) as [data st]. cbn [fst snd ret].
  cbn [concat]. rewrite app_nil_r.
  repeat match goal with
         | |- context [bool_decide ?P] => destruct (bool_decide P)
         end;
    cbn [fst]; try reflexivity.
  - apply (filter_map_label (fun _ x => fgtb x fzero)).
  - apply (filter_map_label (fun _ x => fltb x fzero)).
Qed.

(** X16.  With a client that answers by the identifier alone and
    positions that list no account twice, the by-account report is, entry for
    entry, the pairs of an account and a position it owns, account by
    account, each position transformed as if it were the only one and
    labelled with its account. *)
Theorem by_account_entries_are_the_owning_pairs (ws : WealthsimpleAPI)
    (account_id : option string) (currency : string) :
  history_free ws ->
  Forall (fun p => NoDup (Assets._get_position_account_ids p))
    (get_identity_positions ws currency) ->
  Assets.get_assets_data ws account_id true currency None
  = map (fun pair =>
           position_alone ws currency
             (Some (Assets._build_account_label (fst pair))) (snd pair))
      (owning_pairs (scoped_positions ws account_id currency)
         (Assets._get_accounts_for_assets ws account_id)).
Proof.
  intros Hfree Hids. unfold Assets.get_assets_data. rewrite assets_run.
  cbv zeta.
  assert (Forall (fun p => NoDup (Assets._get_position_account_ids p))
            (scoped_positions ws account_id currency)) as Hscoped
    by (now apply Forall_filter_keep).
  unfold Assets._get_positions_by_account_grouped. unfold bind at 1.
  match goal with
  | |- context [mapM ?body ?accounts init] =>
      destruct (mapM_invariant (infos_sound ws) body
                  (fun account =>
                     map (position_alone ws currency
                            (Some (Assets._build_account_label account)))
                       (List.filter (owns account)
                          (scoped_positions ws account_id currency)))
                  accounts init) as [H _];
      [ | apply sound_init | destruct (mapM body accounts init) as [groups st]]
  end.
  - intros account st0 Hst0. rewrite account_positions by exact Hscoped.
    assert (forall ps,
              fst (mapM (fun pos =>
                           pos_data <- Assets._get_position_data ws pos currency ;;
                           ret (PositionData.set_account_label
                                  (Some (Assets._build_account_label account))
                                  pos_data)) ps st0)
              = map (position_alone ws currency
                       (Some (Assets._build_account_label account))) ps
              /\ infos_sound ws
                   (snd (mapM (fun pos =>
                                 pos_data <- Assets._get_position_data ws pos
                                               currency ;;
                                 ret (PositionData.set_account_label
                                        (Some (Assets._build_account_label
                                                 account))
                                        pos_data)) ps st0))) as Hgroup.
    { intros ps. apply mapM_invariant; [|exact Hst0].
      intros pos st1 Hst1. unfold bind, ret.
      destruct (position_data_sound ws pos currency st1 Hfree Hst1)
        as [H1 H2].
      destruct (Assets._get_position_data ws pos currency st1) as [pd st2].
      cbn [fst snd] in *. subst pd. split; [reflexivity | exact H2]. }
    destruct (List.filter (owns account) _) as [|q qs] eqn:E;
      [split; [reflexivity | exact Hst0]|].
    apply Hgroup.
  - cbn [fst ret] in *. rewrite H. unfold owning_pairs.
    rewrite flat_map_concat_map, concat_map, !map_map. f_equal.
    apply map_ext. intros account. now rewrite map_map.
Qed.


End CacheTransparency.

(** *** The calls made to the client *)

Section ClientCalls.

(** The state after the identifiers [ids] were resolved from a fresh
    cache. *)
Local Abbreviation traced ids st :=
  (NoDup (calls st) /\ calls_are_cached_ids st
   /\ forall id : string, is_Some (cache st !! id) <-> In id ids).

Lemma traced_init {V} : traced [] (@init V).
Proof.
  split; [constructor|]. split.
  - intros id. cbn. rewrite lookup_empty. split; [intros [] | intros [_ [v H]]].
    discriminate.
  - intros id. cbn. rewrite lookup_empty. split; [intros [v H] | intros []].
    discriminate.
Qed.

Lemma resolve_traced {V} (ws : WealthsimpleAPI)
    (of_response : Raw.response -> string -> V) (fallback : string -> V)
    (security_id : string) (ids : list string) (st : state V) :
  traced ids st ->
  traced (ids ++ [security_id])
    (snd (resolve_with ws of_response fallback security_id st)).
Proof.
  unfold calls_are_cached_ids. intros (Hnd & Hcalls & Hkeys).
  unfold resolve_with. destruct (cache st !! security_id) as [v|] eqn:E.
  - cbn [snd]. split; [exact Hnd|]. split; [exact Hcalls|].
    intros x. rewrite Hkeys, in_app_iff. cbn [In]. split; [auto|].
    intros [H | [<- | []]]; [exact H|]. apply Hkeys. rewrite E. eauto.
  - assert (~ In security_id (calls st)) as Hfresh.
    { intros Hin. apply Hcalls in Hin as [_ [v Hv]]. congruence. }
    assert (forall v cs x,
              is_Some (cache (State (<[security_id := v]> (cache st)) cs) !! x)
              <-> In x (ids ++ [security_id])) as Hkeys'.
    { intros v cs x. cbn [cache]. rewrite in_app_iff. cbn [In].
      destruct (decide (security_id = x)) as [<-|Hne].
      - rewrite lookup_insert_eq. split; [auto | eauto].
      - rewrite lookup_insert_ne by exact Hne. rewrite Hkeys.
        split; [auto|]. intros [H | [H | []]]; [exact H | contradiction]. }
    destruct (truthy security_id) eqn:Ht; cbn [snd];
      (split; [|split; [|apply Hkeys']]); cbn [calls cache].
    + apply NoDup_app. repeat split.
      * exact Hnd.
      * intros x Hx Hone. apply list_elem_of_singleton in Hone as ->.
        apply Hfresh. now apply list_elem_of_In.
      * apply NoDup_singleton.
    + intros x. rewrite in_app_iff. cbn [In].
      destruct (decide (security_id = x)) as [<-|Hne].
      * rewrite lookup_insert_eq. split; [eauto | auto].
      * rewrite lookup_insert_ne by exact Hne. rewrite (Hcalls x).
        split; [|auto]. intros [H | [H | []]]; [exact H | contradiction].
    + exact Hnd.
    + intros x. destruct (decide (security_id = x)) as [<-|Hne].
      * rewrite lookup_insert_eq. split; [intros Hin; now destruct Hfresh|].
        intros [Hx _]. congruence.
      * rewrite lookup_insert_ne by exact Hne. apply Hcalls.
Qed.

Lemma mapM_traced {V B C} (f : B -> M V C) (ids_of : B -> list string)
    (xs : list B) (ids : list string) (st : state V) :
  (forall x ids0 st0,
     traced ids0 st0 -> traced (ids0 ++ ids_of x) (snd (f x st0))) ->
  traced ids st -> traced (ids ++ flat_map ids_of xs) (snd (mapM f xs st)).
Proof.
  intros Hf. revert ids st. induction xs as [|x xs IH]; intros ids st Hst.
  - cbn [flat_map mapM ret snd]. rewrite app_nil_r. exact Hst.
  - cbn [mapM flat_map]. unfold bind. specialize (Hf x ids st Hst).
    destruct (f x st) as [y st1]. cbn [snd] in Hf.
    specialize (IH (ids ++ ids_of x) st1 Hf).
    destruct (mapM f xs st1) as [ys st2]. cbn [snd ret] in *.
    rewrite app_assoc. exact IH.
Qed.

Lemma position_data_traced (ws : WealthsimpleAPI) (position : Raw.position)
    (currency : string) (ids : list string) (st : state (string * string)) :
  traced ids st ->
  traced (ids ++ [security_id_of position])
    (snd (Assets._get_position_data ws position currency st)).
Proof.
  intros Hst.
  pose proof (resolve_traced ws info_of_response (fun _ => ("N/A", "Unknown"))
                (security_id_of position) ids st Hst) as H.
  unfold Assets._get_position_data, bind, ret. cbv zeta.
  rewrite get_security_info_run. fold (security_id_of position).
  now destruct (resolve_with _ _ _ _ st).
Qed.

Lemma positions_traced (ws : WealthsimpleAPI) (positions : list Raw.position)
    (currency : string) (ids : list string) (st : state (string * string)) :
  traced ids st ->
  traced (ids ++ map security_id_of positions)
    (snd (mapM (fun pos => Assets._get_position_data ws pos currency)
            positions st)).
Proof.
  intros Hst.
  assert (map security_id_of positions
          = flat_map (fun p => [security_id_of p]) positions) as ->
    by (induction positions as [|p ps IH]; cbn; congruence).
  apply mapM_traced; [|exact Hst].
  intros p ids0 st0. apply position_data_traced.
Qed.

Lemma table_members (positions : list Raw.position) (id : string)
    (p : Raw.position) (d : gmap string (list Raw.position)) :
  In p
    (default []
       (fold_left
          (fun d pos =>
             fold_left (fun d acc_id => Assets.setdefault_append acc_id pos d)
               (Assets._get_position_account_ids pos) d)
          positions d !! id)) ->
  In p (default [] (d !! id)) \/ In p positions.
Proof.
  revert d. induction positions as [|q positions IH]; intros d; [now left|].
  cbn [fold_left]. intros H. apply IH in H as [H | H]; [|right; now right].
  rewrite inner_fold_lookup in H. apply in_app_iff in H as [H | H];
    [now left|].
  apply repeat_spec in H as ->. right. now left.
Qed.

Lemma grouped_traced (ws : WealthsimpleAPI) (positions : list Raw.position)
    (accounts : list Raw.account) (currency : string)
    (st : state (string * string)) :
  traced [] st ->
  exists ids,
    traced ids
      (snd (Assets._get_positions_by_account_grouped ws positions accounts
              currency st))
    /\ incl ids (map security_id_of positions).
Proof.
  intros Hst. unfold Assets._get_positions_by_account_grouped. cbv zeta.
  set (table := Assets.build_positions_by_account positions).
  set (owned := fun account : Raw.account =>
                  default [] (Raw.acc_id account ≫= fun id => table !! id)).
  exists (flat_map (fun account => map security_id_of (owned account))
            accounts).
  split.
  - match goal with
    | |- context [bind (mapM ?body accounts) ?k] =>
        assert (snd (bind (mapM body accounts) k st)
                = snd (mapM body accounts st)) as ->
          by (unfold bind at 1; now destruct (mapM body accounts st));
        apply (mapM_traced body
                 (fun account => map security_id_of (owned account))
                 accounts [] st); [|exact Hst]
    end.
    clear. intros account ids0 st0 Hst0. fold (owned account).
    destruct (owned account) as [|q qs] eqn:E.
    + cbn [map ret snd]. now rewrite app_nil_r.
    + rewrite mapM_labelled. cbn [snd]. now apply positions_traced.
  - intros id Hid. apply in_flat_map in Hid as (account & _ & Hid).
    apply in_map_iff in Hid as (p & <- & Hp). apply in_map.
    unfold owned in Hp. destruct (Raw.acc_id account) as [i|]; [|destruct Hp].
    cbn in Hp. apply table_members in Hp as [Hp | Hp]; [|exact Hp].
    rewrite lookup_empty in Hp. destruct Hp.
Qed.

(** X17.  The client is asked for a security at most once in a positions
    report, and only for the non-empty security identifiers of the positions
    in scope, whatever the mode and the P&L filter; in the aggregated report
    it is asked exactly once for each of them, and every identifier met,
    the empty one included, ends up in the cache.  So there are never more
    calls than positions in scope. *)
Theorem one_call_for_each_security
    (ws : WealthsimpleAPI) (account_id : option string) (by_account : bool)
    (currency : string) (pnl_filter : option string) :
  let st :=
    snd (Assets.get_assets_data_run ws account_id by_account currency
           pnl_filter) in
  let ids := map security_id_of (scoped_positions ws account_id currency) in
  NoDup (calls st)
  /\ (forall id, In id (calls st) -> truthy id = true /\ In id ids)
  /\ length (calls st) <= length ids
  /\ (by_account = false ->
      (forall id, In id (calls st) <-> truthy id = true /\ In id ids)
      /\ (forall id, In id ids -> is_Some (cache st !! id))).
Proof.
  intros st ids.
  assert (exists seen, traced seen st /\ incl seen ids
                       /\ (by_account = false -> seen = ids))
    as (seen & (Hnd & Hcalls & Hkeys) & Hincl & Hseen).
  { subst st. rewrite assets_run. cbv zeta. fold ids. destruct by_account.
    - destruct (grouped_traced ws (scoped_positions ws account_id currency)
                  (Assets._get_accounts_for_assets ws account_id) currency
                  init traced_init) as (seen & Hseen & Hincl).
      exists seen.
      destruct (Assets._get_positions_by_account_grouped _ _ _ _ _)
        as [data st]. cbn [snd] in *.
      split; [exact Hseen|]. split; [exact Hincl | discriminate].
    - exists ids.
      pose proof (positions_traced ws (scoped_positions ws account_id currency)
                    currency [] init traced_init) as H.
      destruct (mapM _ (scoped_positions ws account_id currency) init)
        as [data st]. cbn [snd app] in *. fold ids in H.
      split; [exact H|]. split; [apply incl_refl | reflexivity]. }
  unfold calls_are_cached_ids in Hcalls.
  assert (forall id, In id (calls st) -> truthy id = true /\ In id ids)
    as Hsub.
  { intros id Hid. apply Hcalls in Hid as [Ht Hc]. split; [exact Ht|].
    apply Hincl. now apply Hkeys. }
  split; [exact Hnd|]. split; [exact Hsub|]. split.
  - apply NoDup_incl_length; [now apply NoDup_ListNoDup|].
    intros id Hid. now apply Hsub.
  - intros Hmode. specialize (Hseen Hmode). subst seen. split.
    + intros id. rewrite Hcalls, Hkeys. reflexivity.
    + intros id. apply Hkeys.
Qed.

End ClientCalls.

(** *** The activities table *)

Section ActivitiesTable.

Import Formatters.

Local Abbreviation labelled a :=
  (truthy (or_str (ActivityData.account_label a) "") = true).

Local Abbreviation rows g := (map TableFormatter.activity_row g).

Local Abbreviation blocks groups := (concat (map activity_block groups)).

Lemma labelled_some (a : ActivityData.t) :
  labelled a ->
  exists s, ActivityData.account_label a = Some s /\ truthy s = true.
Proof.
  destruct (ActivityData.account_label a) as [s|]; [|discriminate].
  rewrite or_str_some. eauto.
Qed.

Lemma fold_labelled (acts : list ActivityData.t) (lines : list string)
    (current : option string) :
  Forall (fun a => labelled a) acts ->
  fst (fold_left TableFormatter.activity_step acts (lines, current))
  ++ [TableFormatter.rule 80]
  = lines
    ++ match groupby ActivityData.account_label acts with
       | (k, g) :: rest =>
           if decide (k = current)
           then rows g ++ [TableFormatter.rule 80] ++ blocks rest
           else
             match current with
             | Some _ => [TableFormatter.rule 80]
             | None => []
             end
             ++ blocks ((k, g) :: rest)
       | [] => [TableFormatter.rule 80]
       end.
Proof.
  intros Hall. revert lines current.
  induction Hall as [|a acts Ha _ IH]; intros lines current; [reflexivity|].
  destruct (labelled_some a Ha) as (s & Hs & Hts).
  cbn [fold_left groupby]. unfold TableFormatter.activity_step at 2.
  rewrite Hs in Ha |- *. rewrite Ha. cbn [andb].
  destruct (decide (Some s = current)) as [Hcur|Hcur].
  - rewrite bool_decide_eq_true_2 by exact Hcur. cbn [negb].
    subst current. rewrite IH.
    rewrite <- app_assoc. f_equal.
    destruct (groupby ActivityData.account_label acts) as [|[k g] rest].
    + rewrite decide_True by reflexivity. reflexivity.
    + destruct (decide (Some s = k)) as [<-|Hk].
      * rewrite !decide_True by reflexivity. reflexivity.
      * rewrite decide_False by congruence.
        rewrite decide_True by reflexivity. reflexivity.
  - rewrite bool_decide_eq_false_2 by exact Hcur. cbn [negb]. rewrite IH.
    rewrite <- !app_assoc. f_equal.
    destruct (groupby ActivityData.account_label acts) as [|[k g] rest].
    + rewrite decide_False by exact Hcur.
      f_equal; unfold activity_block; cbn [fst snd map concat app];
        rewrite <- ?app_assoc; cbn [app]; reflexivity.
    + destruct (decide (Some s = k)) as [<-|Hk].
      * rewrite decide_True by reflexivity.
        rewrite decide_False by exact Hcur.
        f_equal; unfold activity_block; cbn [fst snd map concat app];
          rewrite <- ?app_assoc; cbn [app]; reflexivity.
      * rewrite !decide_False by congruence.
        f_equal; unfold activity_block; cbn [fst snd map concat app];
          rewrite <- ?app_assoc; cbn [app]; reflexivity.
Qed.

(** X18.  The loop of the activities table, for activities that all carry
    a label: the table is one block for each run of consecutive activities
    with the same label, in order; a block is the heading of the account, the
    column titles, the rows of the run and a closing rule.  Every activity
    has one row, in the block of its run. *)
Theorem activities_table_is_a_block_for_each_run
    (activities : list ActivityData.t) :
  activities <> [] ->
  Forall (fun a => truthy (or_str (ActivityData.account_label a) "") = true)
    activities ->
  TableFormatter.format_activities activities
  = join nl
      (concat
         (map activity_block (groupby ActivityData.account_label activities)))
  /\ concat (map snd (groupby ActivityData.account_label activities))
     = activities.
Proof.
  intros Hne Hall. split; [|apply groupby_concat].
  destruct activities as [|a acts]; [congruence|].
  unfold TableFormatter.format_activities.
  pose proof (fold_labelled (a :: acts) [] None Hall) as H.
  destruct (fold_left TableFormatter.activity_step (a :: acts) ([], None))
    as [lines current]. cbn [fst app] in H. rewrite H.
  destruct (groupby_first ActivityData.account_label a acts) as (g & rest & ->).
  rewrite decide_False; [reflexivity|].
  inversion Hall as [|? ? Ha _]; subst.
  destruct (labelled_some a Ha) as (s & -> & _). discriminate.
Qed.

Lemma fold_unlabelled (acts : list ActivityData.t) (lines : list string)
    (current : string) :
  Forall (fun a => ActivityData.account_label a = None) acts ->
  fold_left TableFormatter.activity_step acts (lines, Some current)
  = (lines ++ rows acts, Some current).
Proof.
  intros Hall. revert lines.
  induction Hall as [|a acts Ha _ IH]; intros lines.
  - cbn. now rewrite app_nil_r.
  - cbn [fold_left]. unfold TableFormatter.activity_step at 2. rewrite Ha.
    cbn [or_str truthy andb]. rewrite IH. cbn [map].
    now rewrite <- app_assoc.
Qed.

Lemma table_unlabelled (a : ActivityData.t) (acts : list ActivityData.t) :
  Forall (fun a => ActivityData.account_label a = None) (a :: acts) ->
  TableFormatter.format_activities (a :: acts)
  = join nl
      ([ nl +:+ TableFormatter.rule 80;
         TableFormatter.activity_header;
         TableFormatter.dashes 80 ]
       ++ rows (a :: acts) ++ [TableFormatter.rule 80]).
Proof.
  intros Hall. inversion Hall as [|? ? Ha Hacts]; subst.
  unfold TableFormatter.format_activities. cbn [fold_left].
  unfold TableFormatter.activity_step at 2. rewrite Ha.
  cbn [or_str truthy andb]. rewrite fold_unlabelled by exact Hacts.
  cbn [app map]. rewrite <- ?app_assoc. reflexivity.
Qed.

Section Driver.

Context (lib : Library).

Lemma single_account_unlabelled (ws : WealthsimpleAPI)
    (account_id : option string) (dividends_only : bool) (limit : Z) :
  truthy (or_str account_id "") = true ->
  Forall (fun a => ActivityData.account_label a = None)
    (Activities.get_activities_data lib ws account_id dividends_only limit).
Proof.
  intros Hid. unfold Activities.get_activities_data. rewrite Hid.
  unfold Activities._process_account_activities.
  apply mapM_Forall. intros act st.
  now destruct (transform_activity_fields lib ws act None st) as (_ & _ & ->).
Qed.

(** X19.  The activities of one account, as a table: the command prints
    one table, the column titles once, then one row for each activity of the
    report in the order of the report, then a closing rule; there is no
    account heading. *)
Theorem one_account_gives_one_plain_table
    (ws : WealthsimpleAPI) (account_id : option string)
    (dividends_only : bool) (limit : Z) (verbose : bool) :
  truthy (or_str account_id "") = true ->
  let report :=
    Activities.get_activities_data lib ws account_id dividends_only limit in
  Driver.print_activities lib ws account_id dividends_only limit "table"
    verbose
  = (if verbose then [nl +:+ "Fetching activities..."] else [])
    ++ [ match report with
         | [] => "No activities found."
         | _ =>
             join nl
               ([ nl +:+ TableFormatter.rule 80;
                  TableFormatter.activity_header;
                  TableFormatter.dashes 80 ]
                ++ map TableFormatter.activity_row report
                ++ [TableFormatter.rule 80])
         end ].
Proof.
  intros Hid report. unfold Driver.print_activities. fold report.
  pose proof (single_account_unlabelled ws account_id dividends_only limit Hid)
    as Hall.
  fold report in Hall. rewrite Hid. cbn [negb String.eqb Ascii.eqb Bool.eqb].
  destruct report as [|a acts]; [reflexivity|].
  cbn [get_formatter format_activities]. f_equal. f_equal.
  unfold get_formatter. cbn. now apply table_unlabelled.
Qed.

Lemma truthy_append (a b : string) :
  truthy (a +:+ b) = truthy a || truthy b.
Proof. now destruct a. Qed.

Lemma all_accounts_labels_truthy (ws : WealthsimpleAPI)
    (dividends_only : bool) (limit : Z) :
  Forall (fun a => truthy (or_str (ActivityData.account_label a) "") = true)
    (Activities.get_activities_data lib ws None dividends_only limit).
Proof.
  unfold Activities.get_activities_data. cbn [or_str truthy].
  destruct (get_accounts ws) as [|a accounts]; [constructor|].
  unfold bind.
  match goal with
  | |- context [mapM ?body (a :: accounts) init] =>
      pose proof (mapM_Forall
                    (Forall (fun a =>
                               truthy (or_str (ActivityData.account_label a) "")
                               = true))
                    body (a :: accounts) init) as H;
      destruct (mapM body (a :: accounts) init) as [groups st1]
  end.
  cbn [fst ret] in *. apply Forall_concat_intro, H. clear.
  intros account st0. unfold Activities._process_account_activities.
  apply mapM_Forall. intros act st1.
  destruct (transform_activity_fields lib ws act
              (Some (Activities.account_label_of account)) st1)
    as (_ & _ & ->).
  rewrite or_str_some. unfold Activities.account_label_of.
  rewrite !truthy_append. cbn [truthy]. now rewrite orb_true_r.
Qed.

Lemma groupby_keys {B K} `{EqDecision K} (key : B -> K) (P : K -> Prop)
    (xs : list B) :
  Forall (fun x => P (key x)) xs ->
  Forall (fun kg => P (fst kg)) (groupby key xs).
Proof.
  induction 1 as [|x xs Hx _ IH]; [constructor|].
  cbn [groupby]. destruct (groupby key xs) as [|[k g] rest].
  - now repeat constructor.
  - destruct (decide (key x = k)).
    + inversion IH; subst. now constructor.
    + now constructor.
Qed.

Lemma Forall_sorted {B} (key : B -> string) (P : B -> Prop) (xs : list B) :
  Forall P xs -> Forall P (sorted key xs).
Proof.
  intros H. rewrite List.Forall_forall in *. intros x Hx. apply H.
  apply (Permutation_in x
           (sorted_perm (fun b => b) key xs)). exact Hx.
Qed.

(** X20.  The activities of all accounts, as a table: for each group, in
    the order of the groups, the command prints the heading of the account
    (with the mark of a dividends-only report), the column titles and the
    rows of the group, and one closing rule after the last group; every group
    has its heading, because a label is never empty.  The rows printed are the
    rows of the report, each once.  Counted in strings passed to [print], not
    in lines of output, that is five for each group, one for each activity
    and one for the closing rule, after one for the status when verbose; the
    first string of a group and the status begin with a line break, so each
    takes one more line of output than it counts here. *)
Theorem all_accounts_give_a_table_for_each_account
    (ws : WealthsimpleAPI) (dividends_only : bool) (limit : Z)
    (verbose : bool) :
  let report :=
    Activities.get_activities_data lib ws None dividends_only limit in
  let groups := Driver.activity_groups report in
  let heading (g : option string * list ActivityData.t) :=
    [ nl +:+ TableFormatter.rule 80;
      "Account: " +:+ or_str (fst g) ""
      +:+ (if dividends_only then " - Dividends Only" else "");
      TableFormatter.rule 80;
      TableFormatter.activity_header;
      TableFormatter.dashes 80 ] in
  report <> [] ->
  Driver.print_activities lib ws None dividends_only limit "table" verbose
  = (if verbose then [nl +:+ "Fetching activities..."] else [])
    ++ concat
         (map (fun g => heading g ++ map TableFormatter.activity_row (snd g))
            groups)
    ++ [TableFormatter.rule 80]
  /\ Permutation
       (concat (map (fun g => map TableFormatter.activity_row (snd g)) groups))
       (map TableFormatter.activity_row report)
  /\ length
       (Driver.print_activities lib ws None dividends_only limit "table"
          verbose)
     = (if verbose then 1 else 0) + 5 * length groups + length report + 1.
Proof.
  intros report groups heading Hne.
  pose proof (all_accounts_labels_truthy ws dividends_only limit) as Hall.
  fold report in Hall.
  assert (Forall (fun g => truthy (or_str (fst g) "") = true) groups)
    as Hkeys.
  { subst groups. unfold Driver.activity_groups.
    apply (groupby_keys ActivityData.account_label
             (fun k => truthy (or_str k "") = true)).
    now apply Forall_sorted. }
  assert (Permutation (concat (map snd groups)) report) as Hperm
    by (apply (groups_permutation ActivityData.account_label
                 (fun k => or_str k ""))).
  assert (Driver.print_activities lib ws None dividends_only limit "table"
            verbose
          = (if verbose then [nl +:+ "Fetching activities..."] else [])
            ++ concat
                 (map (fun g =>
                         heading g ++ map TableFormatter.activity_row (snd g))
                    groups)
            ++ [TableFormatter.rule 80]) as Hprint.
  { unfold Driver.print_activities. fold report. clearbody report.
    destruct report as [|a acts]; [congruence|].
    cbn [String.eqb Ascii.eqb Bool.eqb or_str truthy negb]. fold groups.
    do 3 f_equal. apply map_ext_in. intros [k g] Hg.
    rewrite List.Forall_forall in Hkeys. specialize (Hkeys _ Hg).
    cbn [fst snd] in *. unfold Driver.print_activity_group. rewrite Hkeys.
    subst heading. cbn [fst snd app]. reflexivity. }
  split; [exact Hprint|]. split.
  - assert (concat
              (map (fun g => map TableFormatter.activity_row (snd g)) groups)
            = map TableFormatter.activity_row (concat (map snd groups)))
      as -> by (now rewrite concat_map, map_map).
    now apply Permutation_map.
  - rewrite Hprint, !length_app. cbn [length].
    assert (length
              (concat
                 (map (fun g =>
                         heading g ++ map TableFormatter.activity_row (snd g))
                    groups))
            = 5 * length groups + length (concat (map snd groups))) as ->.
    { clear. induction groups as [|g groups IH]; [reflexivity|].
      cbn [map concat]. rewrite !length_app, IH, length_map.
      subst heading. cbn [length]. lia. }
    rewrite (Permutation_length Hperm). destruct verbose; cbn [length]; lia.
Qed.

End Driver.

End ActivitiesTable.

(** *** The CSV documents *)

Section CsvShape.

Import Formatters.

Context (lib : Library).

(** X21.  What the CSV formatter returns.  For an empty sequence each of
    its three methods returns the empty text.  For a sequence that is not
    empty the text is one record for each row, in order: the header row, one
    row for each item and, for positions with [show_totals], the TOTAL row;
    a record is the fields of its row as the writer prints them, joined by
    commas and ended by a carriage return and a line feed.  Every row has as
    many fields as the header: four for accounts, seven for activities, nine
    for positions, the TOTAL row included; so a positions document is made of
    [n + 1] records, and of [n + 2] with the totals. *)
Theorem csv_rows_have_the_fields_of_the_header
    (accounts : list AccountData.t) (activities : list ActivityData.t)
    (positions : list PositionData.t) (show_totals : bool)
    (group_label : option string) :
  let record (row : list cell) :=
    join "," (map (csv_field lib) row) +:+ cr +:+ nl in
  let document (rows : list (list cell)) := join "" (map record rows) in
  let account_rows :=
    [CStr "description"; CStr "number"; CStr "value"; CStr "currency"]
    :: map (fun acc =>
              [ CStr (AccountData.description acc);
                CStr (AccountData.number acc);
                CFloat (AccountData.value acc);
                CStr (AccountData.currency acc) ])
         accounts in
  let activity_rows :=
    [ CStr "date"; CStr "activity_type"; CStr "description"; CStr "amount";
      CStr "currency"; CStr "sign"; CStr "account_label" ]
    :: map (fun act =>
              [ CStr (ActivityData.date act);
                CStr (ActivityData.activity_type act);
                CStr (ActivityData.description act);
                CFloat (ActivityData.amount act);
                CStr (ActivityData.currency act);
                CStr (ActivityData.sign act);
                CStr (or_str (ActivityData.account_label act) "") ])
         activities in
  let total_row :=
    let '(total_value, total_book, total_pnl, total_pnl_pct) :=
      _calculate_position_totals positions in
    [ CStr "TOTAL"; CStr "";
      CFloat (sum (map PositionData.quantity positions));
      CFloat total_value; CFloat total_book;
      CStr (first_currency positions);
      CFloat total_pnl; CFloat total_pnl_pct;
      CStr (or_str group_label "") ] in
  let position_rows :=
    [ CStr "symbol"; CStr "name"; CStr "quantity"; CStr "market_value";
      CStr "book_value"; CStr "currency"; CStr "pnl"; CStr "pnl_pct";
      CStr "account_label" ]
    :: map (fun pos =>
              [ CStr (PositionData.symbol pos); CStr (PositionData.name pos);
                CFloat (PositionData.quantity pos);
                CFloat (PositionData.market_value pos);
                CFloat (PositionData.book_value pos);
                CStr (PositionData.currency pos);
                CFloat (PositionData.pnl pos);
                CFloat (PositionData.pnl_pct pos);
                CStr (or_str (PositionData.account_label pos) "") ])
         positions
    ++ (if show_totals then [total_row] else []) in
  CsvFormatter.format_accounts lib accounts
  = match accounts with [] => "" | _ => document account_rows end
  /\ CsvFormatter.format_activities lib activities
     = match activities with [] => "" | _ => document activity_rows end
  /\ CsvFormatter.format_positions lib positions show_totals group_label
     = match positions with [] => "" | _ => document position_rows end
  /\ Forall (fun row => length row = 4) account_rows
  /\ Forall (fun row => length row = 7) activity_rows
  /\ Forall (fun row => length row = 9) position_rows
  /\ length account_rows = length accounts + 1
  /\ length activity_rows = length activities + 1
  /\ length position_rows
     = length positions + (if show_totals then 2 else 1).
Proof.
  intros record document account_rows activity_rows total_row position_rows.
  split; [now destruct accounts|]. split; [now destruct activities|].
  split; [now destruct positions|].
  split; [|split; [|split; [|split; [|split]]]].
  - constructor; [reflexivity|]. apply Forall_map, Forall_true. reflexivity.
  - constructor; [reflexivity|]. apply Forall_map, Forall_true. reflexivity.
  - constructor; [reflexivity|]. apply Forall_app. split.
    + apply Forall_map, Forall_true. reflexivity.
    + destruct show_totals; [|constructor].
      constructor; [|constructor]. unfold total_row.
      now destruct (_calculate_position_totals positions) as [[[? ?] ?] ?].
  - unfold account_rows. cbn [length]. rewrite length_map. lia.
  - unfold activity_rows. cbn [length]. rewrite length_map. lia.
  - unfold position_rows. cbn [length]. rewrite length_app, length_map.
    destruct show_totals; cbn [length]; lia.
Qed.

End CsvShape.

(** *** The properties at the sample data *)

Section AtTheSamples.

Import Formatters.

Lemma unparsed_date_is_cut_to_ten_witness :
  let iso_date := "2024-13-45T10:30:00Z" in
  let shown := Activities._format_date Sample.plain_library iso_date in
  shown = (if (String.length iso_date <? 10)%nat then "N/A"
           else slice_to 10 iso_date)
  /\ (10 <= String.length iso_date ->
      String.length shown = 10 /\ String.prefix shown iso_date = true)
  /\ (String.length shown = 3 \/ String.length shown = 10).
Proof.
  apply (unparsed_date_is_cut_to_ten Sample.plain_library
           "2024-13-45T10:30:00Z").
  reflexivity.
Defined.

Lemma limit_bounds_each_account_witness :
  let ws := Sample.active [Sample.deposit; Sample.payout; Sample.purchase] in
  let report :=
    Activities.get_activities_data Sample.plain_library ws None false 2 in
  let candidates id :=
    List.filter (fun a => negb false || Activities.is_dividend_activity a)
      (get_activities ws id) in
  length report
  = list_sum
      (map (fun account =>
              Nat.min (Z.to_nat 2) (length (candidates (Raw.acc_id account))))
         (get_accounts ws))
  /\ length report <= Z.to_nat 2 * length (get_accounts ws).
Proof.
  apply (limit_bounds_each_account Sample.plain_library
           (Sample.active [Sample.deposit; Sample.payout; Sample.purchase])
           None false 2).
  lia.
Defined.

Lemma negative_limit_drops_the_last_witness :
  let ws := Sample.active [Sample.deposit; Sample.payout; Sample.purchase] in
  let candidates :=
    List.filter (fun a => negb false || Activities.is_dividend_activity a)
      (get_activities ws (Some "acc-1")) in
  length
    (Activities.get_activities_data Sample.plain_library ws (Some "acc-1")
       false (-1))
  = length candidates - Z.to_nat (- -1)
  /\ map without_description
       (Activities.get_activities_data Sample.plain_library ws (Some "acc-1")
          false (-1))
     = map (fun act =>
              without_description
                (activity_alone Sample.plain_library ws None act))
         (firstn (length candidates - Z.to_nat (- -1)) candidates).
Proof.
  apply (negative_limit_drops_the_last Sample.plain_library
           (Sample.active [Sample.deposit; Sample.payout; Sample.purchase])
           (Some "acc-1") false (-1)).
  - lia.
  - reflexivity.
Defined.

Lemma account_number_selects_its_account_witness :
  let ws := Sample.client [] in
  Activities.get_account_id_by_number ws "001" = Raw.acc_id Sample.tfsa
  /\ Cli.lookup_account ws (Some "001")
     = (if negb (truthy "001") then inl None
        else if truthy (or_str (Raw.acc_id Sample.tfsa) "")
             then inl (Raw.acc_id Sample.tfsa)
             else inr ("Account '" +:+ "001" +:+ "' not found.")).
Proof.
  apply (account_number_selects_its_account (Sample.client []) Sample.tfsa
           "001").
  - refine (bool_decide_unpack _ _). vm_compute. exact I.
  - simpl. left. reflexivity.
  - reflexivity.
Defined.

Lemma unknown_account_number_stops_the_command_witness :
  let ws := Sample.client [] in
  Activities.get_account_id_by_number ws "999" = None
  /\ Cli.activities Sample.plain_library (Some ws) false (Some "999") false 50
       Cli.table
     = Cli.Outcome ["Account '" +:+ "999" +:+ "' not found."] 1
  /\ Cli.assets Sample.plain_library (Some ws) false (Some "999") true false
       false Cli.json
     = Cli.Outcome
         [ if false && false
           then "Error: --profits and --losses cannot be used together."
           else "Account '" +:+ "999" +:+ "' not found." ]
         1.
Proof.
  apply (unknown_account_number_stops_the_command Sample.plain_library
           (Sample.client []) "999" false false 50 true false false Cli.json).
  - reflexivity.
  - simpl. repeat constructor; discriminate.
Defined.

Lemma grouping_needs_the_exact_word_table_witness :
  let data := Assets.get_assets_data Sample.one_each None true "CAD" None in
  Driver.print_assets Sample.plain_library Sample.one_each None true "CAD"
    "Table" false None
  = (if false then [nl +:+ "Fetching positions..."] else [])
    ++ [TableFormatter.format_positions data true None]
  /\ Driver.print_assets Sample.plain_library Sample.one_each None true "CAD"
       "table" false None
     = (if false then [nl +:+ "Fetching positions..."] else [])
       ++ Driver._print_positions_by_account TableFormatter.formatter data.
Proof.
  apply (grouping_needs_the_exact_word_table Sample.plain_library
           Sample.one_each None "CAD" "Table" false None).
  - reflexivity.
  - discriminate.
  - vm_compute. discriminate.
Defined.

Lemma empty_reports_print_a_sentence_witness :
  Cli.list_accounts_cmd Sample.plain_library (Some Sample.bare) false true
    false false Cli.json
  = Cli.Outcome
      ((if false then [nl +:+ "Fetching accounts..."] else [])
       ++ ["No accounts found."]) 0
  /\ Cli.activities Sample.plain_library (Some Sample.bare) false None false
       50 Cli.json
     = Cli.Outcome
         ((if false then [nl +:+ "Fetching activities..."] else [])
          ++ ["No activities found."]) 0
  /\ (false && false = false ->
      Cli.assets Sample.plain_library (Some Sample.bare) false None false
        false false Cli.json
      = Cli.Outcome
          ((if false then [nl +:+ "Fetching positions..."] else [])
           ++ ["No positions found."]) 0)
  /\ format_accounts (formatter_of Sample.plain_library Cli.json) [] = "[]"
  /\ format_accounts (formatter_of Sample.plain_library Cli.csv) [] = "".
Proof.
  apply (empty_reports_print_a_sentence Sample.plain_library Sample.bare
           false true false false false false false false 50 Cli.json);
    reflexivity.
Defined.

Lemma cache_changes_no_result_witness :
  let ws := Sample.active [Sample.deposit; Sample.payout; Sample.purchase] in
  Assets.get_assets_data ws None false "CAD" None
  = map (position_alone ws "CAD" None) (scoped_positions ws None "CAD")
  /\ Activities.get_activities_data Sample.plain_library ws None false 50
     = flat_map
         (fun account =>
            map (activity_alone Sample.plain_library ws
                   (Some (Activities.account_label_of account)))
              (reported_activities ws (Raw.acc_id account) false 50))
         (get_accounts ws).
Proof.
  apply (cache_changes_no_result Sample.plain_library
           (Sample.active [Sample.deposit; Sample.payout; Sample.purchase])
           None "CAD" false 50).
  intros before security_id. reflexivity.
Defined.

Lemma scoped_by_account_report_is_the_aggregated_one_labelled_witness :
  let ws := Sample.client [Sample.shared] in
  Assets.get_assets_data ws (Some "acc-1") true "CAD" None
  = map (PositionData.set_account_label
           (Some (Assets._build_account_label Sample.tfsa)))
      (Assets.get_assets_data ws (Some "acc-1") false "CAD" None).
Proof.
  apply (scoped_by_account_report_is_the_aggregated_one_labelled
           (Sample.client [Sample.shared]) "acc-1" Sample.tfsa "CAD" None).
  - reflexivity.
  - vm_compute. reflexivity.
  - refine (bool_decide_unpack _ _). vm_compute. exact I.
Defined.

Lemma by_account_entries_are_the_owning_pairs_witness :
  let ws := Sample.client [Sample.shared] in
  Assets.get_assets_data ws None true "CAD" None
  = map (fun pair =>
           position_alone ws "CAD"
             (Some (Assets._build_account_label (fst pair))) (snd pair))
      (owning_pairs (scoped_positions ws None "CAD")
         (Assets._get_accounts_for_assets ws None)).
Proof.
  apply (by_account_entries_are_the_owning_pairs
           (Sample.client [Sample.shared]) None "CAD").
  - intros before security_id. reflexivity.
  - refine (bool_decide_unpack _ _). vm_compute. exact I.
Defined.

Lemma activities_table_is_a_block_for_each_run_witness :
  let activities :=
    [ Sample.dividend "TFSA (001)"; Sample.dividend "TFSA (001)";
      Sample.dividend "RRSP (002)" ] in
  TableFormatter.format_activities activities
  = join nl
      (concat
         (map activity_block (groupby ActivityData.account_label activities)))
  /\ concat (map snd (groupby ActivityData.account_label activities))
     = activities.
Proof.
  apply (activities_table_is_a_block_for_each_run
           [ Sample.dividend "TFSA (001)"; Sample.dividend "TFSA (001)";
             Sample.dividend "RRSP (002)" ]).
  - discriminate.
  - repeat constructor.
Defined.

Lemma one_account_gives_one_plain_table_witness :
  let ws := Sample.active [Sample.deposit; Sample.payout] in
  let report :=
    Activities.get_activities_data Sample.plain_library ws (Some "acc-1") false
      50 in
  Driver.print_activities Sample.plain_library ws (Some "acc-1") false 50
    "table" false
  = (if false then [nl +:+ "Fetching activities..."] else [])
    ++ [ match report with
         | [] => "No activities found."
         | _ =>
             join nl
               ([ nl +:+ TableFormatter.rule 80;
                  TableFormatter.activity_header;
                  TableFormatter.dashes 80 ]
                ++ map TableFormatter.activity_row report
                ++ [TableFormatter.rule 80])
         end ].
Proof.
  apply (one_account_gives_one_plain_table Sample.plain_library
           (Sample.active [Sample.deposit; Sample.payout]) (Some "acc-1")
           false 50 false).
  reflexivity.
Defined.

Lemma all_accounts_give_a_table_for_each_account_witness :
  let ws := Sample.active [Sample.deposit; Sample.payout] in
  let report :=
    Activities.get_activities_data Sample.plain_library ws None true 50 in
  let groups := Driver.activity_groups report in
  let heading (g : option string * list ActivityData.t) :=
    [ nl +:+ TableFormatter.rule 80;
      "Account: " +:+ or_str (fst g) ""
      +:+ (if true then " - Dividends Only" else "");
      TableFormatter.rule 80;
      TableFormatter.activity_header;
      TableFormatter.dashes 80 ] in
  Driver.print_activities Sample.plain_library ws None true 50 "table" false
  = (if false then [nl +:+ "Fetching activities..."] else [])
    ++ concat
         (map (fun g => heading g ++ map TableFormatter.activity_row (snd g))
            groups)
    ++ [TableFormatter.rule 80]
  /\ Permutation
       (concat (map (fun g => map TableFormatter.activity_row (snd g)) groups))
       (map TableFormatter.activity_row report)
  /\ length
       (Driver.print_activities Sample.plain_library ws None true 50 "table"
          false)
     = (if false then 1 else 0) + 5 * length groups + length report + 1.
Proof.
  apply (all_accounts_give_a_table_for_each_account Sample.plain_library
           (Sample.active [Sample.deposit; Sample.payout]) true 50 false).
  vm_compute. discriminate.
Defined.

End AtTheSamples.
